(** * A shallow embedding of the OSF file gateway

    The development follows the repository's layout:
    - [Py]      : the Python primitives the code relies on (string methods,
                  dicts as JSON objects, exceptions);
    - [Views]   : [website/addons/base/views.py] ([check_access],
                  [create_waterbutler_log]);
    - [Events]  : [website/notifications/events/model.py] (the event
                  registry, [Event.get_event], the [FileEvent] hierarchy);
    - [Github]  : the reference storage provider exercised by
                  [tests/providers/test_github.py];
    - [ViewsAuth], [FileViews], [LegacyView] : the other views of
                  [website/addons/base/views.py] ([get_auth],
                  [check_file_guid], [addon_view_or_download_file],
                  [addon_view_file], the legacy file URLs);
    - [Perform] : [perform] of the events;
    - [Dataverse] : [website/addons/dataverse/views/hgrid.py]. *)

From Stdlib Require Import ZArith NArith Ascii String List Bool Lia.
From stdpp Require Import base option list strings gmap.

Set Warnings "-register-all".

Local Open Scope string_scope.
Local Open Scope Z_scope.

(* ===================================================================== *)
(** * Python primitives *)
(* ===================================================================== *)

Module Py.

(** Exceptions that the modelled code raises or lets escape. *)
Inductive exn : Type :=
| HTTPError (code : Z)
| KeyError
| TypeError
| AttributeError
| ValueError
| NotImplementedError.

(** A computation either raises or returns. *)
Definition result (A : Type) : Type := (exn + A)%type.

Definition ok {A} (a : A) : result A := inr a.
Definition raise {A} (e : exn) : result A := inl e.

Definition rbind {A B} (m : result A) (k : A -> result B) : result B :=
  match m with
  | inl e => inl e
  | inr a => k a
  end.

(** Attribute access on a value that may be [None] *)
Definition attr_of {A} (o : option A) : result A :=
  match o with
  | Some a => ok a
  | None => raise AttributeError
  end.

(** [try: ... except KeyError: handler] *)
Definition except_KeyError {A} (m : result A) (handler : result A) : result A :=
  match m with
  | inl KeyError => handler
  | _ => m
  end.

(** httplib status constants *)
Definition BAD_REQUEST : Z := 400.
Definition UNAUTHORIZED : Z := 401.
Definition FORBIDDEN : Z := 403.
Definition NOT_FOUND : Z := 404.

(** ** str methods *)

Fixpoint in_chars (c : ascii) (chars : string) : bool :=
  match chars with
  | EmptyString => false
  | String d rest => if Ascii.eqb c d then true else in_chars c rest
  end.

(** [s.lstrip(chars)] *)
Fixpoint lstrip (chars s : string) : string :=
  match s with
  | EmptyString => EmptyString
  | String c rest => if in_chars c chars then lstrip chars rest else s
  end.

(** [s.rstrip(chars)] *)
Fixpoint rstrip (chars s : string) : string :=
  match s with
  | EmptyString => EmptyString
  | String c rest =>
      match rstrip chars rest with
      | EmptyString => if in_chars c chars then EmptyString else String c EmptyString
      | r => String c r
      end
  end.

(** [s.strip(chars)] *)
Definition strip (chars s : string) : string := rstrip chars (lstrip chars s).

(** [s.startswith(p)] *)
Definition startswith (p s : string) : bool := String.prefix p s.

(** [s.split(sep)] for a one-character separator *)
Fixpoint split (sep : ascii) (s : string) : list string :=
  match s with
  | EmptyString => [EmptyString]
  | String c rest =>
      if Ascii.eqb c sep then EmptyString :: split sep rest
      else match split sep rest with
           | [] => [String c EmptyString]
           | w :: ws => String c w :: ws
           end
  end.

(** [sep.join(parts)] *)
Definition join (sep : string) (parts : list string) : string :=
  String.concat sep parts.

Definition lower_ascii (c : ascii) : ascii :=
  let n := nat_of_ascii c in
  if (Nat.leb 65 n && Nat.leb n 90)%bool then ascii_of_nat (n + 32) else c.

(** [s.lower()] on ASCII text *)
Fixpoint lower (s : string) : string :=
  match s with
  | EmptyString => EmptyString
  | String c rest => String (lower_ascii c) (lower rest)
  end.

(** [p[:p.rfind('/') + 1]] *)
Fixpoint upto_last_slash (p : string) : string :=
  match p with
  | EmptyString => EmptyString
  | String c rest =>
      match upto_last_slash rest with
      | EmptyString =>
          if Ascii.eqb c "/" then String c EmptyString else EmptyString
      | h => String c h
      end
  end.

(** [os.path.dirname] (posixpath) *)
Definition dirname (p : string) : string :=
  let head := upto_last_slash p in
  if (negb (String.eqb head "") && negb (String.eqb (lstrip "/" head) ""))%bool
  then rstrip "/" head
  else head.

(** The double-quote character, as a one-character string *)
Definition dquote : string := String (ascii_of_nat 34) EmptyString.

(** [needle in haystack] for two strings *)
Fixpoint is_substring (needle hay : string) : bool :=
  if String.prefix needle hay then true
  else match hay with
       | EmptyString => false
       | String _ rest => is_substring needle rest
       end.

(** ** JSON values, the shape of every payload and request body *)

Inductive json : Type :=
| JNull
| JBool (b : bool)
| JNum (n : Z)
| JStr (s : string)
| JArr (items : list json)
| JObj (fields : list (string * json)).

(** Python truthiness of a decoded JSON value *)
Definition truthy (v : json) : bool :=
  match v with
  | JNull => false
  | JBool b => b
  | JNum n => negb (n =? 0)
  | JStr s => negb (String.eqb s "")
  | JArr l => match l with [] => false | _ => true end
  | JObj l => match l with [] => false | _ => true end
  end.

(** ** dict operations on the field list of an object *)

Fixpoint dict_get (k : string) (d : list (string * json)) : option json :=
  match d with
  | [] => None
  | (k', v) :: rest => if String.eqb k k' then Some v else dict_get k rest
  end.

(** [d[k] = v]: overwrite in place, or append a fresh key *)
Fixpoint dict_set (k : string) (v : json) (d : list (string * json))
  : list (string * json) :=
  match d with
  | [] => [(k, v)]
  | (k', v') :: rest =>
      if String.eqb k k' then (k, v) :: rest else (k', v') :: dict_set k v rest
  end.

(** [d.update(other)] *)
Definition dict_update (other d : list (string * json)) : list (string * json) :=
  fold_left (fun acc kv => dict_set (fst kv) (snd kv) acc) other d.

Definition dict_has (k : string) (d : list (string * json)) : bool :=
  match dict_get k d with Some _ => true | None => false end.

(** [v[k]] with a string subscript *)
Definition getitem (v : json) (k : string) : result json :=
  match v with
  | JObj d => match dict_get k d with
              | Some x => ok x
              | None => raise KeyError
              end
  | _ => raise TypeError
  end.

(** [v.get(k)] on the top-level payload, which is always a dict *)
Definition dget (d : list (string * json)) (k : string) : json :=
  match dict_get k d with Some x => x | None => JNull end.

Definition is_jstr (k : string) (v : json) : bool :=
  match v with JStr s => String.eqb s k | _ => false end.

(** [k in v] for a string [k] *)
Definition contains (k : string) (v : json) : result bool :=
  match v with
  | JObj d => ok (dict_has k d)
  | JArr l => ok (existsb (is_jstr k) l)
  | JStr s => ok (is_substring k s)
  | _ => raise TypeError
  end.

(** [v.lstrip(chars)]: only strings have the method *)
Definition json_lstrip (chars : string) (v : json) : result string :=
  match v with
  | JStr s => ok (lstrip chars s)
  | _ => raise AttributeError
  end.

Definition json_strip (chars : string) (v : json) : result string :=
  match v with
  | JStr s => ok (strip chars s)
  | _ => raise AttributeError
  end.

End Py.

Export Py.

Declare Scope py_scope.
Delimit Scope py_scope with py.
Notation "'do' x <- m ; k" := (rbind m (fun x => k))
  (at level 10, x name, m at level 100, k at level 200) : py_scope.
Open Scope py_scope.

(* ===================================================================== *)
(** * Base64, as [base64.b64encode] and [base64.b64decode] compute it *)
(* ===================================================================== *)

Module Base64.

Definition alphabet : string :=
  "ABCDEFGHIJKLMNOPQRSTUVWXYZabcdefghijklmnopqrstuvwxyz0123456789+/".

Definition pad : ascii := "="%char.

(** The character of a six-bit value *)
Definition sextet_char (n : N) : ascii :=
  match String.get (N.to_nat n) alphabet with
  | Some c => c
  | None => pad
  end.

Fixpoint index_of (c : ascii) (s : string) : option N :=
  match s with
  | EmptyString => None
  | String d rest =>
      if Ascii.eqb c d then Some 0%N
      else option_map N.succ (index_of c rest)
  end.

(** The six-bit value of a character of the alphabet *)
Definition char_sextet (c : ascii) : option N := index_of c alphabet.

(** Three bytes become four characters; a last group of one or two bytes
    is padded with [=]. *)
Fixpoint b64encode (bs : list Byte.byte) : string :=
  match bs with
  | [] => EmptyString
  | [a] =>
      let x := Byte.to_N a in
      String (sextet_char (x / 4))
        (String (sextet_char ((x mod 4) * 16))
           (String pad (String pad EmptyString)))
  | [a; b] =>
      let x := Byte.to_N a in
      let y := Byte.to_N b in
      String (sextet_char (x / 4))
        (String (sextet_char ((x mod 4) * 16 + y / 16))
           (String (sextet_char ((y mod 16) * 4))
              (String pad EmptyString)))
  | a :: b :: c :: rest =>
      let x := Byte.to_N a in
      let y := Byte.to_N b in
      let z := Byte.to_N c in
      String (sextet_char (x / 4))
        (String (sextet_char ((x mod 4) * 16 + y / 16))
           (String (sextet_char ((y mod 16) * 4 + z / 64))
              (String (sextet_char (z mod 64))
                 (b64encode rest))))
  end%N.

Definition byte_of (n : N) : option Byte.byte := Byte.of_N n.

(** Decoding of canonical text: groups of four characters, padding only in
    the last group. *)
Fixpoint b64decode (s : string) : option (list Byte.byte) :=
  match s with
  | EmptyString => Some []
  | String c1 (String c2 (String c3 (String c4 rest))) =>
      match char_sextet c1, char_sextet c2 with
      | Some s1, Some s2 =>
          if (Ascii.eqb c3 pad && Ascii.eqb c4 pad)%bool then
            match rest, byte_of (s1 * 4 + s2 / 16) with
            | EmptyString, Some a =>
                if (s2 mod 16 =? 0)%N then Some [a] else None
            | _, _ => None
            end
          else if Ascii.eqb c4 pad then
            match rest, char_sextet c3 with
            | EmptyString, Some s3 =>
                match byte_of (s1 * 4 + s2 / 16),
                      byte_of ((s2 mod 16) * 16 + s3 / 4) with
                | Some a, Some b =>
                    if (s3 mod 4 =? 0)%N then Some [a; b] else None
                | _, _ => None
                end
            | _, _ => None
            end
          else
            match char_sextet c3, char_sextet c4 with
            | Some s3, Some s4 =>
                match byte_of (s1 * 4 + s2 / 16),
                      byte_of ((s2 mod 16) * 16 + s3 / 4),
                      byte_of ((s3 mod 4) * 64 + s4),
                      b64decode rest with
                | Some a, Some b, Some c, Some tail => Some (a :: b :: c :: tail)
                | _, _, _, _ => None
                end
            | _, _ => None
            end
      | _, _ => None
      end
  | _ => None
  end.

(** [bytes.decode('utf-8')] of ASCII text and back: a byte per character *)
Definition bytes_of_string (s : string) : list Byte.byte :=
  List.map byte_of_ascii (list_ascii_of_string s).

End Base64.

(* ===================================================================== *)
(** * The site's models, as far as the views and events use them *)
(* ===================================================================== *)

Module Site.

Record User : Type := mkUser {
  user__id : string;
  user_username : string;
  user_fullname : string;
  user_gravatar_url : string
}.

Record Guid : Type := mkGuid { guid_url : string }.

(** An add-on settings object: [config.full_name] and the GUID lookup. *)
Record Addon : Type := mkAddon {
  config_full_name : string;
  find_or_create_file_guid : string -> Guid
}.

Inductive Node : Type := mkNode {
  node__id : string;
  node_url : string;
  node_absolute_url : string;
  node_title : string;
  node_parent_id : option string;
  has_permission : option User -> string -> bool;
  is_public : bool;
  private_link_keys_active : list string;
  is_registration : bool;
  parent_node : option Node;
  get_addon : string -> option Addon;
  web_url_for : string -> list (string * json) -> string
}.

(** [User.load] and [Node.load] *)
Record Models : Type := mkModels {
  User_load : string -> option User;
  Node_load : string -> option Node
}.

(** A lookup by a value that is not a string finds nothing. *)
Definition load_by {A} (load : string -> option A) (key : json) : option A :=
  match key with
  | JStr s => load s
  | _ => None
  end.

End Site.

Export Site.

(* ===================================================================== *)
(** * website/addons/base/views.py *)
(* ===================================================================== *)

Module Views.

Definition permission_map : list (string * string) :=
  [ ("create_folder", "write");
    ("revisions", "read");
    ("metadata", "read");
    ("download", "read");
    ("upload", "write");
    ("delete", "write");
    ("copy", "write");
    ("move", "write");
    ("copyto", "write");
    ("moveto", "write");
    ("copyfrom", "read");
    ("movefrom", "write") ].

(** [permission_map.get(action, None)] *)
Fixpoint permission_map_get (action : string) (m : list (string * string))
  : option string :=
  match m with
  | [] => None
  | (k, v) :: rest =>
      if String.eqb action k then Some v else permission_map_get action rest
  end.

(** [key in node.private_link_keys_active]; the default [key=None] is in
    no list of keys. *)
Definition key_in (key : option string) (keys : list string) : bool :=
  match key with
  | Some k => existsb (String.eqb k) keys
  | None => false
  end.

(** The [while parent:] loop of [check_access], entered with
    [parent = n]. *)
Fixpoint parents_have_write (user : option User) (n : Node) : bool :=
  if has_permission n user "write" then true
  else match parent_node n with
       | Some p => parents_have_write user p
       | None => false
       end.

Definition check_access (node : Node) (user : option User) (action : string)
    (key : option string) : result bool :=
  match permission_map_get action permission_map with
  | None => raise (HTTPError BAD_REQUEST)
  | Some permission =>
      if has_permission node user permission then ok true
      else if (String.eqb permission "read"
               && (is_public node || key_in key (private_link_keys_active node)))%bool
      then ok true
      else if ((String.eqb action "copyfrom"
                || (String.eqb action "copyto" && is_registration node))
               && match parent_node node with
                  | Some parent => parents_have_write user parent
                  | None => false
                  end)%bool
      then ok true
      else raise (HTTPError (match user with
                             | Some _ => FORBIDDEN
                             | None => UNAUTHORIZED
                             end))
  end.

(** [make_auth]: the auth bundle handed to the storage gateway *)
Definition make_auth (user : option User) : list (string * json) :=
  match user with
  | Some u => [ ("id", JStr (user__id u));
                ("email", JStr (user__id u +:+ "@osf.io"));
                ("name", JStr (user_fullname u)) ]
  | None => []
  end.

(** The [NodeLog] action constants used by [LOG_ACTION_MAP] *)
Inductive NodeLogAction : Type :=
| FILE_MOVED | FILE_COPIED | FILE_ADDED | FILE_UPDATED | FILE_REMOVED
| FOLDER_CREATED.

Definition LOG_ACTION_MAP : list (string * NodeLogAction) :=
  [ ("move", FILE_MOVED);
    ("copy", FILE_COPIED);
    ("create", FILE_ADDED);
    ("update", FILE_UPDATED);
    ("delete", FILE_REMOVED);
    ("create_folder", FOLDER_CREATED) ].

Fixpoint log_action_lookup (k : string) (m : list (string * NodeLogAction))
  : option NodeLogAction :=
  match m with
  | [] => None
  | (k', a) :: rest =>
      if String.eqb k k' then Some a else log_action_lookup k rest
  end.

(** [LOG_ACTION_MAP[v]]: an unhashable subscript is a [TypeError], any
    other missing key a [KeyError]. *)
Definition LOG_ACTION_MAP_getitem (v : json) : result NodeLogAction :=
  match v with
  | JStr s => match log_action_lookup s LOG_ACTION_MAP with
              | Some a => ok a
              | None => raise KeyError
              end
  | JArr _ | JObj _ => raise TypeError
  | _ => raise KeyError
  end.

Definition is_move_or_copy (a : NodeLogAction) : bool :=
  match a with
  | FILE_MOVED | FILE_COPIED => true
  | _ => false
  end.

Inductive MailTemplate : Type := FILE_OPERATION_FAILED | FILE_OPERATION_SUCCESS.

(** The keyword arguments of one [mails.send_mail] call *)
Record Mail : Type := mkMail {
  mail_to : string;
  mail_template : MailTemplate;
  mail_action : json;
  mail_source_node : Node;
  mail_destination_node : Node;
  source_path : json;
  destination_path : json;
  source_addon : json;
  destination_addon : json
}.

(** The calls a run of the view makes to the outside world, in order. *)
Inductive effect : Type :=
| AddLog (node : Node) (action : NodeLogAction) (user : User)
         (params : list (string * json))
| SendMail (m : Mail)
| AddonLog (addon : Addon) (user : User) (action : NodeLogAction)
           (metadata : json).

(** What a collaborator ([add_log], [send_mail], the add-on's logger)
    does when the view calls it: it returns, or it raises.  The view
    catches none of their exceptions. *)
Definition Collaborators : Type := effect -> option exn.

(** The view's monad: a trace of the calls made, kept also when it
    raises. *)
Definition View (A : Type) : Type := list effect -> result A * list effect.

Definition vret {A} (a : A) : View A := fun t => (ok a, t).

Definition vbind {A B} (m : View A) (k : A -> View B) : View B :=
  fun t => match m t with
           | (inl e, t') => (inl e, t')
           | (inr a, t') => k a t'
           end.

Definition lift {A} (r : result A) : View A := fun t => (r, t).

(** A call: it is made, and its exception, if it raises one, becomes the
    view's. *)
Definition emit (world : Collaborators) (e : effect) : View unit :=
  fun t => (match world e with
            | Some x => raise x
            | None => ok tt
            end, (t ++ [e])%list).

Definition when (b : bool) (m : View unit) : View unit :=
  if b then m else vret tt.

Notation "'run' x <- m ; k" := (vbind m (fun x => k))
  (at level 10, x name, m at level 100, k at level 200) : py_scope.

(** [for key in ('provider', 'materialized', 'name', 'nid'):
       if key not in payload[bundle]: raise HTTPError(400)] *)
Fixpoint check_keys (keys : list string) (bundle : json) : result unit :=
  match keys with
  | [] => ok tt
  | key :: rest =>
      do present <- contains key bundle;
      if (present : bool) then check_keys rest bundle
      else raise (HTTPError BAD_REQUEST)
  end.

(** [for bundle in ('source', 'destination'): ...] *)
Fixpoint check_bundles (bundles : list string) (payload : list (string * json))
  : result unit :=
  match bundles with
  | [] => ok tt
  | b :: rest =>
      do bundle <- getitem (JObj payload) b;
      do _ <- check_keys ["provider"; "materialized"; "name"; "nid"] bundle;
      check_bundles rest payload
  end.

Definition opt_str (o : option string) : json :=
  match o with Some s => JStr s | None => JNull end.

(** [payload[bundle].update({...})] of the move/copy branch: the
    dictionary display is evaluated entry by entry, then merged into the
    bundle. *)
Definition update_bundle (nd : Node) (addon : option Addon) (bundle : json)
  : result (list (string * json)) :=
  match bundle with
  | JObj fields =>
      do m <- getitem bundle "materialized";
      do materialized <- json_lstrip "/" m;
      do a <- attr_of addon;
      let full_name := config_full_name a in
      do p <- getitem bundle "path";
      do path <- json_lstrip "/" p;
      do provider <- getitem bundle "provider";
      let url := web_url_for nd "addon_view_or_download_file"
                   [("path", JStr path); ("provider", provider)] in
      ok (dict_update
            [ ("materialized", JStr materialized);
              ("addon", JStr full_name);
              ("url", JStr url);
              ("node", JObj [ ("_id", JStr (node__id nd));
                              ("url", JStr (node_url nd));
                              ("title", JStr (node_title nd)) ]) ]
            fields)
  | _ => raise AttributeError
  end.

Definition is_True (v : json) : bool :=
  match v with JBool true => true | _ => false end.

(** [payload.get('email') is True or payload.get('errors')] *)
Definition notify_condition (payload : list (string * json)) : bool :=
  (is_True (dget payload "email") || truthy (dget payload "errors"))%bool.

(** The move/copy branch, after the user has been loaded. *)
Definition log_move_or_copy (world : Collaborators) (models : Models)
    (payload : list (string * json)) (node : Node) (user : User)
    (action : NodeLogAction) : View unit :=
  run _ <- lift (check_bundles ["source"; "destination"] payload);
  let destination_node := node in
  run src <- lift (getitem (JObj payload) "source");
  run nid <- lift (getitem src "nid");
  run source_node <- lift (attr_of (load_by (Node_load models) nid));
  run sprov <- lift (getitem src "provider");
  let source := load_by (get_addon source_node) sprov in
  run dst <- lift (getitem (JObj payload) "destination");
  run dprov <- lift (getitem dst "provider");
  let destination := load_by (get_addon node) dprov in
  run src' <- lift (update_bundle source_node source src);
  let payload := dict_set "source" (JObj src') payload in
  run dst <- lift (getitem (JObj payload) "destination");
  run dst' <- lift (update_bundle destination_node destination dst);
  let payload := dict_set "destination" (JObj dst') payload in
  let payload :=
    dict_update [ ("node", JStr (node__id destination_node));
                  ("project", opt_str (node_parent_id destination_node)) ]
                payload in
  run _ <- when (negb (truthy (dget payload "errors")))
                (emit world (AddLog destination_node action user payload));
  when (notify_condition payload)
    (run act <- lift (getitem (JObj payload) "action");
     run src <- lift (getitem (JObj payload) "source");
     run spath <- lift (getitem src "path");
     run src2 <- lift (getitem (JObj payload) "source");
     run dpath <- lift (getitem src2 "path");
     run saddon <- lift (getitem src "addon");
     run dst <- lift (getitem (JObj payload) "destination");
     run daddon <- lift (getitem dst "addon");
     emit world (SendMail
       {| mail_to := user_username user;
          mail_template := if truthy (dget payload "errors")
                           then FILE_OPERATION_FAILED
                           else FILE_OPERATION_SUCCESS;
          mail_action := act;
          mail_source_node := source_node;
          mail_destination_node := destination_node;
          source_path := spath;
          destination_path := dpath;
          source_addon := saddon;
          destination_addon := daddon |})).

(** The branch for every other action. *)
Definition log_single (world : Collaborators)
    (payload : list (string * json)) (node : Node) (user : User)
    (action : NodeLogAction) : View unit :=
  run ma <- lift (except_KeyError
                    (do metadata <- getitem (JObj payload) "metadata";
                     do provider <- getitem (JObj payload) "provider";
                     ok (metadata, load_by (get_addon node) provider))
                    (raise (HTTPError BAD_REQUEST)));
  match snd ma with
  | None => lift (raise (HTTPError BAD_REQUEST))
  | Some node_addon =>
      let metadata := fst ma in
      run p <- lift (getitem metadata "path");
      run path <- lift (json_lstrip "/" p);
      match metadata with
      | JObj fields =>
          let metadata := JObj (dict_set "path" (JStr path) fields) in
          emit world (AddonLog node_addon user action metadata)
      | _ => lift (raise TypeError)
      end
  end.

Definition create_waterbutler_log (world : Collaborators) (models : Models)
    (payload : list (string * json)) (node : Node) : View json :=
  run aa <- lift (except_KeyError
                    (do auth <- getitem (JObj payload) "auth";
                     do act <- getitem (JObj payload) "action";
                     do action <- LOG_ACTION_MAP_getitem act;
                     ok (auth, action))
                    (raise (HTTPError BAD_REQUEST)));
  let auth := fst aa in
  let action := snd aa in
  run uid <- lift (getitem auth "id");
  match load_by (User_load models) uid with
  | None => lift (raise (HTTPError BAD_REQUEST))
  | Some user =>
      run _ <- (if is_move_or_copy action
                then log_move_or_copy world models payload node user action
                else log_single world payload node user action);
      vret (JObj [("status", JStr "success")])
  end.

(** The mails of a trace, in order *)
Definition mails (t : list effect) : list Mail :=
  flat_map (fun e => match e with SendMail m => [m] | _ => [] end) t.

(** The metadata handed to add-on loggers, in order *)
Definition addon_logs (t : list effect) : list json :=
  flat_map (fun e => match e with AddonLog _ _ _ md => [md] | _ => [] end) t.

(** What a run of the move/copy branch adds to the mails: nothing, or one
    mail whose two path arguments are both [payload['source']['path']];
    the branch then ends as the mailer does. *)
Definition mail_outcome (world : Collaborators)
    (payload : list (string * json)) (res : result unit)
    (new : list Mail) : Prop :=
  (new = [] /\ (res = ok tt -> notify_condition payload = false))
  \/ (exists m src,
        new = [m]
        /\ res = match world (SendMail m) with
                 | Some x => raise x
                 | None => ok tt
                 end
        /\ notify_condition payload = true /\
        getitem (JObj payload) "source" = ok src /\
        getitem src "path" = ok (destination_path m) /\
        source_path m = destination_path m).

End Views.

(* ===================================================================== *)
(** * website/notifications/events/model.py *)
(* ===================================================================== *)

Module Events.

(** The classes the module defines, in the order of their [class]
    statements. *)
Inductive event_class : Type :=
| Event
| FileEvent
| UpdateFileEvent
| FileAdded
| FileUpdated
| SimpleFileEvent
| FileRemoved
| FolderCreated
| ComplexFileEvent
| AddonFileMoved
| AddonFileCopied.

Definition class_name (c : event_class) : string :=
  match c with
  | Event => "Event"
  | FileEvent => "FileEvent"
  | UpdateFileEvent => "UpdateFileEvent"
  | FileAdded => "FileAdded"
  | FileUpdated => "FileUpdated"
  | SimpleFileEvent => "SimpleFileEvent"
  | FileRemoved => "FileRemoved"
  | FolderCreated => "FolderCreated"
  | ComplexFileEvent => "ComplexFileEvent"
  | AddonFileMoved => "AddonFileMoved"
  | AddonFileCopied => "AddonFileCopied"
  end.

Definition module_classes : list event_class :=
  [ Event; FileEvent; UpdateFileEvent; FileAdded; FileUpdated;
    SimpleFileEvent; FileRemoved; FolderCreated; ComplexFileEvent;
    AddonFileMoved; AddonFileCopied ].

(** [EventMeta.__init__(cls, name, bases, attrs)]: the class attribute
    [registry] is [None] here until the first class creates it; every
    later class shares it and enters itself under its lowercased name. *)
Definition EventMeta_init (registry : option (gmap string event_class))
    (name : string) (cls : event_class) : option (gmap string event_class) :=
  match registry with
  | None => Some ∅
  | Some r => Some (<[lower name := cls]> r)
  end.

(** [Event.registry] once the module is imported *)
Definition registry : gmap string event_class :=
  default ∅
    (fold_left (fun r c => EventMeta_init r (class_name c) c)
               module_classes None).

(** The entries the registry ends up with *)
Definition registered : list (string * event_class) :=
  [ ("fileevent", FileEvent); ("updatefileevent", UpdateFileEvent);
    ("fileadded", FileAdded); ("fileupdated", FileUpdated);
    ("simplefileevent", SimpleFileEvent); ("fileremoved", FileRemoved);
    ("foldercreated", FolderCreated); ("complexfileevent", ComplexFileEvent);
    ("addonfilemoved", AddonFileMoved); ("addonfilecopied", AddonFileCopied) ].

(** The collaborators an event reaches for. *)
Record Env : Type := mkEnv {
  models : Models;
  utcnow : Z;
  (** [str.format] of a value that is not a string *)
  repr : json -> string;
  (** [furl(base)] with [.path] set, then [.url] *)
  furl_with_path : string -> string -> string
}.

(** The attributes of an event object; attributes a class never sets
    stay [None]. *)
Record Instance : Type := mkInstance {
  cls : event_class;
  user : User;
  gravatar_url : string;
  node : Node;
  node_id : string;
  action : string;
  timestamp : Z;
  event : string;
  message : string;
  url : option string;
  payload : json;
  guid : option Guid;
  source_guid : option Guid;
  source_node : option Node;
  source_event_sub : option string;
  source_url : option string
}.

Definition format_arg (env : Env) (v : json) : string :=
  match v with
  | JStr s => s
  | _ => repr env v
  end.

(** [path if path.startswith('/') else '/' + path] *)
Definition with_leading_slash (path : json) : result string :=
  match path with
  | JStr p => ok (if startswith "/" p then p else "/" +:+ p)
  | _ => raise AttributeError
  end.

(** [FileEvent.__init__] *)
Definition FileEvent_init (env : Env) (c : event_class) (u : User) (n : Node)
    (ev : string) (pl : json) : Instance :=
  {| cls := c;
     user := u;
     gravatar_url := user_gravatar_url u;
     node := n;
     node_id := node__id n;
     action := ev;
     timestamp := utcnow env;
     event := ev;
     message := "Blank message";
     url := None;
     payload := pl;
     guid := None;
     source_guid := None;
     source_node := None;
     source_event_sub := None;
     source_url := None |}.

(** Attribute assignments [self.x = v] *)
Definition set_guid (g : Guid) (self : Instance) : Instance :=
  {| cls := cls self; user := user self; gravatar_url := gravatar_url self;
     node := node self; node_id := node_id self; action := action self;
     timestamp := timestamp self; event := event self;
     message := message self; url := url self; payload := payload self;
     guid := Some g;
     source_guid := source_guid self; source_node := source_node self;
     source_event_sub := source_event_sub self;
     source_url := source_url self |}.

Definition set_event (ev : string) (self : Instance) : Instance :=
  {| cls := cls self; user := user self; gravatar_url := gravatar_url self;
     node := node self; node_id := node_id self; action := action self;
     timestamp := timestamp self; event := ev;
     message := message self; url := url self; payload := payload self;
     guid := guid self;
     source_guid := source_guid self; source_node := source_node self;
     source_event_sub := source_event_sub self;
     source_url := source_url self |}.

Definition set_message (m : string) (self : Instance) : Instance :=
  {| cls := cls self; user := user self; gravatar_url := gravatar_url self;
     node := node self; node_id := node_id self; action := action self;
     timestamp := timestamp self; event := event self;
     message := m; url := url self; payload := payload self;
     guid := guid self;
     source_guid := source_guid self; source_node := source_node self;
     source_event_sub := source_event_sub self;
     source_url := source_url self |}.

Definition set_url (u : string) (self : Instance) : Instance :=
  {| cls := cls self; user := user self; gravatar_url := gravatar_url self;
     node := node self; node_id := node_id self; action := action self;
     timestamp := timestamp self; event := event self;
     message := message self; url := Some u; payload := payload self;
     guid := guid self;
     source_guid := source_guid self; source_node := source_node self;
     source_event_sub := source_event_sub self;
     source_url := source_url self |}.

Definition set_source_guid (g : option Guid) (self : Instance) : Instance :=
  {| cls := cls self; user := user self; gravatar_url := gravatar_url self;
     node := node self; node_id := node_id self; action := action self;
     timestamp := timestamp self; event := event self;
     message := message self; url := url self; payload := payload self;
     guid := guid self;
     source_guid := g; source_node := source_node self;
     source_event_sub := source_event_sub self;
     source_url := source_url self |}.

Definition set_source_node (n : option Node) (self : Instance) : Instance :=
  {| cls := cls self; user := user self; gravatar_url := gravatar_url self;
     node := node self; node_id := node_id self; action := action self;
     timestamp := timestamp self; event := event self;
     message := message self; url := url self; payload := payload self;
     guid := guid self;
     source_guid := source_guid self; source_node := n;
     source_event_sub := source_event_sub self;
     source_url := source_url self |}.

Definition set_source_event_sub (e : option string) (self : Instance)
  : Instance :=
  {| cls := cls self; user := user self; gravatar_url := gravatar_url self;
     node := node self; node_id := node_id self; action := action self;
     timestamp := timestamp self; event := event self;
     message := message self; url := url self; payload := payload self;
     guid := guid self;
     source_guid := source_guid self; source_node := source_node self;
     source_event_sub := e;
     source_url := source_url self |}.

Definition set_source_url (u : option string) (self : Instance) : Instance :=
  {| cls := cls self; user := user self; gravatar_url := gravatar_url self;
     node := node self; node_id := node_id self; action := action self;
     timestamp := timestamp self; event := event self;
     message := message self; url := url self; payload := payload self;
     guid := guid self;
     source_guid := source_guid self; source_node := source_node self;
     source_event_sub := source_event_sub self;
     source_url := u |}.

(** [FileEvent.form_guid] *)
Definition FileEvent_form_guid (self : Instance) : result Instance :=
  do provider <- getitem (payload self) "provider";
  let addon := load_by (get_addon (node self)) provider in
  do metadata <- getitem (payload self) "metadata";
  do path <- getitem metadata "path";
  do path <- with_leading_slash path;
  do addon <- attr_of addon;
  ok (set_guid (find_or_create_file_guid addon path) self).

(** [ComplexFileEvent.form_guid] *)
Definition ComplexFileEvent_form_guid (env : Env) (self : Instance)
  : result Instance :=
  do dst <- getitem (payload self) "destination";
  do provider <- getitem dst "provider";
  let addon := load_by (get_addon (node self)) provider in
  do dst <- getitem (payload self) "destination";
  do path <- getitem dst "path";
  do path <- with_leading_slash path;
  do addon <- attr_of addon;
  let self := set_guid (find_or_create_file_guid addon path) self in
  do src <- getitem (payload self) "source";
  do nd <- getitem src "node";
  do nid <- getitem nd "_id";
  let self := set_source_node (load_by (Node_load (models env)) nid) self in
  do source_node <- attr_of (source_node self);
  do src <- getitem (payload self) "source";
  do provider <- getitem src "provider";
  let addon := load_by (get_addon source_node) provider in
  do src <- getitem (payload self) "source";
  do path <- getitem src "path";
  do path <- with_leading_slash path;
  do addon <- attr_of addon;
  ok (set_source_guid (Some (find_or_create_file_guid addon path)) self).

(** [tuple(self.action.split("_"))] unpacked into two or three names *)
Definition unpack2 (parts : list string) : result (string * string) :=
  match parts with
  | [a; b] => ok (a, b)
  | _ => raise ValueError
  end.

Definition unpack3 (parts : list string) : result (string * string * string) :=
  match parts with
  | [a; b; c] => ok (a, b, c)
  | _ => raise ValueError
  end.

Definition underscore : ascii := "_"%char.

(** [FileEvent.form_message] *)
Definition FileEvent_form_message (self : Instance) : result Instance :=
  do fa <- unpack2 (split underscore (action self));
  let f_type := fst fa in
  let act := snd fa in
  do metadata <- getitem (payload self) "metadata";
  do materialized <- getitem metadata "materialized";
  do name <- json_strip "/" materialized;
  ok (set_message (act +:+ " " +:+ f_type +:+ " " +:+ dquote +:+ "<b>" +:+ name +:+ "</b>" +:+ dquote +:+ ".")
                  self).

(** [ComplexFileEvent.form_message] *)
Definition ComplexFileEvent_form_message (env : Env) (self : Instance)
  : result Instance :=
  do afa <- unpack3 (split underscore (action self));
  let f_type := snd (fst afa) in
  do dst <- getitem (payload self) "destination";
  do dm <- getitem dst "materialized";
  do destination_name <- json_strip "/" dm;
  do src <- getitem (payload self) "source";
  do sm <- getitem src "materialized";
  do source_name <- json_strip "/" sm;
  do saddon <- getitem src "addon";
  do snode <- getitem src "node";
  do stitle <- getitem snode "title";
  do daddon <- getitem dst "addon";
  do dnode <- getitem dst "node";
  do dtitle <- getitem dnode "title";
  ok (set_message
        (f_type +:+ " " +:+ dquote +:+ "<b>" +:+ source_name +:+ "</b>"
         +:+ dquote +:+ " from "
         +:+ format_arg env saddon +:+ " in " +:+ format_arg env stitle
         +:+ " to " +:+ dquote +:+ "<b>" +:+ destination_name +:+ "</b>"
         +:+ dquote +:+ " in "
         +:+ format_arg env daddon +:+ " in " +:+ format_arg env dtitle)
        self).

(** [AddonFileCopied.form_message] *)
Definition AddonFileCopied_form_message (env : Env) (self : Instance)
  : result Instance :=
  do self <- ComplexFileEvent_form_message env self;
  ok (set_message
        (message self +:+
         " You are not subscribed to the new file, follow link to add subscription.")
        self).

(** A [furl] object: the URL it was parsed from and the path assigned
    to it since, if any. *)
Record Furl : Type := mkFurl {
  furl_source : string;
  furl_path : option string
}.

Definition furl (u : string) : Furl :=
  {| furl_source := u; furl_path := None |}.

Definition furl_set_path (p : string) (f : Furl) : Furl :=
  {| furl_source := furl_source f; furl_path := Some p |}.

(** [f_url.url] *)
Definition furl_url (env : Env) (f : Furl) : string :=
  match furl_path f with
  | Some p => furl_with_path env (furl_source f) p
  | None => furl_source f
  end.

(** [FileEvent.form_event] *)
Definition FileEvent_form_event (self : Instance) : result Instance :=
  ok (set_event "file_updated" self).

(** [UpdateFileEvent.form_event] *)
Definition UpdateFileEvent_form_event (self : Instance) : result Instance :=
  do g <- attr_of (guid self);
  ok (set_event (strip "/" (guid_url g) +:+ "_file_updated") self).

(** [ComplexFileEvent.form_event] *)
Definition ComplexFileEvent_form_event (self : Instance) : result Instance :=
  do g <- attr_of (guid self);
  let self := set_event (strip "/" (guid_url g) +:+ "_file_updated") self in
  do sg <- attr_of (source_guid self);
  ok (set_source_event_sub
        (Some (strip "/" (guid_url sg) +:+ "_file_updated")) self).

(** [FileEvent.form_url]: returns the [furl] of the node, sets nothing *)
Definition FileEvent_form_url (self : Instance) : result (Instance * Furl) :=
  ok (self, furl (node_absolute_url (node self))).

(** [UpdateFileEvent.form_url] *)
Definition UpdateFileEvent_form_url (env : Env) (self : Instance)
  : result Instance :=
  do sf <- FileEvent_form_url self;
  do g <- attr_of (guid (fst sf));
  let f_url := furl_set_path (guid_url g) (snd sf) in
  ok (set_url (furl_url env f_url) (fst sf)).

(** [SimpleFileEvent.form_url] *)
Definition SimpleFileEvent_form_url (env : Env) (self : Instance)
  : result Instance :=
  do sf <- FileEvent_form_url self;
  let self := fst sf in
  let f_url :=
    furl_set_path (web_url_for (node self) "collect_file_trees" []) (snd sf) in
  ok (set_url (furl_url env f_url) self).

(** [ComplexFileEvent.form_url] *)
Definition ComplexFileEvent_form_url (env : Env) (self : Instance)
  : result (Instance * Furl) :=
  do sf <- FileEvent_form_url self;
  do g <- attr_of (guid (fst sf));
  let f_url := furl_set_path (guid_url g) (snd sf) in
  ok (set_url (furl_url env f_url) (fst sf), f_url).

(** [AddonFileMoved.form_url] *)
Definition AddonFileMoved_form_url (env : Env) (self : Instance)
  : result Instance :=
  do sf <- ComplexFileEvent_form_url env self;
  let self := fst sf in
  let f_url :=
    furl_set_path (web_url_for (node self) "collect_file_trees" []) (snd sf) in
  ok (set_source_url (Some (furl_url env f_url)) self).

(** [AddonFileCopied.form_url] *)
Definition AddonFileCopied_form_url (env : Env) (self : Instance)
  : result Instance :=
  do sf <- ComplexFileEvent_form_url env self;
  let self := fst sf in
  do sg <- attr_of (source_guid self);
  let f_url := furl_set_path (guid_url sg) (snd sf) in
  ok (set_source_url (Some (furl_url env f_url)) self).

(** ** Method resolution: which definition [self.form_x()] reaches *)

Definition form_guid (env : Env) (self : Instance) : result Instance :=
  match cls self with
  | Event => raise AttributeError
  | ComplexFileEvent | AddonFileMoved | AddonFileCopied =>
      ComplexFileEvent_form_guid env self
  | _ => FileEvent_form_guid self
  end.

Definition form_event (self : Instance) : result Instance :=
  match cls self with
  | Event => raise NotImplementedError
  | UpdateFileEvent | FileAdded | FileUpdated => UpdateFileEvent_form_event self
  | ComplexFileEvent | AddonFileMoved | AddonFileCopied =>
      ComplexFileEvent_form_event self
  | _ => FileEvent_form_event self
  end.

Definition form_message (env : Env) (self : Instance) : result Instance :=
  match cls self with
  | Event => raise NotImplementedError
  | ComplexFileEvent | AddonFileMoved => ComplexFileEvent_form_message env self
  | AddonFileCopied => AddonFileCopied_form_message env self
  | _ => FileEvent_form_message self
  end.

(** The [furl] some definitions return is dropped by every caller in
    [__init__]. *)
Definition form_url (env : Env) (self : Instance) : result Instance :=
  match cls self with
  | Event => raise NotImplementedError
  | FileEvent => do sf <- FileEvent_form_url self; ok (fst sf)
  | UpdateFileEvent | FileAdded | FileUpdated => UpdateFileEvent_form_url env self
  | SimpleFileEvent | FileRemoved | FolderCreated =>
      SimpleFileEvent_form_url env self
  | ComplexFileEvent => do sf <- ComplexFileEvent_form_url env self; ok (fst sf)
  | AddonFileMoved => AddonFileMoved_form_url env self
  | AddonFileCopied => AddonFileCopied_form_url env self
  end.

(** ** Constructors *)

(** [UpdateFileEvent.__init__] *)
Definition UpdateFileEvent_init (env : Env) (c : event_class) (u : User)
    (n : Node) (ev : string) (pl : json) : result Instance :=
  let self := FileEvent_init env c u n ev pl in
  do self <- form_guid env self;
  do self <- form_event self;
  do self <- form_message env self;
  form_url env self.

(** [SimpleFileEvent.__init__] *)
Definition SimpleFileEvent_init (env : Env) (c : event_class) (u : User)
    (n : Node) (ev : string) (pl : json) : result Instance :=
  let self := FileEvent_init env c u n ev pl in
  do self <- form_event self;
  do self <- form_message env self;
  form_url env self.

(** [ComplexFileEvent.__init__] *)
Definition ComplexFileEvent_init (env : Env) (c : event_class) (u : User)
    (n : Node) (ev : string) (pl : json) : result Instance :=
  let self := FileEvent_init env c u n ev pl in
  let self := set_source_guid None self in
  let self := set_source_node None self in
  do self <- form_guid env self;
  let self := set_source_event_sub None self in
  do self <- form_event self;
  let self := set_source_url None self in
  do self <- form_url env self;
  form_message env self.

(** Binding [**kwargs] to the one keyword parameter [payload=None] *)
Fixpoint bind_kwargs (kwargs : list (string * json)) (pl : json) : result json :=
  match kwargs with
  | [] => ok pl
  | (k, v) :: rest =>
      if String.eqb k "payload" then bind_kwargs rest v else raise TypeError
  end.

(** [c(user, node, event, **kwargs)] *)
Definition construct (env : Env) (c : event_class) (u : User) (n : Node)
    (ev : string) (kwargs : list (string * json)) : result Instance :=
  match c with
  | Event => raise TypeError
  | FileEvent =>
      do pl <- bind_kwargs kwargs JNull; ok (FileEvent_init env c u n ev pl)
  | UpdateFileEvent | FileAdded | FileUpdated =>
      do pl <- bind_kwargs kwargs JNull; UpdateFileEvent_init env c u n ev pl
  | SimpleFileEvent | FileRemoved | FolderCreated =>
      do pl <- bind_kwargs kwargs JNull; SimpleFileEvent_init env c u n ev pl
  | ComplexFileEvent | AddonFileMoved | AddonFileCopied =>
      do pl <- bind_kwargs kwargs JNull; ComplexFileEvent_init env c u n ev pl
  end.

(** [Event.get_event] *)
Definition get_event (env : Env) (u : User) (n : Node) (ev : string)
    (kwargs : list (string * json)) : result Instance :=
  let kind := join "" (split underscore ev) in
  match registry !! kind with
  | Some c => construct env c u n ev kwargs
  | None => raise TypeError
  end.

End Events.

(* ===================================================================== *)
(** * The reference storage provider (tests/providers/test_github.py) *)
(* ===================================================================== *)

Module Github.

(** Modelled from the spec: the provider class itself
    ([waterbutler.providers.contrib.github.GithubProvider]), its
    exceptions and its streams are not among the sources; only its test
    module is.  Every definition of this module follows sections 3, 4 and
    8 of the specification and the calls the tests make. *)

(** Modelled from the spec: ErrorTaxonomy (4.4).  Each kind keeps the
    backend status it was raised for (section 7); a record that cannot be
    serialized fails with the name of the offending field (4.5). *)
Inductive gateway_error : Type :=
| NotFound (status : Z)
| Conflict (status : Z)
| Unauthorized (status : Z)
| Forbidden (status : Z)
| BackendError (status : Z)
| TransportError
| SerializationError (field : string).

Definition gateway (A : Type) : Type := (gateway_error + A)%type.

(** Modelled from the spec: a response is a success exactly when its
    status is 2xx (4.3, step 5). *)
Definition is_success (status : Z) : bool :=
  ((200 <=? status) && (status <? 300))%bool.

(** Modelled from the spec: ErrorTaxonomy (4.4), status to kind. *)
Definition classify (status : Z) : gateway_error :=
  if status =? 404 then NotFound status
  else if status =? 409 then Conflict status
  else if status =? 401 then Unauthorized status
  else if status =? 403 then Forbidden status
  else BackendError status.


(** ** Identity, committer, URLs *)

(** The [auth] and [identity] fixtures of the tests *)
Record Auth : Type := mkAuth { auth_name : string; auth_email : string }.

Record Identity : Type := mkIdentity {
  owner : string;
  repo : string;
  token : string
}.

(** [GithubProvider(auth, identity)] *)
Record Provider : Type := mkProvider {
  auth : Auth;
  identity : Identity
}.

(** Modelled from the spec: [committer] (4.2), as [test_committer]
    expects it. *)
Definition committer (p : Provider) : json :=
  JObj [ ("name", JStr (auth_name (auth p)));
         ("email", JStr (auth_email (auth p))) ].

(** Modelled from the spec: [buildUrl] (4.2) joins a fixed backend root
    with the segments.  A URL is kept as its list of segments below the
    root; the percent-encoding of its rendering is not modelled. *)
Record Url : Type := mkUrl { segments : list string }.

Definition build_url (segs : list string) : Url := {| segments := segs |}.

(** As [test_build_repo_url] expects it *)
Definition build_repo_url (p : Provider) (segs : list string) : Url :=
  build_url ("repos" :: owner (identity p) :: repo (identity p) :: segs).

Definition url_eqb (u v : Url) : bool :=
  bool_decide (segments u = segments v).

(** ** The backend: requests out, responses in *)

Inductive method : Type := GET | PUT | DELETE.

Record Request : Type := mkRequest {
  req_method : method;
  req_url : Url;
  (** the optional revision of a download *)
  req_revision : option string;
  (** the JSON body, [json.dumps(data)] *)
  req_data : option json
}.

(** A response: its status, its raw bytes, and the value its bytes
    decode to when they are JSON. *)
Record Response : Type := mkResponse {
  status : Z;
  raw : list Byte.byte;
  decoded : option json
}.

(** A backend answers a request, or the transport fails. *)
Definition Backend : Type := Request -> option Response.

(** The provider's monad: the backend is read, the calls made are
    logged in order, and an operation either fails with a gateway error
    or returns. *)
Definition Gw (A : Type) : Type :=
  Backend -> list Request -> gateway A * list Request.

Definition gret {A} (a : A) : Gw A := fun _ calls => (inr a, calls).

Definition gfail {A} (e : gateway_error) : Gw A := fun _ calls => (inl e, calls).

Definition gbind {A B} (m : Gw A) (k : A -> Gw B) : Gw B :=
  fun backend calls =>
    match m backend calls with
    | (inl e, calls') => (inl e, calls')
    | (inr a, calls') => k a backend calls'
    end.

(** One HTTP call; no retry (4.4). *)
Definition make_request (r : Request) : Gw Response :=
  fun backend calls =>
    match backend r with
    | Some resp => (inr resp, (calls ++ [r])%list)
    | None => (inl TransportError, (calls ++ [r])%list)
    end.

(** [try ... except NotFound: handler] *)
Definition catch_not_found {A} (m : Gw A) (handler : Gw A) : Gw A :=
  fun backend calls =>
    match m backend calls with
    | (inl (NotFound _), calls') => handler backend calls'
    | r => r
    end.

Definition glift {A} (r : gateway A) : Gw A := fun _ calls => (r, calls).

Notation "'call' x <- m ; k" := (gbind m (fun x => k))
  (at level 10, x name, m at level 100, k at level 200) : py_scope.

(** Run an operation against a backend, from an empty call log. *)
Definition run_gw {A} (m : Gw A) (backend : Backend) : gateway A * list Request :=
  m backend [].

(** ** ByteStream (4.1) *)

(** Modelled from the spec: one source, a read cursor that only
    advances, a fixed total size. *)
Record ByteStream : Type := mkStream {
  source : list Byte.byte;
  cursor : nat
}.

Definition stream_of (bs : list Byte.byte) : ByteStream :=
  {| source := bs; cursor := 0 |}.

Definition size (st : ByteStream) : nat := length (source st).

(** [read(maxBytes)]: a chunk of at most [n] bytes and the advanced
    stream; empty at end of data. *)
Definition read (n : nat) (st : ByteStream) : list Byte.byte * ByteStream :=
  let chunk := firstn n (skipn (cursor st) (source st)) in
  (chunk, {| source := source st; cursor := (cursor st + length chunk)%nat |}).

(** Full consumption *)
Definition read_all (st : ByteStream) : list Byte.byte * ByteStream :=
  read (length (source st) - cursor st) st.

(** ** MetadataRecord and its serialization (3, 4.5) *)

Inductive kind : Type := file | folder.

Record MetadataRecord : Type := mkMetadata {
  md_kind : kind;
  md_name : string;
  md_path : string;
  md_size : Z;
  md_hash : string;
  md_url : option string;
  md_links : list (string * json)
}.

Definition required_string (field : string) (d : list (string * json))
  : gateway string :=
  match dict_get field d with
  | Some (JStr s) => inr s
  | _ => inl (SerializationError field)
  end.

Definition optional_string (field : string) (d : list (string * json))
  : option string :=
  match dict_get field d with
  | Some (JStr s) => Some s
  | _ => None
  end.

Definition parse_kind (d : list (string * json)) : gateway kind :=
  match dict_get "type" d with
  | Some (JStr t) =>
      if String.eqb t "file" then inr file
      else if String.eqb t "dir" then inr folder
      else inl (SerializationError "type")
  | _ => inl (SerializationError "type")
  end.

(** [size] is required, but defaults to 0 for a folder. *)
Definition parse_size (k : kind) (d : list (string * json)) : gateway Z :=
  match dict_get "size" d, k with
  | Some (JNum n), _ =>
      if 0 <=? n then inr n else inl (SerializationError "size")
  | None, folder => inr 0
  | _, _ => inl (SerializationError "size")
  end.

Definition gw_bind {A B} (m : gateway A) (k : A -> gateway B) : gateway B :=
  match m with
  | inl e => inl e
  | inr a => k a
  end.

Notation "'get' x <- m ; k" := (gw_bind m (fun x => k))
  (at level 10, x name, m at level 100, k at level 200) : py_scope.

(** Modelled from the spec: [_serialize_metadata] (4.5), a pure function
    from a backend fragment to the normalized record. *)
Definition _serialize_metadata (item : json) : gateway MetadataRecord :=
  match item with
  | JObj d =>
      get k <- parse_kind d;
      get name <- required_string "name" d;
      get path <- required_string "path" d;
      get sz <- parse_size k d;
      get sha <- required_string "sha" d;
      inr {| md_kind := k;
             md_name := name;
             md_path := path;
             md_size := sz;
             md_hash := sha;
             md_url := optional_string "url" d;
             md_links := match dict_get "_links" d with
                         | Some (JObj l) => l
                         | _ => []
                         end |}
  | _ => inl (SerializationError "type")
  end.

(** [[_serialize_metadata(item) for item in data]] *)
Fixpoint serialize_all (items : list json) : gateway (list MetadataRecord) :=
  match items with
  | [] => inr []
  | item :: rest =>
      get r <- _serialize_metadata item;
      get rs <- serialize_all rest;
      inr (r :: rs)
  end.

(** ** Operations (4.2, 4.3) *)

Inductive Metadata : Type :=
| One (r : MetadataRecord)
| Listing (rs : list MetadataRecord).

Definition gw_map {A B} (f : A -> B) (m : gateway A) : gateway B :=
  match m with
  | inl e => inl e
  | inr a => inr (f a)
  end.

(** Modelled from the spec: [metadata(path)] (4.2), as [test_metadata]
    calls it: one GET on the contents URL of the path; a JSON array is a
    folder listing, serialized entry by entry in order. *)
Definition metadata_request (p : Provider) (path : string) : Request :=
  {| req_method := GET;
     req_url := build_repo_url p ["contents"; path];
     req_revision := None;
     req_data := None |}.

Definition metadata (p : Provider) (path : string) : Gw Metadata :=
  call resp <- make_request (metadata_request p path);
  if is_success (status resp) then
    match decoded resp with
    | Some (JArr items) => glift (gw_map Listing (serialize_all items))
    | Some item => glift (gw_map One (_serialize_metadata item))
    | None => gfail (SerializationError "body")
    end
  else gfail (classify (status resp)).

(** Modelled from the spec: [download(path, revision?)] (4.2), as
    [test_download] calls it: one GET on the blob URL; the stream wraps
    the bytes of a successful response only, and any other response
    raises the error of the taxonomy (4.4) for its status: [NotFound]
    if the blob is absent, [BackendError{status}] for a status that has
    no kind of its own. *)
Definition download_request (p : Provider) (path : string)
    (revision : option string) : Request :=
  {| req_method := GET;
     req_url := build_repo_url p ["git"; "blobs"; path];
     req_revision := revision;
     req_data := None |}.

Definition download (p : Provider) (path : string) (revision : option string)
  : Gw ByteStream :=
  call resp <- make_request (download_request p path revision);
  if is_success (status resp) then gret (stream_of (raw resp))
  else gfail (classify (status resp)).

(** Modelled from the spec: steps 1 and 2 of the upload algorithm (4.3):
    the metadata probe of the containing folder, where not-found means
    an empty folder. *)
Definition probe (p : Provider) (path : string) : Gw (list MetadataRecord) :=
  catch_not_found
    (call m <- metadata p (dirname path);
     gret (match m with
           | Listing rs => rs
           | One r => [r]
           end))
    (gret []).

(** Modelled from the spec: step 3, the scan for the exact target path. *)
Definition find_existing (path : string) (listing : list MetadataRecord)
  : option MetadataRecord :=
  List.find (fun r => String.eqb (md_path r) path) listing.

(** Modelled from the spec: step 4, the write body, with the keys in the
    order of [test_upload_update]. *)
Definition upload_data (p : Provider) (path message : string)
    (content : list Byte.byte) (existing : option MetadataRecord) : json :=
  JObj ([ ("path", JStr path);
          ("message", JStr message);
          ("content", JStr (Base64.b64encode content));
          ("committer", committer p) ]
        ++ match existing with
           | Some r => [("sha", JStr (md_hash r))]
           | None => []
           end)%list.

Definition parse_record (resp : Response) : gateway MetadataRecord :=
  match decoded resp with
  | Some item => _serialize_metadata item
  | None => inl (SerializationError "body")
  end.

(** Modelled from the spec: step 5, the one write call. *)
Definition upload_request (p : Provider) (path : string) (data : json)
  : Request :=
  {| req_method := PUT;
     req_url := build_repo_url p ["contents"; path];
     req_revision := None;
     req_data := Some data |}.

(** Modelled from the spec: [upload(stream, path, message)] (4.3). *)
Definition upload (p : Provider) (stream : ByteStream) (path message : string)
  : Gw MetadataRecord :=
  call listing <- probe p path;
  let existing := find_existing path listing in
  let content := fst (read_all stream) in
  call resp <- make_request
                 (upload_request p path
                    (upload_data p path message content existing));
  if is_success (status resp) then glift (parse_record resp)
  else gfail (classify (status resp)).

(** Modelled from the spec: the delete request (3), with the keys in the
    order of [test_delete_with_branch]. *)
Definition delete_data (p : Provider) (message sha : string)
    (branch : option string) : json :=
  JObj ([ ("message", JStr message);
          ("sha", JStr sha);
          ("committer", committer p) ]
        ++ match branch with
           | Some b => [("branch", JStr b)]
           | None => []
           end)%list.

(** Modelled from the spec: [delete(path, message, contentHash, branch?)]
    (4.2). *)
Definition delete_request (p : Provider) (path : string) (data : json)
  : Request :=
  {| req_method := DELETE;
     req_url := build_repo_url p ["contents"; path];
     req_revision := None;
     req_data := Some data |}.

Definition delete (p : Provider) (path message sha : string)
    (branch : option string) : Gw unit :=
  call resp <- make_request
                 (delete_request p path (delete_data p message sha branch));
  if is_success (status resp) then gret tt
  else gfail (classify (status resp)).

(** The calls of a log that mutate the backend *)
Definition is_write (r : Request) : bool :=
  match req_method r with
  | GET => false
  | PUT | DELETE => true
  end.

Definition writes (calls : list Request) : list Request :=
  List.filter is_write calls.

(** ** A backend with canned answers, as the tests register them *)

Definition method_eqb (a b : method) : bool :=
  match a, b with
  | GET, GET | PUT, PUT | DELETE, DELETE => true
  | _, _ => false
  end.

(** [aiopretty.register_uri(method, url, ...)]: the first registration
    for the method and URL of a request answers it; a request nobody
    registered fails in transport. *)
Fixpoint registered_backend (registry : list (method * Url * Response))
  : Backend :=
  fun r =>
    match registry with
    | [] => None
    | (m, u, resp) :: rest =>
        if (method_eqb m (req_method r) && url_eqb u (req_url r))%bool
        then Some resp
        else registered_backend rest r
    end.

End Github.

(* ===================================================================== *)
(** * Concrete users, nodes, payloads and backends *)
(* ===================================================================== *)

Module Fixtures.

Import Views.

Definition cat : User :=
  {| user__id := "cat01";
     user_username := "cat@cat.com";
     user_fullname := "Cat";
     user_gravatar_url := "https://gravatar.example/cat" |}.

Definition osfstorage : Addon :=
  {| config_full_name := "OSF Storage";
     find_or_create_file_guid := fun path => {| guid_url := "/guid" +:+ path +:+ "/" |} |}.

Definition addons (name : string) : option Addon :=
  if String.eqb name "osfstorage" then Some osfstorage else None.

(** A private project nobody has permissions on, with one active
    view-only link. *)
Definition private_project : Node :=
  {| node__id := "proj1";
     node_url := "/proj1/";
     node_absolute_url := "https://osf.example/proj1/";
     node_title := "Snacks";
     node_parent_id := None;
     has_permission := fun _ _ => false;
     is_public := false;
     private_link_keys_active := ["s3cr3t"];
     is_registration := false;
     parent_node := None;
     get_addon := addons;
     web_url_for := fun view kwargs =>
       match dict_get "path" kwargs with
       | Some (JStr path) => "/proj1/files/" +:+ path
       | _ => "/proj1/files/"
       end |}.

Definition site : Models :=
  {| User_load := fun id => if String.eqb id "cat01" then Some cat else None;
     Node_load := fun id =>
       if String.eqb id "proj1" then Some private_project else None |}.

Definition bundle (path : string) : json :=
  JObj [ ("provider", JStr "osfstorage");
         ("materialized", JStr path);
         ("name", JStr "place.txt");
         ("nid", JStr "proj1");
         ("path", JStr path) ].

(** A move from [/old/place.txt] to [/new/place.txt], with the e-mail
    flag set. *)
Definition move_payload : list (string * json) :=
  [ ("auth", JObj [("id", JStr "cat01")]);
    ("action", JStr "move");
    ("email", JBool true);
    ("source", bundle "/old/place.txt");
    ("destination", bundle "/new/place.txt") ].

(** An upload of [/a/x], as the gateway reports it. *)
Definition create_payload : list (string * json) :=
  [ ("auth", JObj [("id", JStr "cat01")]);
    ("action", JStr "create");
    ("provider", JStr "osfstorage");
    ("metadata", JObj [ ("path", JStr "/a/x");
                        ("materialized", JStr "/a/x");
                        ("name", JStr "x") ]) ].

(** Every collaborator returns. *)
Definition obliging : Collaborators := fun _ => None.

Definition events_env : Events.Env :=
  {| Events.models := site;
     Events.utcnow := 1438000000;
     Events.repr := fun _ => "<object>";
     Events.furl_with_path := fun _ path => "https://osf.example" +:+ path |}.

(** *** The fixtures of tests/providers/test_github.py *)

Definition auth : Github.Auth :=
  {| Github.auth_name := "cat"; Github.auth_email := "cat@cat.com" |}.

Definition identity : Github.Identity :=
  {| Github.owner := "cat"; Github.repo := "food"; Github.token := "naps" |}.

Definition provider : Github.Provider :=
  {| Github.auth := auth; Github.identity := identity |}.

Definition file_content : list Byte.byte := Base64.bytes_of_string "hungry".

Definition octokit_rb : json :=
  JObj [ ("type", JStr "file");
         ("size", JNum 625);
         ("name", JStr "octokit.rb");
         ("path", JStr "lib/octokit.rb");
         ("sha", JStr "fff6fe3a23bf1c8ea0692b4a883af99bee26fd3b");
         ("url", JStr "https://api.github.com/repos/pengwynn/octokit/contents/lib/octokit.rb");
         ("git_url", JStr "https://api.github.com/repos/pengwynn/octokit/git/blobs/fff6fe3a23bf1c8ea0692b4a883af99bee26fd3b");
         ("html_url", JStr "https://github.com/pengwynn/octokit/blob/master/lib/octokit.rb");
         ("_links",
          JObj [ ("self", JStr "https://api.github.com/repos/pengwynn/octokit/contents/lib/octokit.rb");
                 ("git", JStr "https://api.github.com/repos/pengwynn/octokit/git/blobs/fff6fe3a23bf1c8ea0692b4a883af99bee26fd3b");
                 ("html", JStr "https://github.com/pengwynn/octokit/blob/master/lib/octokit.rb") ]) ].

Definition octokit_dir : json :=
  JObj [ ("type", JStr "dir");
         ("size", JNum 0);
         ("name", JStr "octokit");
         ("path", JStr "lib/octokit");
         ("sha", JStr "a84d88e7554fc1fa21bcbc4efae3c782a70d2b9d");
         ("url", JStr "https://api.github.com/repos/pengwynn/octokit/contents/lib/octokit");
         ("git_url", JStr "https://api.github.com/repos/pengwynn/octokit/git/trees/a84d88e7554fc1fa21bcbc4efae3c782a70d2b9d");
         ("html_url", JStr "https://github.com/pengwynn/octokit/tree/master/lib/octokit");
         ("_links",
          JObj [ ("self", JStr "https://api.github.com/repos/pengwynn/octokit/contents/lib/octokit");
                 ("git", JStr "https://api.github.com/repos/pengwynn/octokit/git/trees/a84d88e7554fc1fa21bcbc4efae3c782a70d2b9d");
                 ("html", JStr "https://github.com/pengwynn/octokit/tree/master/lib/octokit") ]) ].

Definition repo_contents : list json := [octokit_rb; octokit_dir].

Definition json_response (status : Z) (value : json) : Github.Response :=
  {| Github.status := status; Github.raw := []; Github.decoded := Some value |}.

Definition raw_response (status : Z) (bytes : list Byte.byte) : Github.Response :=
  {| Github.status := status; Github.raw := bytes; Github.decoded := None |}.

(** [test_download] and [test_download_bad_status] *)
Definition download_backend (status : Z) : Github.Backend :=
  Github.registered_backend
    [ (Github.GET, Github.build_repo_url provider ["git"; "blobs"; "mysha"],
       raw_response status (Base64.bytes_of_string "delicious")) ].

(** [test_metadata] *)
Definition metadata_backend : Github.Backend :=
  Github.registered_backend
    [ (Github.GET, Github.build_repo_url provider ["contents"; "snacks"],
       json_response 200 (JArr repo_contents)) ].

(** [test_upload_create]: the target is the reversed path of the first
    entry, which the listing does not hold. *)
Definition new_path : string := "br.tikotco/bil".

Definition upload_create_backend : Github.Backend :=
  Github.registered_backend
    [ (Github.GET, Github.build_repo_url provider ["contents"; dirname new_path],
       json_response 201 (JArr repo_contents));
      (Github.PUT, Github.build_repo_url provider ["contents"; new_path],
       json_response 201 octokit_rb) ].

(** [test_upload_update] *)
Definition upload_update_backend : Github.Backend :=
  Github.registered_backend
    [ (Github.GET, Github.build_repo_url provider ["contents"; "lib"],
       json_response 200 (JArr repo_contents));
      (Github.PUT, Github.build_repo_url provider ["contents"; "lib/octokit.rb"],
       json_response 200 octokit_rb) ].

(** A folder that does not exist yet *)
Definition upload_fresh_backend : Github.Backend :=
  Github.registered_backend
    [ (Github.GET, Github.build_repo_url provider ["contents"; "snacks"],
       json_response 404 (JObj [("message", JStr "Not Found")]));
      (Github.PUT, Github.build_repo_url provider ["contents"; "snacks/new.txt"],
       json_response 201 octokit_rb) ].


(** The listing of [repo_contents], serialized *)
Definition repo_records : list Github.MetadataRecord :=
  match Github.serialize_all repo_contents with
  | inr rs => rs
  | inl _ => []
  end.

(** The payload of a [file_added] event for the upload above, with the
    metadata as [create_waterbutler_log] leaves it. *)
Definition file_added_payload : json :=
  JObj [ ("provider", JStr "osfstorage");
         ("metadata", JObj [ ("path", JStr "a/x");
                             ("materialized", JStr "/a/x");
                             ("name", JStr "x") ]) ].

End Fixtures.

(* ===================================================================== *)
(** * The parent chain of a node *)
(* ===================================================================== *)

Module Lineage.

(** The nodes that the loop [parent = parent.parent_node] of
    [check_access] visits when it is entered at [n]. *)
Fixpoint chain (n : Node) : list Node :=
  n :: match parent_node n with
       | Some p => chain p
       | None => []
       end.

(** [node.parent_node], its parent, and so on up to the root *)
Definition ancestors (n : Node) : list Node :=
  match parent_node n with
  | Some p => chain p
  | None => []
  end.

(** [action == 'copyfrom' or (action == 'copyto' and node.is_registration)] *)
Definition escalates (node : Node) (action : string) : Prop :=
  action = "copyfrom" \/ (action = "copyto" /\ is_registration node = true).

End Lineage.

(* ===================================================================== *)
(** * More users and nodes *)
(* ===================================================================== *)

Module Family.

(** A public project on which only its owner, [cat01], may write. *)
Definition public_project : Node :=
  {| node__id := "pub01";
     node_url := "/pub01/";
     node_absolute_url := "https://osf.example/pub01/";
     node_title := "Open snacks";
     node_parent_id := None;
     has_permission := fun u _ =>
       match u with
       | Some u => String.eqb (user__id u) "cat01"
       | None => false
       end;
     is_public := true;
     private_link_keys_active := ["s3cr3t"];
     is_registration := false;
     parent_node := None;
     get_addon := Fixtures.addons;
     web_url_for := fun _ _ => "/pub01/files/" |}.

Definition dog : User :=
  {| user__id := "dog02";
     user_username := "dog@dog.com";
     user_fullname := "Dog";
     user_gravatar_url := "https://gravatar.example/dog" |}.

(** A private component of [public_project] on which nobody has any
    permission of their own. *)
Definition component : Node :=
  {| node__id := "comp1";
     node_url := "/comp1/";
     node_absolute_url := "https://osf.example/comp1/";
     node_title := "Crumbs";
     node_parent_id := Some "pub01";
     has_permission := fun _ _ => false;
     is_public := false;
     private_link_keys_active := [];
     is_registration := false;
     parent_node := Some public_project;
     get_addon := Fixtures.addons;
     web_url_for := fun _ _ => "/comp1/files/" |}.

End Family.

(* ===================================================================== *)
(** * What [create_waterbutler_log] logs, and more payloads *)
(* ===================================================================== *)

Module LogParams.

Import Views.

(** [payload] as the move/copy branch has rewritten it when it logs:
    both bundles updated, then [node] and [project] set. *)
Definition moved_params (node : Node) (src' dst' : list (string * json))
    (payload : list (string * json)) : list (string * json) :=
  dict_update [ ("node", JStr (node__id node));
                ("project", opt_str (node_parent_id node)) ]
    (dict_set "destination" (JObj dst')
       (dict_set "source" (JObj src') payload)).

(** The [params] of the [add_log] calls of a trace, in order *)
Definition logged (t : list effect) : list (list (string * json)) :=
  flat_map (fun e => match e with AddLog _ _ _ params => [params] | _ => [] end) t.

(** The [add_log] calls of a trace, in order *)
Definition node_logs (t : list effect) : list effect :=
  List.filter (fun e => match e with AddLog _ _ _ _ => true | _ => false end) t.

(** The calls of a list made in order, up to the first that raises *)
Fixpoint attempt (world : Collaborators) (calls : list effect)
  : result unit * list effect :=
  match calls with
  | [] => (ok tt, [])
  | e :: rest =>
      match world e with
      | Some x => (raise x, [e])
      | None => let (r, made) := attempt world rest in (r, e :: made)
      end
  end.

(** The four keys a move/copy bundle is checked for *)
Definition required_keys : list string :=
  ["provider"; "materialized"; "name"; "nid"].

Definition success : json := JObj [("status", JStr "success")].
End LogParams.

Module Payloads.

Import Views.

(** A copy that the gateway reports as failed. *)
Definition failed_copy_payload : list (string * json) :=
  [ ("auth", JObj [("id", JStr "cat01")]);
    ("action", JStr "copy");
    ("errors", JArr [JStr "quota exceeded"]);
    ("source", Fixtures.bundle "/old/place.txt");
    ("destination", Fixtures.bundle "/new/place.txt") ].

(** A move whose source bundle has no [nid]. *)
Definition move_without_nid : list (string * json) :=
  [ ("auth", JObj [("id", JStr "cat01")]);
    ("action", JStr "move");
    ("source", JObj [ ("provider", JStr "osfstorage");
                      ("materialized", JStr "/old/place.txt");
                      ("name", JStr "place.txt");
                      ("path", JStr "/old/place.txt") ]);
    ("destination", Fixtures.bundle "/new/place.txt") ].

(** An upload whose metadata has no [path]. *)
Definition create_without_path : list (string * json) :=
  [ ("auth", JObj [("id", JStr "cat01")]);
    ("action", JStr "create");
    ("provider", JStr "osfstorage");
    ("metadata", JObj [ ("materialized", JStr "/a/x"); ("name", JStr "x") ]) ].

(** The mailer fails: [send_mail] raises, every other collaborator
    returns. *)
Definition mailer_fails : Collaborators :=
  fun e => match e with
           | SendMail _ => Some ValueError
           | _ => None
           end.

(** A payload for an action the view does not know. *)
Definition rename_payload : list (string * json) :=
  [ ("auth", JObj [("id", JStr "cat01")]);
    ("action", JStr "rename") ].

End Payloads.

(* ===================================================================== *)
(** * website/addons/base/views.py, continued: [get_auth] and friends *)
(* ===================================================================== *)

Module ViewsAuth.

Import Views.

(** What the views read of the Flask request *)
Record Request : Type := mkRequest {
  args : list (string * string);
  remote_addr : string;
  path : string;
  url : string
}.

(** A dictionary from strings to strings: [request.args],
    [session.data] *)
Fixpoint lookup (k : string) (d : list (string * string)) : option string :=
  match d with
  | [] => None
  | (k', v) :: rest => if String.eqb k k' then Some v else lookup k rest
  end.

(** [d[k]] *)
Definition lookup_item (d : list (string * string)) (k : string)
  : result string :=
  match lookup k d with
  | Some v => ok v
  | None => raise KeyError
  end.

(** The collaborators of [get_auth] that the site's models do not
    cover.  A serializer that raises [AddonError] returns [None]. *)
Record Env : Type := mkEnv {
  models : Models;
  User_from_cookie : string -> option User;
  WATERBUTLER_ADDRS : list string;
  serialize_waterbutler_credentials : Addon -> option json;
  serialize_waterbutler_settings : Addon -> option json;
  (** [node.api_url_for(view, _absolute=True)] *)
  api_url_for : Node -> string -> string
}.

(** The wrapper that [restrict_addrs] puts around a view *)
Definition restrict_addrs {A : Type} (addrs : list string)
    (func : Request -> result A) (request : Request) : result A :=
  if existsb (String.eqb (remote_addr request)) addrs
  then func request
  else raise (HTTPError FORBIDDEN).

(** The body of [get_auth] *)
Definition get_auth_body (env : Env) (session_data : list (string * string))
    (request : Request) : result json :=
  do a <- except_KeyError
            (do action <- lookup_item (args request) "action";
             do node_id <- lookup_item (args request) "nid";
             do provider_name <- lookup_item (args request) "provider";
             ok (action, node_id, provider_name))
            (raise (HTTPError BAD_REQUEST));
  let action := fst (fst a) in
  let node_id := snd (fst a) in
  let provider_name := snd a in
  let cookie := lookup "cookie" (args request) in
  let view_only := lookup "view_only" (args request) in
  let user :=
    match lookup "auth_user_id" session_data with
    | Some id => User_load (models env) id
    | None =>
        match cookie with
        | Some c => if String.eqb c "" then None else User_from_cookie env c
        | None => None
        end
    end in
  match Node_load (models env) node_id with
  | None => raise (HTTPError NOT_FOUND)
  | Some node =>
      do _ <- check_access node user action view_only;
      match get_addon node provider_name with
      | None => raise (HTTPError BAD_REQUEST)
      | Some provider_settings =>
          match serialize_waterbutler_credentials env provider_settings with
          | None => raise (HTTPError BAD_REQUEST)
          | Some credentials =>
              match serialize_waterbutler_settings env provider_settings with
              | None => raise (HTTPError BAD_REQUEST)
              | Some settings =>
                  ok (JObj
                        [ ("auth", JObj (make_auth user));
                          ("credentials", credentials);
                          ("settings", settings);
                          ("callback_url",
                           JStr (api_url_for env node
                                   (if negb (is_registration node)
                                    then "create_waterbutler_log"
                                    else "registration_callbacks"))) ])
              end
          end
      end
  end.

(** [get_auth], as decorated with [restrict_waterbutler] *)
Definition get_auth (env : Env) (session_data : list (string * string))
    (request : Request) : result json :=
  restrict_addrs (WATERBUTLER_ADDRS env) (get_auth_body env session_data)
    request.

(** ** [check_file_guid] *)

(** The file GUID object: [guid._id] and [guid.file_url] *)
Record FileGuid : Type := mkFileGuid {
  guid__id : string;
  file_url : string
}.

Fixpoint drop (n : nat) (s : string) : string :=
  match n, s with
  | O, _ => s
  | S n', String _ rest => drop n' rest
  | S _, EmptyString => EmptyString
  end.

(** The text before and after the leftmost occurrence of [sep] *)
Fixpoint partition (sep s : string) : option (string * string) :=
  if String.prefix sep s then Some (EmptyString, drop (String.length sep) s)
  else match s with
       | EmptyString => None
       | String c rest =>
           match partition sep rest with
           | Some (before, after) => Some (String c before, after)
           | None => None
           end
       end.

(** The pieces between occurrences of a separator that is not empty;
    each step consumes the separator, so the length of the text bounds
    the number of steps. *)
Fixpoint split_steps (steps : nat) (sep s : string) : list string :=
  match steps with
  | O => [s]
  | S steps' =>
      match partition sep s with
      | Some (before, after) => before :: split_steps steps' sep after
      | None => [s]
      end
  end.

(** [s.split(sep)] for a separator of any length; the empty separator
    is a [ValueError]. *)
Definition split_str (sep s : string) : result (list string) :=
  if String.eqb sep "" then raise ValueError
  else ok (split_steps (String.length s) sep s).

(** [check_file_guid(guid)] *)
Definition check_file_guid (request : Request) (guid : FileGuid)
  : result (option string) :=
  let guid_url := "/" +:+ guid__id guid +:+ "/" in
  if negb (startswith guid_url (path request)) then
    do url_split <- split_str (file_url guid) (url request);
    match url_split with
    | _ :: piece :: _ => ok (Some (guid_url +:+ lstrip "/" piece))
    | _ => ok (Some guid_url)
    end
  else ok None.

End ViewsAuth.

Module AuthFixtures.

Import ViewsAuth.

Definition env : Env :=
  {| models := Fixtures.site;
     User_from_cookie := fun c =>
       if String.eqb c "cat-cookie" then Some Fixtures.cat else None;
     WATERBUTLER_ADDRS := ["127.0.0.1"];
     serialize_waterbutler_credentials := fun _ =>
       Some (JObj [("storage", JObj [("access_key", JStr "naps")])]);
     serialize_waterbutler_settings := fun _ =>
       Some (JObj [("storage", JObj [("folder", JStr "snacks")])]);
     api_url_for := fun n view => "https://osf.example/api/v1/project/"
                                  +:+ node__id n +:+ "/" +:+ view +:+ "/" |}.

(** The gateway asks, for an anonymous visitor with the view-only key,
    whether [proj1] may be downloaded from. *)
Definition download_request : Request :=
  {| args := [ ("action", "download"); ("nid", "proj1");
               ("provider", "osfstorage"); ("view_only", "s3cr3t") ];
     remote_addr := "127.0.0.1";
     path := "/api/v1/files/auth/";
     url := "https://osf.example/api/v1/files/auth/" |}.

(** The same question from somewhere else *)
Definition outside_request : Request :=
  {| args := args download_request;
     remote_addr := "10.0.0.7";
     path := path download_request;
     url := url download_request |}.

(** The same question with a cookie *)
Definition cookie_request : Request :=
  {| args := ("cookie", "cat-cookie") :: args download_request;
     remote_addr := "127.0.0.1";
     path := path download_request;
     url := url download_request |}.

(** A file of [proj1] requested by its long URL *)
Definition file_request : Request :=
  {| args := [("a", "1")];
     remote_addr := "192.0.2.1";
     path := "/project/proj1/files/x/";
     url := "https://osf.example/project/proj1/files/x/?a=1" |}.

Definition file_guid : FileGuid :=
  {| guid__id := "g1"; file_url := "/project/proj1/files/x/" |}.

End AuthFixtures.

(* ===================================================================== *)
(** * Counting and removing a character *)
(* ===================================================================== *)

Module Chars.

(** [s] without any occurrence of [c] *)
Fixpoint without (c : ascii) (s : string) : string :=
  match s with
  | EmptyString => EmptyString
  | String d rest =>
      if Ascii.eqb d c then without c rest else String d (without c rest)
  end.

(** [s.count(c)] *)
Fixpoint count_char (c : ascii) (s : string) : nat :=
  match s with
  | EmptyString => O
  | String d rest =>
      if Ascii.eqb d c then S (count_char c rest) else count_char c rest
  end.

End Chars.

(* ===================================================================== *)
(** * A payload for the events of a move *)
(* ===================================================================== *)

Module EventPayloads.

(** A bundle as [create_waterbutler_log] leaves it: the materialized
    path without its leading slash, and the add-on, URL and node added. *)
Definition moved_bundle (path : string) : json :=
  JObj [ ("provider", JStr "osfstorage");
         ("materialized", JStr (lstrip "/" path));
         ("name", JStr "place.txt");
         ("nid", JStr "proj1");
         ("path", JStr path);
         ("addon", JStr "OSF Storage");
         ("url", JStr ("/proj1/files/" +:+ lstrip "/" path));
         ("node", JObj [ ("_id", JStr "proj1");
                         ("url", JStr "/proj1/");
                         ("title", JStr "Snacks") ]) ].

(** A move from [/old/place.txt] to [/new/place.txt] within one node. *)
Definition moved_payload : json :=
  JObj [ ("action", JStr "move");
         ("source", moved_bundle "/old/place.txt");
         ("destination", moved_bundle "/new/place.txt");
         ("node", JStr "proj1");
         ("project", JNull) ].

End EventPayloads.

(* ===================================================================== *)
(** * website/notifications/events/model.py, continued: [perform] *)
(* ===================================================================== *)

Module Perform.

Import Events.

(** The calls [perform] makes into [website.notifications], with their
    arguments.  The message of the warning is a tuple of one string: the
    assignment that builds it ends in a comma. *)
Inductive call : Type :=
| notify (uid event : string) (user : User) (node : Node) (timestamp : Z)
    (message gravatar_url : string) (url : option string)
| move_file_subscription (old_event_sub : option string)
    (old_node : option Node) (new_event_sub : string) (new_node : Node)
| warn_users_removed_from_subscription (rm_users : json)
    (source_event_sub : option string) (user : User)
    (source_node : option Node) (timestamp : Z) (gravatar_url : string)
    (message : list string) (url : option string).

(** What [move_file_subscription] returns: the users it removed. *)
Definition Subscriptions : Type :=
  option string -> option Node -> string -> Node -> json.

(** [Event.perform] *)
Definition Event_perform (self : Instance) : list call :=
  [ notify (node_id self) (event self) (user self) (node self)
      (timestamp self) (message self) (gravatar_url self) (url self) ].

(** [AddonFileMoved.perform] *)
Definition AddonFileMoved_perform (removed : Subscriptions) (self : Instance)
  : list call :=
  let rm_users :=
    removed (source_event_sub self) (source_node self) (event self)
      (node self) in
  let message :=
    [ message self +:+ " Your subscription has been removed"
      +:+ " due to insufficient permissions in the new component." ] in
  ([ move_file_subscription (source_event_sub self) (source_node self)
       (event self) (node self);
     warn_users_removed_from_subscription rm_users (source_event_sub self)
       (user self) (source_node self) (timestamp self) (gravatar_url self)
       message (source_url self) ]
   ++ Event_perform self)%list.

(** [self.perform()] *)
Definition perform (removed : Subscriptions) (self : Instance) : list call :=
  match cls self with
  | AddonFileMoved => AddonFileMoved_perform removed self
  | _ => Event_perform self
  end.

(** Nobody loses a subscription. *)
Definition nobody : Subscriptions := fun _ _ _ _ => JObj [].

End Perform.

(* ===================================================================== *)
(** * website/addons/base/views.py, continued: viewing and downloading *)
(* ===================================================================== *)

Module FileViews.

Import Views.

(** A query string as a dictionary: keys and values are text, and a key
    may come more than once. *)
Definition Query : Type := list (string * string).

(** What the file views read of the Flask request *)
Record Request : Type := mkRequest {
  request_args : Query;
  request_path : string;
  request_url : string;
  request_method : string
}.

Definition OK : Z := 200.
Definition MOVED_PERMANENTLY : Z := 301.
(** The status of a [redirect] that names none *)
Definition FOUND : Z := 302.

Definition without_key (k : string) (d : Query) : Query :=
  List.filter (fun kv => negb (String.eqb (fst kv) k)) d.

(** [request.args.to_dict()]: every key once, with its first value *)
Fixpoint to_dict (args : Query) : Query :=
  match args with
  | [] => []
  | (k, v) :: rest => (k, v) :: without_key k (to_dict rest)
  end.

(** [d.pop(k, None)], for what it leaves in [d] *)
Definition pop (k : string) (d : Query) : Query := without_key k d.

(** [d.get(k, default)] *)
Definition get_default (k default : string) (d : Query) : string :=
  match ViewsAuth.lookup k d with
  | Some v => v
  | None => default
  end.

(** [dict(d, **kw)]: the entries of [d] that [kw] does not name, and
    those of [kw] *)
Definition dict_with (kw d : Query) : Query :=
  (List.filter (fun kv => negb (existsb (String.eqb (fst kv)) (map fst kw))) d
   ++ kw)%list.

(** A file version: [version.metadata] and [version.size] *)
Record Version : Type := mkVersion {
  metadata : list (string * json);
  size : option Z
}.

(** What [file_node.touch] returns: [None], a version, or a tuple of a
    version and an error text. *)
Inductive touched : Type :=
| no_version
| version (v : Version)
| version_and_error (v : Version) (error : string).

(** A file node: its attributes, and what its methods return. *)
Record FileNode : Type := mkFileNode {
  file__id : string;
  file_name : string;
  file_path : string;
  file_provider : string;
  file_materialized_path : string;
  touch : Query -> touched;
  generate_download_url : Query -> string;
  (** [get_guid(create=True)] *)
  get_guid : ViewsAuth.FileGuid
}.

(** The calls of the views that change or reach something outside *)
Inductive call : Type :=
| get_or_create_call (provider : string) (node : Node) (path : string)
| touch_call (file_node : FileNode) (extras : Query)
| get_guid_call (file_node : FileNode)
| uuid4_call
| save_call (node : Node).

(** The collaborators of the file views.  A share UUID is kept as its
    text, which is all the views use of it. *)
Record Env : Type := mkEnv {
  (** [isinstance(node_addon, StorageAddonBase)] *)
  is_storage : Addon -> bool;
  has_auth : Addon -> bool;
  complete : Addon -> bool;
  (** the attribute [is_private], where the add-on has it *)
  is_private : Addon -> option json;
  (** [FileNode.resolve_class(provider, FileNode.FILE).get_or_create(node, path)] *)
  get_or_create : string -> Node -> string -> FileNode;
  (** [furl.furl(u).set(path=..., args=...).url] *)
  furl_set : string -> option (list string) -> Query -> string;
  (** [serialize_node(node, auth, primary=True)] *)
  serialize_node : Node -> option User -> list (string * json);
  uuid4 : string;
  MFR_SERVER_URL : string;
  SHAREJS_URL : string;
  get_gravatar : option User -> Z -> string;
  json_dumps : json -> string;
  (** [rubeus.collect_addon_assets(node)] *)
  collect_addon_assets : Node -> list (string * json)
}.

(** What a view leaves: its answer, the calls it made, in order, and
    [node.file_guid_to_share_uuids]. *)
Record Outcome (A : Type) : Type := mkOutcome {
  answer : result A;
  made : list call;
  share_uuids : gmap string string
}.

Arguments mkOutcome {A}.
Arguments answer {A}.
Arguments made {A}.
Arguments share_uuids {A}.

(** What a view function hands back to Flask *)
Inductive Response : Type :=
| make_response (body : string) (status : Z) (headers : Query)
| redirect (location : string) (code : Z)
| template_data (ret : list (string * json)).

Definition newline : ascii := ascii_of_nat 10.

(** The characters [str.strip()] removes from a text, among the code
    points below 256 that a character of the model can be: the ASCII
    white space (9 to 13 and the space), the separators 28 to 31, the
    next-line character 133 and the no-break space 160. *)
Definition whitespace : string :=
  String (ascii_of_nat 9) (String (ascii_of_nat 10) (String (ascii_of_nat 11)
    (String (ascii_of_nat 12) (String (ascii_of_nat 13)
    (String (ascii_of_nat 28) (String (ascii_of_nat 29)
    (String (ascii_of_nat 30) (String (ascii_of_nat 31)
    (String (ascii_of_nat 32) (String (ascii_of_nat 133)
    (String (ascii_of_nat 160) EmptyString))))))))))).

Definition option_json (o : option string) : json :=
  match o with
  | Some s => JStr s
  | None => JNull
  end.

(** [addon_view_file] *)
Definition addon_view_file (env : Env) (request : Request)
    (auth : option User) (node : Node) (file_node : FileNode) (t : touched)
    (uuids : gmap string string) : Outcome (list (string * json)) :=
  let error :=
    match t with
    | version_and_error _ error =>
        Some (strip whitespace (Chars.without newline error))
    | _ => None
    end in
  let version :=
    match t with
    | version_and_error v _ => Some v
    | version v => Some v
    | no_version => None
    end in
  let ret := serialize_node env node auth in
  let missing :=
    match uuids !! file__id file_node with
    | Some _ => false
    | None => true
    end in
  let uuids' :=
    if missing then <[file__id file_node := uuid4 env]> uuids else uuids in
  {| answer :=
       do user <- getitem (JObj ret) "user";
       do can_edit <- getitem user "can_edit";
       do sharejs_uuid <-
         (if truthy can_edit
          then match uuids' !! file__id file_node with
               | Some u => ok (JStr u)
               | None => raise KeyError
               end
          else ok JNull);
       let download_url :=
         furl_set env (request_url request) None
           (dict_with [ ("mode", "render"); ("action", "download");
                        ("accept_url", "false") ] (request_args request)) in
       let render_url :=
         furl_set env (MFR_SERVER_URL env) (Some ["render"])
           [("url", download_url)] in
       do version <- attr_of version;
       let ret :=
         dict_update
           [ ("urls",
              JObj [ ("render", JStr render_url);
                     ("mfr", JStr (MFR_SERVER_URL env));
                     ("sharejs", JStr (SHAREJS_URL env));
                     ("gravatar", JStr (get_gravatar env auth 25));
                     ("files",
                      JStr (web_url_for node "collect_file_trees" [])) ]);
             ("error", option_json error);
             ("file_name", JStr (file_name file_node));
             ("file_path", JStr (file_path file_node));
             ("sharejs_uuid", sharejs_uuid);
             ("provider", JStr (file_provider file_node));
             ("materialized_path", JStr (file_materialized_path file_node));
             ("extra",
              JStr (json_dumps env
                      (match dict_get "extra" (metadata version) with
                       | Some extra => extra
                       | None => JObj []
                       end)));
             ("size",
              JNum (match size version with
                    | Some n => n
                    | None => 9966699
                    end));
             ("private",
              match get_addon node (file_provider file_node) with
              | Some addon =>
                  match is_private env addon with
                  | Some p => p
                  | None => JBool false
                  end
              | None => JBool false
              end) ]
           ret in
       ok (dict_update (collect_addon_assets env node) ret);
     made := if missing then [uuid4_call; save_call node] else [];
     share_uuids := uuids' |}.

(** A view that stops before it has called anything *)
Definition refuse {A : Type} (code : Z) (uuids : gmap string string)
  : Outcome A :=
  {| answer := raise (HTTPError code); made := []; share_uuids := uuids |}.

(** [addon_view_or_download_file], below its decorators; [node] is
    [kwargs.get('node') or kwargs['project']]. *)
Definition addon_view_or_download_file (env : Env) (request : Request)
    (auth : option User) (path provider : string) (node : Node)
    (uuids : gmap string string) : Outcome Response :=
  let extras := pop "_" (to_dict (request_args request)) in
  let action := get_default "action" "view" extras in
  let node_addon := get_addon node provider in
  if String.eqb path "" then refuse BAD_REQUEST uuids
  else
    match node_addon with
    | None => refuse BAD_REQUEST uuids
    | Some node_addon =>
        if negb (is_storage env node_addon) then refuse BAD_REQUEST uuids
        else if negb (has_auth env node_addon) then refuse UNAUTHORIZED uuids
        else if negb (complete env node_addon) then refuse BAD_REQUEST uuids
        else
          let file_node := get_or_create env provider node path in
          let t := touch file_node extras in
          let calls :=
            [ get_or_create_call provider node path;
              touch_call file_node extras ] in
          match t with
          | no_version =>
              {| answer := raise (HTTPError NOT_FOUND);
                 made := calls;
                 share_uuids := uuids |}
          | _ =>
              if String.eqb (request_method request) "HEAD" then
                {| answer :=
                     ok (make_response "" OK
                           [ ("Location",
                              generate_download_url file_node
                                (dict_with [("accept_url", "false")] extras)) ]);
                   made := calls;
                   share_uuids := uuids |}
              else if String.eqb action "download" then
                {| answer :=
                     ok (redirect
                           (generate_download_url file_node
                              (dict_with [("accept_url", "false")] extras))
                           FOUND);
                   made := calls;
                   share_uuids := uuids |}
              else if (1 <? length (Py.split "/" (strip "/" (request_path request))))%nat
              then
                let guid := get_guid file_node in
                {| answer :=
                     ok (redirect
                           (furl_set env
                              ("/" +:+ ViewsAuth.guid__id guid +:+ "/")
                              None extras)
                           FOUND);
                   made := (calls ++ [get_guid_call file_node])%list;
                   share_uuids := uuids |}
              else
                let o := addon_view_file env request auth node file_node t
                           uuids in
                {| answer := do ret <- answer o; ok (template_data ret);
                   made := (calls ++ made o)%list;
                   share_uuids := share_uuids o |}
          end
    end.

(** Whether the view gets past its checks of the path and the add-on *)
Definition checks_pass (env : Env) (path provider : string) (node : Node)
  : bool :=
  negb (String.eqb path "")
  && match get_addon node provider with
     | Some node_addon =>
         is_storage env node_addon && has_auth env node_addon
         && complete env node_addon
     | None => false
     end.

End FileViews.

(* ===================================================================== *)
(** * A file, its add-on and some requests for it *)
(* ===================================================================== *)

Module FileFixtures.

Import FileViews.

Definition first_version : Version :=
  {| metadata := [("extra", JObj [("downloads", JNum 3)])];
     size := None |}.

Definition place_txt : FileNode :=
  {| file__id := "f1";
     file_name := "place.txt";
     file_path := "/f1";
     file_provider := "osfstorage";
     file_materialized_path := "/place.txt";
     touch := fun _ => version first_version;
     generate_download_url := fun kwargs =>
       "https://files.example/f1?accept_url="
       +:+ get_default "accept_url" "true" kwargs;
     get_guid := {| ViewsAuth.guid__id := "g1";
                    ViewsAuth.file_url := "/project/proj1/files/osfstorage/f1/" |} |}.

(** Every add-on is a connected, configured storage add-on; the visitor
    may not edit. *)
Definition env : Env :=
  {| is_storage := fun _ => true;
     has_auth := fun _ => true;
     complete := fun _ => true;
     is_private := fun _ => None;
     get_or_create := fun _ _ _ => place_txt;
     furl_set := fun u _ _ => u;
     serialize_node := fun _ _ =>
       [("user", JObj [("can_edit", JBool false)])];
     uuid4 := "16fd2706-8baf-433b-82eb-8c7fada847da";
     MFR_SERVER_URL := "https://mfr.example";
     SHAREJS_URL := "sharejs.example";
     get_gravatar := fun _ _ => "https://gravatar.example/cat";
     json_dumps := fun _ => "{}";
     collect_addon_assets := fun _ => [] |}.

(** The same site after the add-on has lost its authorization *)
Definition unauthorized_env : Env :=
  {| is_storage := is_storage env;
     has_auth := fun _ => false;
     complete := fun _ => false;
     is_private := is_private env;
     get_or_create := get_or_create env;
     furl_set := furl_set env;
     serialize_node := serialize_node env;
     uuid4 := uuid4 env;
     MFR_SERVER_URL := MFR_SERVER_URL env;
     SHAREJS_URL := SHAREJS_URL env;
     get_gravatar := get_gravatar env;
     json_dumps := json_dumps env;
     collect_addon_assets := collect_addon_assets env |}.

(** A node none of whose files has a share UUID yet *)
Definition no_uuids : gmap string string := empty.

(** A download that asks for an accepted URL *)
Definition download_request : Request :=
  {| request_args := [ ("action", "download"); ("_", "1438");
                       ("accept_url", "true") ];
     request_path := "/project/proj1/files/osfstorage/f1/";
     request_url := "https://osf.example/project/proj1/files/osfstorage/f1/";
     request_method := "GET" |}.

(** A view by the long URL, and one by the GUID *)
Definition view_request : Request :=
  {| request_args := [("_", "1438")];
     request_path := "/project/proj1/files/osfstorage/f1/";
     request_url := "https://osf.example/project/proj1/files/osfstorage/f1/";
     request_method := "GET" |}.

Definition guid_request : Request :=
  {| request_args := [];
     request_path := "/g1/";
     request_url := "https://osf.example/g1/";
     request_method := "GET" |}.

End FileFixtures.

(* ===================================================================== *)
(** * website/addons/dataverse/views/hgrid.py *)
(* ===================================================================== *)

Module Dataverse.

(** What the views read of the node *)
Record Node : Type := mkNode {
  can_edit : option User -> bool;
  can_view : option User -> bool;
  is_registration : bool;
  api_url_for : string -> list (string * string) -> string;
  web_url_for : string -> list (string * string) -> string
}.

(** A file of a study: [f.name] and [f.id] *)
Record File : Type := mkFile {
  name : string;
  id : string
}.

Record Study : Type := mkStudy {
  get_released_files : list File;
  get_files : bool -> list File
}.

Record DataverseOf : Type := mkDataverse {
  get_study_by_hdl : string -> Study
}.

Record Connection : Type := mkConnection {
  get_dataverse : string -> DataverseOf
}.

(** The add-on's node settings *)
Record NodeSettings : Type := mkNodeSettings {
  owner : Node;
  dataverse_username : string;
  dataverse_password : string;
  dataverse_alias : string;
  dataverse : string;
  study : string;
  study_hdl : option string
}.

(** The call [rubeus.build_addon_root(node_settings, name, urls=...,
    permissions=..., extra=...)] *)
Record AddonRoot : Type := build_addon_root {
  root_settings : NodeSettings;
  root_name : string;
  root_urls : list (string * string);
  root_permissions : list (string * bool);
  root_extra : string
}.

(** The collaborators of the views: the Dataverse client, the [rubeus]
    constants, [hurry.filesize.size(0, system=alternative)], and the
    case mapping of the runtime for a text that is not ASCII, whose
    letters the model does not know. *)
Record Env : Type := mkEnv {
  connect : string -> string -> option Connection;
  KIND : string;
  FILE : string;
  size_of_nothing : string;
  (** [s.capitalize()] for a text [s] that is not ASCII *)
  capitalize_text : string -> string
}.

(** [state or 'draft' if node.can_edit(auth) else 'released'] *)
Definition resolve_state (node : Node) (auth : option User)
    (state : option string) : string :=
  if can_edit node auth then
    match state with
    | Some s => if String.eqb s "" then "draft" else s
    | None => "draft"
    end
  else "released".

Definition upper_ascii (c : ascii) : ascii :=
  let n := nat_of_ascii c in
  if (Nat.leb 97 n && Nat.leb n 122)%bool then ascii_of_nat (n - 32) else c.

Fixpoint is_ascii (s : string) : bool :=
  match s with
  | EmptyString => true
  | String c rest => Nat.ltb (nat_of_ascii c) 128 && is_ascii rest
  end.

(** [s.capitalize()]: the first character in upper case and the rest in
    lower case, computed for an ASCII text and left to the runtime's
    case mapping for any other. *)
Definition capitalize (env : Env) (s : string) : string :=
  if is_ascii s then
    match s with
    | EmptyString => EmptyString
    | String c rest => String (upper_ascii c) (lower rest)
    end
  else capitalize_text env s.

Definition newline : string := String (ascii_of_nat 10) EmptyString.

(** [dataverse_state_widget]: the template, rendered *)
Definition dataverse_state_widget (state : string) : string :=
  newline
  +:+ "    <select class=" +:+ dquote +:+ "dataverse-state-select" +:+ dquote
  +:+ ">" +:+ newline
  +:+ "        <option "
  +:+ (if String.eqb state "draft" then "selected" else "")
  +:+ ">Draft</option>" +:+ newline
  +:+ "        <option "
  +:+ (if String.eqb state "released" then "selected" else "")
  +:+ ">Released</option>" +:+ newline
  +:+ "    </select>" +:+ newline.

Definition is_empty {A : Type} (l : list A) : bool :=
  match l with
  | [] => true
  | _ => false
  end.

(** A dict display [{k1: v1, ...}] whose keys are not all constants: a
    key that comes again replaces the earlier entry. *)
Definition dict_literal (entries : list (string * json)) : json :=
  JObj (dict_update entries []).

(** [dataverse_hgrid_root] *)
Definition dataverse_hgrid_root (env : Env) (node_settings : NodeSettings)
    (auth : option User) (state : option string) : list AddonRoot :=
  let node := owner node_settings in
  let state := resolve_state node auth state in
  let connection :=
    connect env (dataverse_username node_settings)
      (dataverse_password node_settings) in
  match study_hdl node_settings, connection with
  | Some hdl, Some connection =>
      let dataverse_ := get_dataverse connection (dataverse_alias node_settings) in
      let study_ := get_study_by_hdl dataverse_ hdl in
      let name :=
        dataverse node_settings +:+ " / " +:+ study node_settings in
      let permissions :=
        [ ("edit",
           can_edit node auth && negb (is_registration node)
           && String.eqb state "draft");
          ("view", can_view node auth) ] in
      let urls :=
        [ ("upload", api_url_for node "dataverse_upload_file" []);
          ("fetch",
           api_url_for node "dataverse_hgrid_data_contents"
             [("state", state)]);
          ("branch", api_url_for node "dataverse_root_folder_public" []) ] in
      let state_append :=
        if negb (is_empty (get_released_files study_)) && can_edit node auth
        then dataverse_state_widget state
        else " [" +:+ capitalize env state +:+ "]" in
      [build_addon_root node_settings name urls permissions state_append]
  | _, _ => []
  end.

(** [dataverse_root_folder_public], below its decorators; [node],
    [node_settings] and [auth] are [kwargs['node']],
    [kwargs['node_addon']] and [kwargs['auth']]. *)
Definition dataverse_root_folder_public (env : Env) (node : Node)
    (node_settings : NodeSettings) (auth : option User)
    (state : option string) : list AddonRoot :=
  let state := resolve_state node auth state in
  dataverse_hgrid_root env node_settings auth (Some state).

(** [dataverse_hgrid_data_contents], below its decorators; [node] is
    [kwargs['node'] or kwargs['project']]. *)
Definition dataverse_hgrid_data_contents (env : Env) (node : Node)
    (node_settings : NodeSettings) (auth : option User)
    (state : option string) : list json :=
  let state := resolve_state node auth state in
  let released := String.eqb state "released" in
  let can_edit_ :=
    can_edit node auth && negb (is_registration node) && negb released in
  let can_view_ := can_view node auth in
  let connection :=
    connect env (dataverse_username node_settings)
      (dataverse_password node_settings) in
  match study_hdl node_settings, connection with
  | Some hdl, Some connection =>
      let dataverse_ := get_dataverse connection (dataverse_alias node_settings) in
      let study_ := get_study_by_hdl dataverse_ hdl in
      map (fun f =>
             dict_literal
                  [ (KIND env, JStr (FILE env));
                    ("name", JStr (name f));
                    ("urls",
                     JObj [ ("view",
                             JStr (web_url_for node "dataverse_view_file"
                                     [("path", id f)]));
                            ("download",
                             JStr (api_url_for node "dataverse_download_file"
                                     [("path", id f)]));
                            ("delete",
                             JStr (api_url_for node "dataverse_delete_file"
                                     [("path", id f)])) ]);
                    ("permissions",
                     JObj [ ("view", JBool can_view_);
                            ("edit", JBool can_edit_) ]);
                    ("size", JArr [JNum 0; JStr (size_of_nothing env)]) ])
          (get_files study_ released)
  | _, _ => []
  end.

(** [permissions[k]] of a root, and [item['permissions'][k]] of an item
    of the contents *)
Definition root_permission (k : string) (root : AddonRoot) : option bool :=
  match List.find (fun p => String.eqb (fst p) k) (root_permissions root) with
  | Some p => Some (snd p)
  | None => None
  end.

Definition item_permission (k : string) (item : json) : result json :=
  do permissions <- getitem item "permissions";
  getitem permissions k.

End Dataverse.

(* ===================================================================== *)
(** * A linked study and its node *)
(* ===================================================================== *)

Module DataverseFixtures.

Import Dataverse.

(** Only [cat01] may edit; everybody may view. *)
Definition node : Node :=
  {| can_edit := fun u =>
       match u with
       | Some u => String.eqb (user__id u) "cat01"
       | None => false
       end;
     can_view := fun _ => true;
     is_registration := false;
     api_url_for := fun view _ => "/api/v1/project/dv001/" +:+ view +:+ "/";
     web_url_for := fun view _ => "/project/dv001/" +:+ view +:+ "/" |}.

Definition draft_file : File := {| name := "notes.txt"; id := "7" |}.
Definition released_file : File := {| name := "data.csv"; id := "3" |}.

Definition snacks_study : Study :=
  {| get_released_files := [released_file];
     get_files := fun released =>
       if released then [released_file] else [released_file; draft_file] |}.

Definition env : Env :=
  {| connect := fun _ _ =>
       Some {| get_dataverse := fun _ =>
                 {| get_study_by_hdl := fun _ => snacks_study |} |};
     KIND := "kind";
     FILE := "file";
     size_of_nothing := "0 bytes";
     capitalize_text := fun s => s |}.

Definition node_settings : NodeSettings :=
  {| owner := node;
     dataverse_username := "cat";
     dataverse_password := "naps";
     dataverse_alias := "snacks";
     dataverse := "Snacks Dataverse";
     study := "Crunch";
     study_hdl := Some "doi:10.5072/FK2/SNACKS" |}.

End DataverseFixtures.

(* ===================================================================== *)
(** * website/addons/base/views.py, continued: the legacy file URLs *)
(* ===================================================================== *)

Module LegacyView.

Import FileViews.

(** What escapes the view: an exception of [Py], or the
    [UnboundLocalError] of reading [path] before any branch has
    assigned it. *)
Inductive error : Type :=
| Raised (e : exn)
| UnboundLocalError.

(** The keyword arguments the route gives the view, besides the node *)
Record Kwargs : Type := mkKwargs {
  kwargs_provider : option string;
  kwargs_path : option string;
  kwargs_fid : option string;
  kwargs_vid : option string
}.

(** The truth of [kwargs.get(k)] *)
Definition given (v : option string) : bool :=
  match v with
  | Some s => negb (String.eqb s "")
  | None => false
  end.

(** [node_settings.get_root().find_child_by_name(name)._id]; [None]
    stands for [NoResultsFound]. *)
Definition Children : Type := Addon -> string -> option string.

Definition has_key (k : string) (d : Query) : bool :=
  match ViewsAuth.lookup k d with
  | Some _ => true
  | None => false
  end.

(** [addon_view_or_download_file_legacy], below its decorator; [node] is
    [kwargs.get('node') or kwargs['project']].  The call of
    [web_url_for] names [path], [provider] and [action] itself, so a
    query that holds one of them again is a [TypeError]. *)
Definition addon_view_or_download_file_legacy (find_child_by_name : Children)
    (request : Request) (kwargs : Kwargs) (node : Node)
  : error + Response :=
  let query_params := to_dict (request_args request) in
  let action := get_default "action" "view" query_params in
  let query_params := pop "action" query_params in
  let provider :=
    match kwargs_provider kwargs with
    | Some p => p
    | None => "osfstorage"
    end in
  let path :=
    if given (kwargs_path kwargs) then kwargs_path kwargs
    else if given (kwargs_fid kwargs) then kwargs_fid kwargs
    else None in
  let action :=
    if is_substring "download" (request_path request)
       || startswith "/api/v1/" (request_path request)
    then "download" else action in
  let query_params :=
    match kwargs_vid kwargs with
    | Some vid =>
        if String.eqb vid "" then query_params
        else dict_with [("version", vid)] query_params
    | None => query_params
    end in
  let found :=
    if String.eqb provider "osfstorage" then
      match get_addon node "osfstorage" with
      | None => inl (Raised AttributeError)
      | Some node_settings =>
          match path with
          | None => inl UnboundLocalError
          | Some name =>
              match find_child_by_name node_settings name with
              | Some _id => inr _id
              | None => inl (Raised (HTTPError NOT_FOUND))
              end
          end
      end
    else
      match path with
      | None => inl UnboundLocalError
      | Some path => inr path
      end in
  match found with
  | inl e => inl e
  | inr path =>
      if has_key "path" query_params || has_key "provider" query_params
      then inl (Raised TypeError)
      else
        inr (redirect
               (web_url_for node "addon_view_or_download_file"
                  ([ ("path", JStr path);
                     ("provider", JStr provider);
                     ("action", JStr action) ]
                   ++ map (fun kv => (fst kv, JStr (snd kv))) query_params)%list)
               MOVED_PERMANENTLY)
  end.

End LegacyView.

Module LegacyFixtures.

Import FileViews LegacyView.

(** The storage tree holds one file, [place.txt], whose id is [f1]. *)
Definition children : Children :=
  fun _ name => if String.eqb name "place.txt" then Some "f1" else None.

(** An old API link to a version of the file, asking to view it *)
Definition api_request : Request :=
  {| request_args := [("action", "view"); ("mode", "render")];
     request_path := "/api/v1/project/proj1/osffiles/place.txt/version/2/";
     request_url :=
       "https://osf.example/api/v1/project/proj1/osffiles/place.txt/version/2/";
     request_method := "GET" |}.

Definition api_kwargs : Kwargs :=
  {| kwargs_provider := None;
     kwargs_path := None;
     kwargs_fid := Some "place.txt";
     kwargs_vid := Some "2" |}.

(** A link that names no file *)
Definition bare_kwargs : Kwargs :=
  {| kwargs_provider := Some "github";
     kwargs_path := None;
     kwargs_fid := None;
     kwargs_vid := None |}.

End LegacyFixtures.

(* ===================================================================== *)
(** * Tactics for stepping through the monadic code *)
(* ===================================================================== *)

(** One bind of a [View] computation: case on the outcome of the
    lifted step, closing the raising case with [on_failure]. *)
Ltac run_step H on_failure :=
  cbv beta iota zeta in H;
  match type of H with
  | (match ?x with inl _ => _ | inr _ => _ end) = _ =>
      let E := fresh "E" in destruct x eqn:E; [on_failure |]
  end.

(** One bind of a [result] computation that is known to return. *)
Ltac result_step H :=
  cbv zeta in H; cbn [rbind fst snd] in H;
  match type of H with
  | rbind ?m _ = _ =>
      let E := fresh "E" in
      destruct m eqn:E; cbn [rbind] in H; [discriminate H |]
  end.

(** Division and remainder by constants, over [N] *)
Ltac div_mod_arith :=
  zify; Z.to_euclidean_division_equations; lia.

(** Decoding the character of a six-bit value gives the value back. *)
Ltac decode_char lemma n Hlt :=
  let Hc := fresh "Hc" in
  let Hp := fresh "Hp" in
  destruct (lemma n Hlt) as [Hc Hp];
  rewrite ?Hc, ?Hp.

(* ===================================================================== *)
(** * Base64 round trip *)
(* ===================================================================== *)

Section Base64RoundTrip.

Import Base64.

Lemma sextets_enumerated (n : N) :
  (n < 64)%N -> In n (List.map N.of_nat (seq 0 64)).
Proof.
  intros H. apply in_map_iff. exists (N.to_nat n). split.
  - apply N2Nat.id.
  - apply in_seq. lia.
Qed.

Lemma char_sextet_sextet_char (n : N) :
  (n < 64)%N ->
  char_sextet (sextet_char n) = Some n /\ Ascii.eqb (sextet_char n) pad = false.
Proof.
  intros H.
  assert (Hall : forallb
            (fun n => match char_sextet (sextet_char n) with
                      | Some m => (N.eqb m n && negb (Ascii.eqb (sextet_char n) pad))%bool
                      | None => false
                      end)
            (List.map N.of_nat (seq 0 64)) = true) by (vm_compute; reflexivity).
  rewrite forallb_forall in Hall. specialize (Hall n (sextets_enumerated n H)).
  destruct (char_sextet (sextet_char n)) as [m|]; [| discriminate].
  apply andb_true_iff in Hall. destruct Hall as [Hm Hp].
  apply N.eqb_eq in Hm. subst m. split; [reflexivity |].
  destruct (Ascii.eqb (sextet_char n) pad); [discriminate | reflexivity].
Qed.

Lemma byte_of_to_N (a : Byte.byte) (n : N) :
  n = Byte.to_N a -> byte_of n = Some a.
Proof. intros ->. apply Byte.of_to_N. Qed.

Lemma group_arith (x y z : N) :
  (x < 256 -> y < 256 -> z < 256 ->
   let s1 := x / 4 in
   let s2 := (x mod 4) * 16 + y / 16 in
   let s3 := (y mod 16) * 4 + z / 64 in
   let s4 := z mod 64 in
   s1 < 64 /\ s2 < 64 /\ s3 < 64 /\ s4 < 64
   /\ s1 * 4 + s2 / 16 = x
   /\ (s2 mod 16) * 16 + s3 / 4 = y
   /\ (s3 mod 4) * 64 + s4 = z)%N.
Proof. intros Hx Hy Hz. cbv zeta. repeat split; div_mod_arith. Qed.

Lemma group1_arith (x : N) :
  (x < 256 ->
   let s1 := x / 4 in
   let s2 := (x mod 4) * 16 in
   s1 < 64 /\ s2 < 64 /\ s1 * 4 + s2 / 16 = x /\ s2 mod 16 = 0)%N.
Proof. intros Hx. cbv zeta. repeat split; div_mod_arith. Qed.

Lemma group2_arith (x y : N) :
  (x < 256 -> y < 256 ->
   let s1 := x / 4 in
   let s2 := (x mod 4) * 16 + y / 16 in
   let s3 := (y mod 16) * 4 in
   s1 < 64 /\ s2 < 64 /\ s3 < 64
   /\ s1 * 4 + s2 / 16 = x
   /\ (s2 mod 16) * 16 + s3 / 4 = y
   /\ s3 mod 4 = 0)%N.
Proof. intros Hx Hy. cbv zeta. repeat split; div_mod_arith. Qed.

Lemma to_N_lt_256 (a : Byte.byte) : (Byte.to_N a < 256)%N.
Proof. pose proof (Byte.to_N_bounded a). lia. Qed.

Lemma b64decode_group (a b c : Byte.byte) (rest : list Byte.byte) :
  b64decode (b64encode (a :: b :: c :: rest))
  = option_map (fun tail => a :: b :: c :: tail) (b64decode (b64encode rest)).
Proof.
  cbn [b64encode]. cbv zeta.
  destruct (group_arith _ _ _ (to_N_lt_256 a) (to_N_lt_256 b) (to_N_lt_256 c))
    as (H1 & H2 & H3 & H4 & Ha & Hb & Hc).
  cbv zeta in *.
  cbn [b64decode].
  decode_char char_sextet_sextet_char (Byte.to_N a / 4)%N H1.
  decode_char char_sextet_sextet_char (Byte.to_N a mod 4 * 16 + Byte.to_N b / 16)%N H2.
  decode_char char_sextet_sextet_char (Byte.to_N b mod 16 * 4 + Byte.to_N c / 64)%N H3.
  decode_char char_sextet_sextet_char (Byte.to_N c mod 64)%N H4.
  cbn [andb]. rewrite Ha, Hb, Hc.
  unfold byte_of. rewrite !Byte.of_to_N.
  destruct (b64decode (b64encode rest)); reflexivity.
Qed.

(** Decoding undoes encoding: the text holds the whole content. *)
Theorem b64decode_b64encode (bs : list Byte.byte) :
  b64decode (b64encode bs) = Some bs.
Proof.
  assert (H : forall n (l : list Byte.byte),
             (length l <= n)%nat -> b64decode (b64encode l) = Some l).
  { induction n as [|n IH]; intros l Hl.
    - destruct l; [reflexivity | simpl in Hl; lia].
    - destruct l as [|a [|b [|c rest]]].
      + reflexivity.
      + cbn [b64encode]. cbv zeta.
        destruct (group1_arith _ (to_N_lt_256 a)) as (H1 & H2 & Ha & Hz).
        cbv zeta in *. cbn [b64decode].
        decode_char char_sextet_sextet_char (Byte.to_N a / 4)%N H1.
        decode_char char_sextet_sextet_char (Byte.to_N a mod 4 * 16)%N H2.
        rewrite Ha, Hz. unfold byte_of. rewrite Byte.of_to_N. reflexivity.
      + cbn [b64encode]. cbv zeta.
        destruct (group2_arith _ _ (to_N_lt_256 a) (to_N_lt_256 b))
          as (H1 & H2 & H3 & Ha & Hb & Hz).
        cbv zeta in *. cbn [b64decode].
        decode_char char_sextet_sextet_char (Byte.to_N a / 4)%N H1.
        decode_char char_sextet_sextet_char (Byte.to_N a mod 4 * 16 + Byte.to_N b / 16)%N H2.
        decode_char char_sextet_sextet_char (Byte.to_N b mod 16 * 4)%N H3.
        rewrite Ha, Hb, Hz. unfold byte_of. rewrite !Byte.of_to_N. reflexivity.
      + rewrite b64decode_group, IH; [reflexivity |]. simpl in Hl. lia. }
  apply (H (length bs)). lia.
Qed.

Corollary b64encode_injective (xs ys : list Byte.byte) :
  b64encode xs = b64encode ys -> xs = ys.
Proof.
  intros H. apply (f_equal b64decode) in H.
  rewrite !b64decode_b64encode in H. injection H as ->. reflexivity.
Qed.

Example b64encode_hungry :
  b64encode (bytes_of_string "hungry") = "aHVuZ3J5".
Proof. reflexivity. Qed.

End Base64RoundTrip.

(* ===================================================================== *)
(** * Properties of [check_access] *)
(* ===================================================================== *)

Section CheckAccess.

Import Views.

Lemma key_in_spec (key : option string) (keys : list string) :
  key_in key keys = true <-> exists k, key = Some k /\ In k keys.
Proof.
  destruct key as [k|]; simpl.
  - rewrite existsb_exists. split.
    + intros (x & Hin & Heq). apply String.eqb_eq in Heq. subst x. eauto.
    + intros (k' & Hk & Hin). injection Hk as <-.
      exists k. split; [assumption | apply String.eqb_refl].
  - split; [discriminate | intros (k & Hk & _); discriminate].
Qed.

(** C8. An action mapped to 'read' is allowed on a public node or with an
    active private-link key, whoever the user is; a denial carries 403
    for a user and 401 for no user; an unmapped action raises 400. *)
Theorem check_access_read_and_denial_codes
    (node : Node) (user : option User) (action : string) (key : option string) :
  (permission_map_get action permission_map = Some "read" ->
   is_public node = true
   \/ (exists k, key = Some k /\ In k (private_link_keys_active node)) ->
   check_access node user action key = ok true)
  /\ (forall e, check_access node user action key = raise e ->
       (permission_map_get action permission_map = None
        /\ e = HTTPError 400)
       \/ (permission_map_get action permission_map <> None
           /\ e = HTTPError (match user with Some _ => 403 | None => 401 end)))
  /\ (permission_map_get action permission_map = None ->
       check_access node user action key = raise (HTTPError 400)).
Proof.
  unfold check_access. repeat split.
  - intros Hread Hopen. rewrite Hread.
    destruct (has_permission node user "read"); [reflexivity |].
    assert (Hb : (is_public node
                  || key_in key (private_link_keys_active node))%bool = true).
    { destruct Hopen as [Hp | Hk].
      - rewrite Hp. reflexivity.
      - apply key_in_spec in Hk. rewrite Hk. apply orb_true_r. }
    simpl. rewrite Hb. reflexivity.
  - intros e.
    destruct (permission_map_get action permission_map) as [perm|] eqn:Hperm.
    + intros H. right. split; [discriminate |].
      repeat match type of H with
             | (if ?c then _ else _) = _ => destruct c
             end; try discriminate H.
      unfold raise in H. injection H as <-. destruct user; reflexivity.
    + intros H. left. split; [reflexivity |].
      unfold raise in H. injection H as <-. reflexivity.
  - intros Hnone. rewrite Hnone. reflexivity.
Qed.

(** The anonymous visitor with the view-only key may read the private
    project. *)
Lemma check_access_read_and_denial_codes_witness :
  check_access Fixtures.private_project None "download" (Some "s3cr3t") = ok true.
Proof.
  apply (check_access_read_and_denial_codes
           Fixtures.private_project None "download" (Some "s3cr3t")).
  - reflexivity.
  - right. exists "s3cr3t". split; [reflexivity | simpl; left; reflexivity].
Defined.

(** A logged-in stranger is forbidden, an anonymous one unauthorized,
    and an unknown action is a bad request. *)
Example check_access_denials :
  check_access Fixtures.private_project (Some Fixtures.cat) "download" None
  = raise (HTTPError 403)
  /\ check_access Fixtures.private_project None "upload" (Some "s3cr3t")
     = raise (HTTPError 401)
  /\ check_access Fixtures.private_project (Some Fixtures.cat) "rename" None
     = raise (HTTPError 400).
Proof. repeat split. Qed.

End CheckAccess.

(* ===================================================================== *)
(** * Properties of [create_waterbutler_log] *)
(* ===================================================================== *)

Section WaterbutlerLog.

Import Views.

Lemma dict_get_set (k k' : string) (v : json) (d : list (string * json)) :
  dict_get k' (dict_set k v d)
  = if String.eqb k' k then Some v else dict_get k' d.
Proof.
  induction d as [|[k0 v0] d IH]; simpl.
  - reflexivity.
  - destruct (String.eqb k k0) eqn:Hk; simpl.
    + apply String.eqb_eq in Hk. subst k0.
      destruct (String.eqb k' k); reflexivity.
    + destruct (String.eqb k' k0) eqn:Hk0.
      * apply String.eqb_eq in Hk0. subst k0.
        rewrite String.eqb_sym, Hk. reflexivity.
      * exact IH.
Qed.

Lemma dict_get_set_other (k k' : string) (v : json) (d : list (string * json)) :
  String.eqb k' k = false -> dict_get k' (dict_set k v d) = dict_get k' d.
Proof. intros H. rewrite dict_get_set, H. reflexivity. Qed.

Lemma dget_set_other (k k' : string) (v : json) (d : list (string * json)) :
  String.eqb k' k = false -> dget (dict_set k v d) k' = dget d k'.
Proof. intros H. unfold dget. rewrite dict_get_set_other by exact H. reflexivity. Qed.

(** The bundle update leaves the bundle's own ['path'] alone. *)
Lemma update_bundle_keeps_path (nd : Node) (addon : option Addon)
    (bundle : json) (fields' : list (string * json)) :
  update_bundle nd addon bundle = ok fields' ->
  getitem (JObj fields') "path" = getitem bundle "path".
Proof.
  unfold update_bundle. destruct bundle as [| | | | |fields]; try discriminate.
  intros H.
  repeat match type of H with
         | rbind ?m _ = _ => destruct m; simpl in H; [discriminate H |]
         end.
  injection H as <-. unfold getitem, dict_update. simpl.
  rewrite !dict_get_set_other by reflexivity. reflexivity.
Qed.

Lemma mails_app (t1 t2 : list effect) :
  mails (t1 ++ t2) = (mails t1 ++ mails t2)%list.
Proof. unfold mails. apply flat_map_app. Qed.

Lemma log_move_or_copy_mails (world : Collaborators) (models : Models)
    (payload : list (string * json)) (node : Node) (user : User)
    (action : NodeLogAction) (t0 t : list effect) (res : result unit) :
  log_move_or_copy world models payload node user action t0 = (res, t) ->
  exists new,
    mails t = (mails t0 ++ new)%list /\ mail_outcome world payload res new.
Proof.
  intros H.
  assert (Hfail : forall e t', mails t' = mails t0 -> (inl e, t') = (res, t) ->
    exists new,
      mails t = (mails t0 ++ new)%list /\ mail_outcome world payload res new).
  { intros e t' Ht' He. injection He as <- <-. exists []. rewrite app_nil_r.
    split; [exact Ht' | left; split; [reflexivity | discriminate]]. }
  cbv beta delta [log_move_or_copy vbind lift when emit vret ok] in H.
  repeat run_step H ltac:(exact (Hfail _ _ eq_refl H)).
  set (final := dict_update _ _) in H.
  assert (Herr : dget final "errors" = dget payload "errors").
  { unfold final, dict_update. simpl.
    rewrite !dget_set_other by reflexivity. reflexivity. }
  assert (Hmail : dget final "email" = dget payload "email").
  { unfold final, dict_update. simpl.
    rewrite !dget_set_other by reflexivity. reflexivity. }
  assert (Hsrc : getitem (JObj final) "source" = inr (JObj l)).
  { unfold final, dict_update, getitem. simpl.
    rewrite !dict_get_set_other by reflexivity.
    rewrite dict_get_set. reflexivity. }
  unfold notify_condition in H. rewrite Herr, Hmail, Hsrc in H.
  fold (notify_condition payload) in H.
  assert (Hlog : mails (t0 ++ [AddLog node action user final]) = mails t0).
  { rewrite mails_app. simpl. apply app_nil_r. }
  destruct (negb (truthy (dget payload "errors")));
    cbv beta iota in H;
    (destruct (notify_condition payload) eqn:Hcond;
     [ repeat run_step H
         ltac:(first [exact (Hfail _ _ Hlog H) | exact (Hfail _ _ eq_refl H)]);
       injection H as <- <-; eexists; split;
       [ rewrite mails_app, ?Hlog; simpl; reflexivity
       | right; eexists; exists j;
         split; [reflexivity |]; split; [reflexivity |];
         split; [exact Hcond |]; split; [exact E0 |]; split; simpl;
         [ rewrite <- (update_bundle_keeps_path _ _ _ _ E6); assumption
         | reflexivity ] ]
     | try run_step H ltac:(exact (Hfail _ _ Hlog H));
       injection H as <- <-; exists []; rewrite app_nil_r;
       split; [first [exact Hlog | reflexivity]
              | left; split; [reflexivity | intros _; exact Hcond] ] ]).
Qed.

Lemma log_single_mails (world : Collaborators)
    (payload : list (string * json)) (node : Node) (user : User)
    (action : NodeLogAction) (t0 t : list effect) (res : result unit) :
  log_single world payload node user action t0 = (res, t) ->
  mails t = mails t0.
Proof.
  intros H.
  cbv beta delta [log_single vbind lift emit vret ok] in H.
  run_step H ltac:(injection H as <- <-; reflexivity).
  destruct (snd p) as [node_addon|];
    [| cbv beta iota in H; injection H as <- <-; reflexivity].
  repeat run_step H ltac:(injection H as <- <-; reflexivity).
  destruct (fst p); cbv beta iota in H; injection H as <- <-;
    try reflexivity.
  rewrite mails_app. simpl. apply app_nil_r.
Qed.

(** The action a payload names, when it is a move or a copy *)
Lemma move_copy_action (payload : list (string * json)) (auth : json)
    (action : NodeLogAction) :
  except_KeyError
    (do auth <- getitem (JObj payload) "auth";
     do act <- getitem (JObj payload) "action";
     do action <- LOG_ACTION_MAP_getitem act;
     ok (auth, action))
    (raise (HTTPError BAD_REQUEST)) = inr (auth, action) ->
  dget payload "action" = JStr "move" \/ dget payload "action" = JStr "copy" ->
  is_move_or_copy action = true.
Proof.
  unfold dget, getitem.
  destruct (dict_get "auth" payload); simpl; [| discriminate].
  destruct (dict_get "action" payload) as [act|]; simpl; [| discriminate].
  intros H [-> | ->]; simpl in H; injection H as _ <-; reflexivity.
Qed.

(** C9. Every notification mail of [create_waterbutler_log] carries
    [payload['source']['path']] both as its source path and as its
    destination path, whatever the destination bundle holds; a move or
    copy payload that the view handles, with the e-mail flag set or errors
    present, gets exactly one such mail. *)
Theorem move_copy_mail_destination_is_source_path (world : Collaborators)
    (models : Models) (payload : list (string * json)) (node : Node)
    (res : result json) (t : list effect) :
  create_waterbutler_log world models payload node [] = (res, t) ->
  (forall m, In m (mails t) ->
     exists src,
       getitem (JObj payload) "source" = ok src /\
       getitem src "path" = ok (destination_path m) /\
       source_path m = destination_path m)
  /\ (dget payload "action" = JStr "move" \/ dget payload "action" = JStr "copy" ->
      notify_condition payload = true ->
      (exists r, res = ok r) ->
      exists m, mails t = [m]).
Proof.
  intros H.
  cbv beta delta [create_waterbutler_log vbind lift vret ok] in H.
  run_step H ltac:(injection H as <- <-; split;
                   [intros m [] | intros _ _ [r Hr]; discriminate Hr]).
  run_step H ltac:(injection H as <- <-; split;
                   [intros m [] | intros _ _ [r Hr]; discriminate Hr]).
  destruct (load_by (User_load models) j) as [user|]; cbv beta iota in H;
    [| injection H as <- <-; split;
       [intros m [] | intros _ _ [r Hr]; discriminate Hr]].
  destruct p as [auth action]. cbn [fst snd] in H.
  destruct (is_move_or_copy action) eqn:Hmc.
  - destruct (log_move_or_copy world models payload node user action [])
      as [r1 t1] eqn:Hrun.
    apply log_move_or_copy_mails in Hrun. destruct Hrun as (new & Hnew & Hout).
    simpl in Hnew.
    assert (Ht : t = t1 /\ (forall r, res = ok r -> r1 = ok tt)).
    { destruct r1 as [e|[]]; cbv beta iota zeta in H;
        injection H as <- <-; split; try reflexivity;
        intros r Hr; try discriminate Hr; reflexivity. }
    destruct Ht as [-> Hres]. rewrite Hnew. clear Hnew H.
    destruct Hout as [[-> Hc] | (m & src & -> & Hr1 & Hc & Hsrc & Hpath & Heq)].
    + split; [intros m [] |].
      intros _ Hcond [r Hr]. rewrite (Hc (Hres r Hr)) in Hcond. discriminate.
    + split.
      * intros m' [<- | []]. exists src. auto.
      * intros _ _ _. exists m. reflexivity.
  - destruct (log_single world payload node user action [])
      as [r1 t1] eqn:Hrun.
    apply log_single_mails in Hrun. simpl in Hrun.
    assert (Ht : t = t1).
    { destruct r1 as [e|[]]; cbv beta iota zeta in H;
        injection H as <- <-; reflexivity. }
    subst t1. rewrite Hrun. split; [intros m [] |].
    intros Hact. rewrite (move_copy_action _ _ _ E Hact) in Hmc. discriminate.
Qed.

Lemma move_copy_mail_destination_is_source_path_witness :
  exists m,
    mails (snd (create_waterbutler_log Fixtures.obliging Fixtures.site Fixtures.move_payload
                  Fixtures.private_project [])) = [m].
Proof.
  refine (proj2 (move_copy_mail_destination_is_source_path
                   Fixtures.obliging Fixtures.site Fixtures.move_payload
                   Fixtures.private_project
                   (fst (create_waterbutler_log Fixtures.obliging Fixtures.site
                           Fixtures.move_payload Fixtures.private_project []))
                   _ _) _ _ _).
  - apply surjective_pairing.
  - left. reflexivity.
  - reflexivity.
  - eexists. vm_compute. reflexivity.
Defined.

(** The move to [/new/place.txt] is announced with [/old/place.txt] as
    its destination. *)
Example move_mail_names_the_source_path :
  List.map destination_path
    (mails (snd (create_waterbutler_log Fixtures.obliging Fixtures.site Fixtures.move_payload
                   Fixtures.private_project [])))
  = [JStr "/old/place.txt"].
Proof. vm_compute. reflexivity. Qed.

End WaterbutlerLog.

(* ===================================================================== *)
(** * Properties of the event registry and of [Event.get_event] *)
(* ===================================================================== *)

Section EventDispatch.

Import Events.

Lemma registry_contents : registry = list_to_map registered.
Proof. vm_compute. reflexivity. Qed.

Lemma registry_lookup (k : string) (c : event_class) :
  registry !! k = Some c <-> c <> Event /\ lower (class_name c) = k.
Proof.
  rewrite registry_contents. rewrite <- elem_of_list_to_map.
  2:{ apply (bool_decide_unpack _). vm_compute. exact I. }
  unfold registered. rewrite !elem_of_cons, elem_of_nil. split.
  - intros H.
    repeat destruct H as [H|H];
      try (simplify_eq; split; [discriminate | reflexivity]).
    destruct H.
  - intros [Hc <-]. destruct c; try congruence; vm_compute; tauto.
Qed.

Ltac keeps_cls H :=
  repeat result_step H;
  cbv zeta in H; cbn [rbind fst snd] in H;
  simplify_eq; cbn; first [reflexivity | congruence].

Lemma FileEvent_form_guid_cls self self' :
  FileEvent_form_guid self = ok self' -> cls self' = cls self.
Proof. unfold FileEvent_form_guid, ok. intros H. keeps_cls H. Qed.

Lemma ComplexFileEvent_form_guid_cls env self self' :
  ComplexFileEvent_form_guid env self = ok self' -> cls self' = cls self.
Proof. unfold ComplexFileEvent_form_guid, ok. intros H. keeps_cls H. Qed.

Lemma form_guid_cls env self self' :
  form_guid env self = ok self' -> cls self' = cls self.
Proof.
  unfold form_guid. intros H.
  destruct (cls self) eqn:Hc; try discriminate H;
    first [apply FileEvent_form_guid_cls in H
          | apply ComplexFileEvent_form_guid_cls in H];
    congruence.
Qed.

Lemma form_event_cls self self' :
  form_event self = ok self' -> cls self' = cls self.
Proof.
  unfold form_event, FileEvent_form_event, UpdateFileEvent_form_event,
    ComplexFileEvent_form_event, ok.
  intros H. destruct (cls self) eqn:Hc; try discriminate H; keeps_cls H.
Qed.

Lemma ComplexFileEvent_form_message_cls env self self' :
  ComplexFileEvent_form_message env self = ok self' -> cls self' = cls self.
Proof. unfold ComplexFileEvent_form_message, ok. intros H. keeps_cls H. Qed.

Lemma form_message_cls env self self' :
  form_message env self = ok self' -> cls self' = cls self.
Proof.
  unfold form_message, FileEvent_form_message, AddonFileCopied_form_message, ok.
  intros H.
  destruct (cls self) eqn:Hc; try discriminate H;
    try (apply ComplexFileEvent_form_message_cls in H; congruence);
    try solve [keeps_cls H].
  result_step H. apply ComplexFileEvent_form_message_cls in E.
  injection H as <-. cbn. congruence.
Qed.

Lemma ComplexFileEvent_form_url_cls env self self' f :
  ComplexFileEvent_form_url env self = ok (self', f) -> cls self' = cls self.
Proof.
  unfold ComplexFileEvent_form_url, FileEvent_form_url, ok. intros H.
  keeps_cls H.
Qed.

Lemma form_url_cls env self self' :
  form_url env self = ok self' -> cls self' = cls self.
Proof.
  unfold form_url, UpdateFileEvent_form_url, SimpleFileEvent_form_url,
    AddonFileMoved_form_url, AddonFileCopied_form_url, FileEvent_form_url, ok.
  intros H.
  destruct (cls self) eqn:Hc; try discriminate H;
    try solve [keeps_cls H];
    result_step H;
    match goal with
    | E : ComplexFileEvent_form_url _ _ = inr ?p |- _ =>
        destruct p; apply ComplexFileEvent_form_url_cls in E
    end;
    keeps_cls H.
Qed.

Lemma construct_cls env c u n ev kwargs self :
  construct env c u n ev kwargs = ok self -> cls self = c.
Proof.
  unfold construct, UpdateFileEvent_init, SimpleFileEvent_init,
    ComplexFileEvent_init, ok.
  intros H.
  destruct c; try discriminate H;
    repeat (cbv zeta in H; result_step H);
    repeat match goal with
           | E : form_guid _ _ = inr _ |- _ => apply form_guid_cls in E
           | E : form_event _ = inr _ |- _ => apply form_event_cls in E
           | E : form_message _ _ = inr _ |- _ => apply form_message_cls in E
           | E : form_url _ _ = inr _ |- _ => apply form_url_cls in E
           end;
    try apply form_url_cls in H; try apply form_message_cls in H;
    try (injection H as <-); simpl in *; congruence.
Qed.

(** C10, as the code has it.  With [kind] the event name without its
    underscores: when a registered subclass has [kind] as its lowercased
    name, [get_event] is the call of that subclass's constructor, with
    its instance or its exception; when none has, [get_event] raises
    [TypeError]; and an instance that [get_event] returns belongs to the
    registered subclass named by [kind]. *)
Theorem get_event_dispatch env u n ev kwargs :
  let kind := Py.join "" (Py.split underscore ev) in
  (forall c, c <> Event -> lower (class_name c) = kind ->
     get_event env u n ev kwargs = construct env c u n ev kwargs)
  /\ ((forall c, c <> Event -> lower (class_name c) <> kind) ->
      get_event env u n ev kwargs = raise TypeError)
  /\ (forall self, get_event env u n ev kwargs = ok self ->
      cls self <> Event /\ lower (class_name (cls self)) = kind).
Proof.
  intros kind. unfold get_event. fold kind. repeat split.
  - intros c Hc Hk.
    rewrite (proj2 (registry_lookup kind c) (conj Hc Hk)). reflexivity.
  - intros Hnone. destruct (registry !! kind) as [c|] eqn:Hl; [| reflexivity].
    apply registry_lookup in Hl. destruct Hl as [Hc Hk].
    destruct (Hnone c Hc Hk).
  - destruct (registry !! kind) as [c|] eqn:Hl; [| discriminate].
    apply registry_lookup in Hl. apply construct_cls in H. subst c. tauto.
  - destruct (registry !! kind) as [c|] eqn:Hl; [| discriminate].
    apply registry_lookup in Hl. apply construct_cls in H. subst c. tauto.
Qed.

Lemma get_event_dispatch_witness :
  get_event Fixtures.events_env Fixtures.cat Fixtures.private_project
    "file_added" [("payload", Fixtures.file_added_payload)]
  = construct Fixtures.events_env FileAdded Fixtures.cat
      Fixtures.private_project "file_added"
      [("payload", Fixtures.file_added_payload)].
Proof.
  apply (proj1 (get_event_dispatch Fixtures.events_env Fixtures.cat
                  Fixtures.private_project "file_added"
                  [("payload", Fixtures.file_added_payload)])).
  - discriminate.
  - reflexivity.
Defined.

(** The [file_added] event of the upload of [a/x] *)
Example get_event_file_added :
  match get_event Fixtures.events_env Fixtures.cat Fixtures.private_project
          "file_added" [("payload", Fixtures.file_added_payload)] with
  | inr self => Some (cls self, event self, url self)
  | inl _ => None
  end
  = Some (FileAdded, "guid/a/x_file_updated",
          Some "https://osf.example/guid/a/x/").
Proof. vm_compute. reflexivity. Qed.

(** C10, as stated, fails: called without a payload, [get_event] finds
    [FileAdded] for [file_added], and the constructor's
    [self.payload['provider']] on [None] raises [TypeError]. *)
Lemma get_event_TypeError_despite_match :
  ~ (get_event Fixtures.events_env Fixtures.cat Fixtures.private_project
       "file_added" [] = raise TypeError
     <-> (forall c, c <> Event ->
            lower (class_name c) <> Py.join "" (Py.split underscore "file_added"))).
Proof.
  intros [Honly_if _].
  apply (Honly_if eq_refl FileAdded); [discriminate | reflexivity].
Qed.

(** A name without underscores reaches a class whose constructor cannot
    unpack it: no instance is returned. *)
Example get_event_fileadded_raises :
  get_event Fixtures.events_env Fixtures.cat Fixtures.private_project
    "fileadded" [("payload", Fixtures.file_added_payload)]
  = raise ValueError.
Proof. vm_compute. reflexivity. Qed.

End EventDispatch.

(* ===================================================================== *)
(** * Properties of the reference provider *)
(* ===================================================================== *)

Section Provider.

Import Github.

Lemma make_request_calls (r : Request) (backend : Backend) (calls : list Request) :
  snd (make_request r backend calls) = (calls ++ [r])%list.
Proof. unfold make_request. destruct (backend r); reflexivity. Qed.

Lemma metadata_calls (p : Provider) (path : string) (backend : Backend)
    (calls : list Request) :
  snd (metadata p path backend calls) = (calls ++ [metadata_request p path])%list.
Proof.
  unfold metadata, gbind, make_request, gfail, glift.
  destruct (backend (metadata_request p path)) as [resp|]; [| reflexivity].
  destruct (is_success (status resp)); [| reflexivity].
  destruct (decoded resp) as [[]|]; reflexivity.
Qed.

Lemma probe_calls (p : Provider) (path : string) (backend : Backend)
    (calls : list Request) :
  snd (probe p path backend calls)
  = (calls ++ [metadata_request p (dirname path)])%list.
Proof.
  unfold probe, catch_not_found, gbind, gret.
  pose proof (metadata_calls p (dirname path) backend calls) as H.
  destruct (metadata p (dirname path) backend calls) as [[e|m] c]; simpl in *.
  - destruct e; exact H.
  - exact H.
Qed.


Lemma upload_after_probe (p : Provider) (stream : ByteStream)
    (path message : string) (backend : Backend) (listing : list MetadataRecord) :
  fst (run_gw (probe p path) backend) = inr listing ->
  snd (run_gw (upload p stream path message) backend)
  = [ metadata_request p (dirname path);
      upload_request p path
        (upload_data p path message (fst (read_all stream))
           (find_existing path listing)) ].
Proof.
  unfold run_gw, upload. unfold gbind at 1.
  pose proof (probe_calls p path backend []) as Hc.
  destruct (probe p path backend []) as [[e|l] c]; simpl in *; [discriminate |].
  intros H. injection H as ->. subst c.
  unfold gbind.
  match goal with
  | |- context [make_request ?r backend ?c] =>
      pose proof (make_request_calls r backend c) as Hm;
      destruct (make_request r backend c) as [[e|resp] c']
  end; simpl in *; [exact Hm |].
  destruct (is_success (status resp)); simpl; exact Hm.
Qed.


Lemma find_existing_Some (path : string) (listing : list MetadataRecord)
    (r : MetadataRecord) :
  find_existing path listing = Some r -> In r listing /\ md_path r = path.
Proof.
  unfold find_existing. intros H. apply List.find_some in H.
  destruct H as [Hin Heq]. apply String.eqb_eq in Heq. auto.
Qed.

Lemma find_existing_None (path : string) (listing : list MetadataRecord) :
  find_existing path listing = None ->
  forall r, In r listing -> md_path r <> path.
Proof.
  unfold find_existing. intros H r Hin Heq.
  pose proof (List.find_none _ _ H r Hin) as Hf. simpl in Hf.
  apply String.eqb_neq in Hf. contradiction.
Qed.

Lemma find_existing_unique (path : string) (listing : list MetadataRecord)
    (r : MetadataRecord) :
  List.NoDup (List.map md_path listing) -> In r listing -> md_path r = path ->
  find_existing path listing = Some r.
Proof.
  unfold find_existing. induction listing as [|x l IH]; simpl; [intros _ [] |].
  intros Hnd Hin Hp. apply List.NoDup_cons_iff in Hnd. destruct Hnd as [Hx Hnd].
  destruct (String.eqb (md_path x) path) eqn:Hxp.
  - apply String.eqb_eq in Hxp. destruct Hin as [-> | Hin]; [reflexivity |].
    exfalso. apply Hx. rewrite Hxp, <- Hp. apply in_map. exact Hin.
  - destruct Hin as [-> | Hin].
    + apply String.eqb_neq in Hxp. contradiction.
    + apply IH; assumption.
Qed.

(** C1. The write body of an upload has a [sha] field exactly when the
    probe of the containing folder returned an entry at the target path,
    and the field holds the hash of that entry (the first such entry of
    the listing; the only one when paths are unique). *)
Theorem upload_sha_iff_probe_found (p : Provider) (stream : ByteStream)
    (path message : string) (backend : Backend) (listing : list MetadataRecord) :
  fst (run_gw (probe p path) backend) = inr listing ->
  exists data,
    List.map req_data (writes (snd (run_gw (upload p stream path message) backend)))
    = [Some (JObj data)]
    /\ (dict_has "sha" data = true <-> exists r, In r listing /\ md_path r = path)
    /\ (forall r, find_existing path listing = Some r ->
          dict_get "sha" data = Some (JStr (md_hash r)))
    /\ (List.NoDup (List.map md_path listing) ->
        forall r, In r listing -> md_path r = path ->
          dict_get "sha" data = Some (JStr (md_hash r))).
Proof.
  intros Hprobe. rewrite (upload_after_probe _ _ _ _ _ _ Hprobe).
  unfold upload_data. eexists. split; [reflexivity |].
  assert (Hfound : forall r, find_existing path listing = Some r ->
            dict_get "sha"
              ([("path", JStr path); ("message", JStr message);
                ("content", JStr (Base64.b64encode (fst (read_all stream))));
                ("committer", committer p)]
               ++ match find_existing path listing with
                  | Some r0 => [("sha", JStr (md_hash r0))]
                  | None => []
                  end)%list
            = Some (JStr (md_hash r))).
  { intros r Hr. rewrite Hr. reflexivity. }
  split; [| split].
  - unfold dict_has. destruct (find_existing path listing) as [r|] eqn:Hf; simpl.
    + split; [| reflexivity]. intros _. exists r.
      apply find_existing_Some. exact Hf.
    + split; [discriminate |]. intros (r & Hin & Hp).
      destruct (find_existing_None _ _ Hf r Hin Hp).
  - exact Hfound.
  - intros Hnd r Hin Hp. apply Hfound.
    apply find_existing_unique; assumption.
Qed.




Lemma delete_calls (p : Provider) (path message sha : string)
    (branch : option string) (backend : Backend) :
  snd (run_gw (delete p path message sha branch) backend)
  = [delete_request p path (delete_data p message sha branch)].
Proof.
  unfold run_gw, delete, gbind.
  match goal with
  | |- context [make_request ?r backend ?c] =>
      pose proof (make_request_calls r backend c) as Hm;
      destruct (make_request r backend c) as [[e|resp] c']
  end; simpl in *; [exact Hm |].
  destruct (is_success (status resp)); exact Hm.
Qed.

(** C4. The body of a delete carries the message, the content hash and
    the committer; it has a [branch] field exactly when a branch is
    given, holding that branch. *)
Theorem delete_body_branch (p : Provider) (path message sha : string)
    (branch : option string) (backend : Backend) :
  exists data,
    snd (run_gw (delete p path message sha branch) backend)
    = [delete_request p path (JObj data)]
    /\ dict_get "branch" data = option_map JStr branch
    /\ (branch = None -> dict_has "branch" data = false)
    /\ dict_get "message" data = Some (JStr message)
    /\ dict_get "sha" data = Some (JStr sha)
    /\ dict_get "committer" data = Some (committer p).
Proof.
  rewrite delete_calls. unfold delete_data. eexists.
  split; [reflexivity |].
  unfold dict_has. destruct branch; repeat split; intros; discriminate.
Qed.

Lemma delete_body_branch_witness :
  exists data,
    snd (run_gw (delete Fixtures.provider "lib/octokit.rb" "deleted"
                   "fff6fe3a23bf1c8ea0692b4a883af99bee26fd3b" None)
           Fixtures.metadata_backend)
    = [delete_request Fixtures.provider "lib/octokit.rb" (JObj data)]
    /\ dict_has "branch" data = false.
Proof.
  destruct (delete_body_branch Fixtures.provider "lib/octokit.rb" "deleted"
              "fff6fe3a23bf1c8ea0692b4a883af99bee26fd3b" None
              Fixtures.metadata_backend)
    as (data & Hcalls & _ & Hnone & _).
  exists data. split; [exact Hcalls | exact (Hnone eq_refl)].
Defined.

(** [test_delete_with_branch] and [test_delete_without_branch] *)
Example delete_with_branch_data :
  delete_data Fixtures.provider "deleted"
    "fff6fe3a23bf1c8ea0692b4a883af99bee26fd3b" (Some "master")
  = JObj [ ("message", JStr "deleted");
           ("sha", JStr "fff6fe3a23bf1c8ea0692b4a883af99bee26fd3b");
           ("committer", committer Fixtures.provider);
           ("branch", JStr "master") ].
Proof. reflexivity. Qed.

Example delete_without_branch_data :
  delete_data Fixtures.provider "deleted"
    "fff6fe3a23bf1c8ea0692b4a883af99bee26fd3b" None
  = JObj [ ("message", JStr "deleted");
           ("sha", JStr "fff6fe3a23bf1c8ea0692b4a883af99bee26fd3b");
           ("committer", committer Fixtures.provider) ].
Proof. reflexivity. Qed.

Lemma serialize_all_Forall2 (items : list json) (rs : list MetadataRecord) :
  serialize_all items = inr rs
  <-> Forall2 (fun item r => _serialize_metadata item = inr r) items rs.
Proof.
  revert rs. induction items as [|item items IH]; intros rs; simpl.
  - split.
    + intros H. injection H as <-. constructor.
    + intros H. inversion H. reflexivity.
  - destruct (_serialize_metadata item) as [e|r] eqn:Hr; simpl.
    + split; [discriminate |]. intros H. inversion H; subst. congruence.
    + destruct (serialize_all items) as [e|rs'] eqn:Hrs; simpl.
      * split; [discriminate |]. intros H. inversion H; subst.
        match goal with
        | H' : Forall2 _ items _ |- _ => apply IH in H'; discriminate H'
        end.
      * split.
        -- intros H. injection H as <-. constructor; [exact Hr |].
           apply IH. reflexivity.
        -- intros H. inversion H; subst.
           match goal with
           | H' : Forall2 _ items _ |- _ => apply IH in H'; injection H' as <-
           end.
           congruence.
Qed.

(** C5. A metadata call answered with a JSON array returns the entries
    serialized one by one, in order; a fragment of type [file] with a
    size, a name, a path and a sha becomes a record of kind [file] with
    the same size, name, path and hash. *)
Theorem metadata_listing_serialized_in_order (p : Provider) (path : string)
    (backend : Backend) (resp : Response) (items : list json) :
  backend (metadata_request p path) = Some resp ->
  is_success (status resp) = true ->
  decoded resp = Some (JArr items) ->
  fst (run_gw (metadata p path) backend) = gw_map Listing (serialize_all items)
  /\ (forall rs, fst (run_gw (metadata p path) backend) = inr (Listing rs) <->
        Forall2 (fun item r => _serialize_metadata item = inr r) items rs)
  /\ (forall d name fpath sha n,
        dict_get "type" d = Some (JStr "file") ->
        dict_get "size" d = Some (JNum n) -> 0 <= n ->
        dict_get "name" d = Some (JStr name) ->
        dict_get "path" d = Some (JStr fpath) ->
        dict_get "sha" d = Some (JStr sha) ->
        exists r, _serialize_metadata (JObj d) = inr r
                  /\ md_kind r = file /\ md_size r = n /\ md_name r = name
                  /\ md_path r = fpath /\ md_hash r = sha).
Proof.
  intros Hb Hs Hd.
  assert (Hrun : fst (run_gw (metadata p path) backend)
                 = gw_map Listing (serialize_all items)).
  { unfold run_gw, metadata, gbind, make_request, glift.
    rewrite Hb. cbv beta iota. rewrite Hs, Hd. reflexivity. }
  split; [exact Hrun | split].
  - intros rs. rewrite Hrun, <- serialize_all_Forall2.
    destruct (serialize_all items); simpl; split; intros H;
      try discriminate; injection H as ->; reflexivity.
  - intros d name fpath sha n Ht Hsz Hn Hname Hpath Hsha.
    unfold _serialize_metadata, parse_kind, required_string, parse_size.
    rewrite Ht, Hsz, Hname, Hpath, Hsha. simpl.
    destruct (Z.leb_spec 0 n); [| lia]. simpl. eexists. split; [reflexivity |].
    repeat split.
Qed.


(** ** The theorems at the fixtures of the test module *)

(** [test_upload_update]: the listing holds [lib/octokit.rb]. *)
Lemma upload_sha_iff_probe_found_witness :
  exists data,
    List.map req_data
      (writes (snd (run_gw (upload Fixtures.provider
                              (stream_of Fixtures.file_content)
                              "lib/octokit.rb" "so hungry")
                      Fixtures.upload_update_backend)))
    = [Some (JObj data)]
    /\ dict_get "sha" data
       = Some (JStr "fff6fe3a23bf1c8ea0692b4a883af99bee26fd3b").
Proof.
  destruct (upload_sha_iff_probe_found Fixtures.provider
              (stream_of Fixtures.file_content) "lib/octokit.rb" "so hungry"
              Fixtures.upload_update_backend Fixtures.repo_records eq_refl)
    as (data & Hwrites & _ & Hfound & _).
  exists data. split; [exact Hwrites |].
  exact (Hfound _ eq_refl).
Defined.

(** [test_upload_create]: the reversed path is not in the listing, and
    the body is exactly the expected one, without [sha]. *)
Example upload_create_calls :
  snd (run_gw (upload Fixtures.provider (stream_of Fixtures.file_content)
                 Fixtures.new_path "so hungry")
         Fixtures.upload_create_backend)
  = [ metadata_request Fixtures.provider "br.tikotco";
      upload_request Fixtures.provider Fixtures.new_path
        (JObj [ ("path", JStr Fixtures.new_path);
                ("message", JStr "so hungry");
                ("content", JStr "aHVuZ3J5");
                ("committer", committer Fixtures.provider) ]) ].
Proof. vm_compute. reflexivity. Qed.



Example upload_fresh_has_no_sha :
  List.map req_data
    (writes (snd (run_gw (upload Fixtures.provider
                            (stream_of Fixtures.file_content)
                            "snacks/new.txt" "so hungry")
                    Fixtures.upload_fresh_backend)))
  = [ Some (JObj [ ("path", JStr "snacks/new.txt");
                   ("message", JStr "so hungry");
                   ("content", JStr "aHVuZ3J5");
                   ("committer", committer Fixtures.provider) ]) ].
Proof. vm_compute. reflexivity. Qed.



(** [test_download]: a success wraps the body. *)
Example download_success :
  fst (run_gw (download Fixtures.provider "mysha" None)
         (Fixtures.download_backend 200))
  = inr (stream_of (Base64.bytes_of_string "delicious")).
Proof. reflexivity. Qed.

(** [test_metadata]: the two entries of [repo_contents], in order. *)
Lemma metadata_listing_serialized_in_order_witness :
  fst (run_gw (metadata Fixtures.provider "snacks") Fixtures.metadata_backend)
  = gw_map Listing (serialize_all Fixtures.repo_contents).
Proof.
  refine (proj1 (metadata_listing_serialized_in_order Fixtures.provider
                   "snacks" Fixtures.metadata_backend
                   (Fixtures.json_response 200 (JArr Fixtures.repo_contents))
                   Fixtures.repo_contents _ _ _)); reflexivity.
Defined.

Example metadata_test_records :
  List.map (fun r => (md_kind r, md_size r, md_name r, md_path r, md_hash r))
    Fixtures.repo_records
  = [ (file, 625, "octokit.rb", "lib/octokit.rb",
       "fff6fe3a23bf1c8ea0692b4a883af99bee26fd3b");
      (folder, 0, "octokit", "lib/octokit",
       "a84d88e7554fc1fa21bcbc4efae3c782a70d2b9d") ].
Proof. vm_compute. reflexivity. Qed.

(** The round trip of section 8 *)
Example serialize_round_trip :
  _serialize_metadata
    (JObj [ ("type", JStr "file"); ("size", JNum 625); ("name", JStr "x");
            ("path", JStr "a/x"); ("sha", JStr "abc") ])
  = inr {| md_kind := file; md_name := "x"; md_path := "a/x";
           md_size := 625; md_hash := "abc"; md_url := None;
           md_links := [] |}.
Proof. reflexivity. Qed.


End Provider.

(* ===================================================================== *)
(** * More of [check_access]: who gets in *)
(* ===================================================================== *)

Section CheckAccessMore.

Import Views Lineage.

Lemma Node_parent_ind (P : Node -> Prop) :
  (forall n, (forall p, parent_node n = Some p -> P p) -> P n) ->
  forall n, P n.
Proof.
  intros H. fix F 1. intros n. apply H.
  destruct n as [i u au t pid hp pub keys reg parent ga wu]. simpl.
  intros p Hp. destruct parent as [q|]; [| discriminate Hp].
  injection Hp as <-. apply F.
Qed.

Lemma parents_have_write_chain (user : option User) (n : Node) :
  parents_have_write user n = true
  <-> exists a, In a (chain n) /\ has_permission a user "write" = true.
Proof.
  induction n as [n IH] using Node_parent_ind.
  destruct n as [i u au t pid hp pub keys reg parent ga wu]. simpl in *.
  destruct (hp user "write") eqn:Hw.
  - split; [| reflexivity]. intros _. eexists. split; [left; reflexivity |].
    exact Hw.
  - destruct parent as [p|].
    + rewrite (IH p eq_refl). split.
      * intros (a & Hin & Ha). exists a. split; [right; exact Hin | exact Ha].
      * intros (a & [<- | Hin] & Ha).
        -- simpl in Ha. congruence.
        -- exists a. split; assumption.
    + split; [discriminate |]. intros (a & [<- | []] & Ha). simpl in Ha.
      congruence.
Qed.

Lemma parent_loop_ancestors (user : option User) (n : Node) :
  match parent_node n with
  | Some parent => parents_have_write user parent
  | None => false
  end = true
  <-> exists a, In a (ancestors n) /\ has_permission a user "write" = true.
Proof.
  unfold ancestors. destruct (parent_node n) as [p|].
  - apply parents_have_write_chain.
  - split; [discriminate | intros (a & [] & _)].
Qed.

(** [check_access] as one decision: the three ways in, or the denial. *)
Lemma check_access_decision (node : Node) (user : option User)
    (action : string) (key : option string) :
  check_access node user action key
  = match permission_map_get action permission_map with
    | None => raise (HTTPError BAD_REQUEST)
    | Some permission =>
        if (has_permission node user permission
            || (String.eqb permission "read"
                && (is_public node
                    || key_in key (private_link_keys_active node)))
            || ((String.eqb action "copyfrom"
                 || (String.eqb action "copyto" && is_registration node))
                && match parent_node node with
                   | Some parent => parents_have_write user parent
                   | None => false
                   end))%bool
        then ok true
        else raise (HTTPError (match user with
                               | Some _ => FORBIDDEN
                               | None => UNAUTHORIZED
                               end))
    end.
Proof.
  unfold check_access.
  destruct (permission_map_get action permission_map) as [permission|];
    [| reflexivity].
  destruct (has_permission node user permission); [reflexivity |].
  cbn [orb].
  destruct (String.eqb permission "read"
            && (is_public node || key_in key (private_link_keys_active node)))%bool;
    reflexivity.
Qed.

(** X1. [check_access] never returns [False], and it returns [True]
    exactly when the action is mapped and one of three holds: the node
    grants the mapped permission; the permission is 'read' and the node
    is public or the key is an active private-link key; the action is
    [copyfrom] (or [copyto] on a registration) and some ancestor grants
    'write'. *)
Theorem check_access_granted_iff (node : Node) (user : option User)
    (action : string) (key : option string) :
  check_access node user action key <> ok false
  /\ (check_access node user action key = ok true
      <-> exists permission,
            permission_map_get action permission_map = Some permission
            /\ (has_permission node user permission = true
                \/ (permission = "read"
                    /\ (is_public node = true
                        \/ exists k, key = Some k
                                     /\ In k (private_link_keys_active node)))
                \/ (escalates node action
                    /\ exists a, In a (ancestors node)
                                 /\ has_permission a user "write" = true))).
Proof.
  rewrite check_access_decision.
  destruct (permission_map_get action permission_map) as [permission|];
    [| split; [discriminate |];
       split; [discriminate | intros (perm & Hp & _); discriminate Hp]].
  match goal with
  | |- context [if ?b then _ else _] =>
      assert (Hb : b = true
                   <-> (has_permission node user permission = true
                        \/ (permission = "read"
                            /\ (is_public node = true
                                \/ exists k, key = Some k
                                     /\ In k (private_link_keys_active node)))
                        \/ (escalates node action
                            /\ exists a, In a (ancestors node)
                                 /\ has_permission a user "write" = true)));
      [| destruct b ]
  end.
  { repeat (rewrite orb_true_iff || rewrite andb_true_iff).
    rewrite !String.eqb_eq, key_in_spec, parent_loop_ancestors.
    unfold escalates. tauto. }
  - split; [discriminate |]. split; [| reflexivity]. intros _.
    exists permission. split; [reflexivity | apply Hb; reflexivity].
  - split; [discriminate |]. split; [discriminate |].
    intros (perm & Hpm & Hcases). injection Hpm as <-.
    apply Hb in Hcases. discriminate Hcases.
Qed.

(** X2. A write action that is not a [copyto] into a registration is decided
    by the node's own write permission alone: neither a public node nor
    a view-only key opens it. *)
Theorem check_access_write_needs_permission (node : Node) (user : option User)
    (action : string) (key : option string) :
  permission_map_get action permission_map = Some "write" ->
  action <> "copyto" \/ is_registration node = false ->
  has_permission node user "write" = false ->
  check_access node user action key
  = raise (HTTPError (match user with Some _ => 403 | None => 401 end)).
Proof.
  intros Hmap Hnot Hperm. rewrite check_access_decision, Hmap, Hperm.
  assert (Hesc : (String.eqb action "copyfrom"
                  || (String.eqb action "copyto" && is_registration node))%bool
                 = false).
  { apply orb_false_iff. split.
    - apply String.eqb_neq. intros ->. discriminate Hmap.
    - destruct Hnot as [Hne | Hreg].
      + apply String.eqb_neq in Hne. rewrite Hne. reflexivity.
      + rewrite Hreg. apply andb_false_r. }
  rewrite Hesc. reflexivity.
Qed.

Lemma check_access_write_needs_permission_witness :
  check_access Family.public_project (Some Family.dog) "upload" (Some "s3cr3t")
  = raise (HTTPError 403).
Proof.
  apply (check_access_write_needs_permission Family.public_project
           (Some Family.dog) "upload" (Some "s3cr3t")).
  - reflexivity.
  - left. discriminate.
  - reflexivity.
Defined.

(** The owner of the parent project may copy from the private
    component; a stranger may not. *)
Example copyfrom_through_the_parent :
  check_access Family.component (Some Fixtures.cat) "copyfrom" None = ok true
  /\ check_access Family.component (Some Family.dog) "copyfrom" None
     = raise (HTTPError 403)
  /\ check_access Family.component (Some Fixtures.cat) "download" None
     = raise (HTTPError 403).
Proof. repeat split. Qed.

End CheckAccessMore.

(* ===================================================================== *)
(** * More of [create_waterbutler_log]: errors, logs and mails *)
(* ===================================================================== *)

Section WaterbutlerLogMore.

Import Views LogParams.

(** The view after its prelude: the branch for the action, then the
    success status. *)
Lemma create_waterbutler_log_branch (world : Collaborators) (models : Models)
    (payload : list (string * json)) (node : Node) (auth uid : json)
    (name : string) (action : NodeLogAction) (user : User) (t0 : list effect) :
  dict_get "auth" payload = Some auth ->
  dict_get "action" payload = Some (JStr name) ->
  log_action_lookup name LOG_ACTION_MAP = Some action ->
  getitem auth "id" = ok uid ->
  load_by (User_load models) uid = Some user ->
  create_waterbutler_log world models payload node t0
  = match (if is_move_or_copy action
           then log_move_or_copy world models payload node user action
           else log_single world payload node user action) t0 with
    | (inl e, t) => (inl e, t)
    | (inr _, t) => (ok (JObj [("status", JStr "success")]), t)
    end.
Proof.
  intros Hauth Hact Hmap Hid Huser.
  unfold create_waterbutler_log, vbind, lift, vret.
  replace (getitem (JObj payload) "auth") with (ok auth : result json)
    by (unfold getitem; rewrite Hauth; reflexivity).
  replace (getitem (JObj payload) "action") with (ok (JStr name) : result json)
    by (unfold getitem; rewrite Hact; reflexivity).
  unfold LOG_ACTION_MAP_getitem. cbn [rbind ok]. rewrite Hmap.
  cbn [rbind ok except_KeyError fst snd]. rewrite Hid. cbv beta iota.
  unfold ok. cbv beta iota. rewrite Huser. reflexivity.
Qed.

Lemma update_bundle_result (nd : Node) (addon : option Addon)
    (bundle : json) (fields' : list (string * json)) :
  update_bundle nd addon bundle = ok fields' ->
  exists a p,
    addon = Some a
    /\ getitem (JObj fields') "addon" = ok (JStr (config_full_name a))
    /\ getitem (JObj fields') "path" = ok p.
Proof.
  unfold update_bundle, ok. destruct bundle as [| | | | |fields]; try discriminate.
  intros H. repeat result_step H. injection H as <-.
  destruct addon as [a0|]; [| discriminate].
  injection E1 as <-.
  exists a0, j0. split; [reflexivity |].
  unfold getitem, dict_update in *. simpl. split.
  - repeat (rewrite dict_get_set_other by reflexivity).
    rewrite dict_get_set. reflexivity.
  - repeat (rewrite dict_get_set_other by reflexivity). exact E2.
Qed.

Lemma getitem_set_other (k k' : string) (v : json) (d : list (string * json)) :
  String.eqb k' k = false ->
  getitem (JObj (dict_set k v d)) k' = getitem (JObj d) k'.
Proof. intros H. unfold getitem. rewrite dict_get_set_other by exact H. reflexivity. Qed.

Lemma getitem_set_same (k : string) (v : json) (d : list (string * json)) :
  getitem (JObj (dict_set k v d)) k = ok v.
Proof. unfold getitem. rewrite dict_get_set, String.eqb_refl. reflexivity. Qed.

(** A list of calls is made to its end exactly when none raises. *)
Lemma attempt_returns (world : Collaborators) (calls : list effect) :
  fst (attempt world calls) = ok tt ->
  snd (attempt world calls) = calls /\ Forall (fun c => world c = None) calls.
Proof.
  induction calls as [|c calls IH]; cbn [attempt].
  - intros _. split; [reflexivity | constructor].
  - destruct (world c) eqn:Hc; [discriminate |].
    destruct (attempt world calls) as [r made]. cbn [fst snd] in *.
    intros Hr. destruct (IH Hr) as [-> Hall].
    split; [reflexivity | constructor; assumption].
Qed.


Lemma attempt_made (world : Collaborators) (calls : list effect)
    (c : effect) :
  In c (snd (attempt world calls)) -> In c calls.
Proof.
  induction calls as [|d calls IH]; cbn [attempt]; [intros [] |].
  destruct (world d).
  - cbn [snd]. intros [<- | []]. left. reflexivity.
  - destruct (attempt world calls) as [r made]. cbn [snd] in *.
    intros [<- | Hin]; [left; reflexivity | right; exact (IH Hin)].
Qed.

(** The move/copy branch, run to its end: it raises before any call, or
    it has found both add-ons and updated both bundles, and makes the
    calls that the payload asks for, the log entry and then the mail,
    up to the first that raises. *)
Lemma log_move_or_copy_run (world : Collaborators) (models : Models)
    (payload : list (string * json)) (node : Node) (user : User)
    (action : NodeLogAction) (act : json) (t0 : list effect) :
  getitem (JObj payload) "action" = ok act ->
  (exists e,
      log_move_or_copy world models payload node user action t0 = (inl e, t0))
  \/ (exists src dst sn sa da src' dst',
        getitem (JObj payload) "source" = ok src
        /\ getitem (JObj payload) "destination" = ok dst
        /\ update_bundle sn (Some sa) src = ok src'
        /\ update_bundle node (Some da) dst = ok dst'
        /\ exists spath,
             getitem src "path" = ok spath
             /\ let calls :=
                  ((if truthy (dget payload "errors") then []
                    else [AddLog node action user
                            (moved_params node src' dst' payload)])
                   ++ (if notify_condition payload
                       then [SendMail
                               {| mail_to := user_username user;
                                  mail_template :=
                                    if truthy (dget payload "errors")
                                    then FILE_OPERATION_FAILED
                                    else FILE_OPERATION_SUCCESS;
                                  mail_action := act;
                                  mail_source_node := sn;
                                  mail_destination_node := node;
                                  source_path := spath;
                                  destination_path := spath;
                                  source_addon := JStr (config_full_name sa);
                                  destination_addon :=
                                    JStr (config_full_name da) |}]
                       else []))%list in
                log_move_or_copy world models payload node user action t0
                = (fst (attempt world calls),
                   (t0 ++ snd (attempt world calls))%list)).
Proof.
  intros Hact.
  destruct (log_move_or_copy world models payload node user action t0)
    as [res t] eqn:H.
  match goal with
  | |- ?G => assert (Hfail : forall e, (inl e, t0) = (res, t) -> G)
               by (intros e He; left; exists e; symmetry; exact He)
  end.
  cbv beta delta [log_move_or_copy vbind lift when emit vret ok] in H.
  repeat run_step H ltac:(exact (Hfail _ H)).
  clear Hfail. right.
  rewrite getitem_set_other in E7 by reflexivity.
  rewrite E4 in E7. injection E7 as <-.
  destruct (update_bundle_result _ _ _ _ E6) as (sa & sp & Hsa & Hsaddon & Hspath).
  destruct (update_bundle_result _ _ _ _ E8) as (da & dp & Hda & Hdaddon & Hdpath).
  rewrite Hsa in E6. rewrite Hda in E8.
  exists j, j2, n, sa, da, l, l0.
  split; [first [exact E0 | reflexivity] |].
  split; [first [exact E4 | reflexivity] |].
  split; [exact E6 |]. split; [exact E8 |].
  exists sp. split.
  { rewrite <- (update_bundle_keeps_path _ _ _ _ E6). exact Hspath. }
  fold (moved_params node l l0 payload) in H.
  set (final := moved_params node l l0 payload) in *.
  assert (Herr : dget final "errors" = dget payload "errors").
  { unfold final, moved_params, dict_update. simpl.
    rewrite !dget_set_other by reflexivity. reflexivity. }
  assert (Hmail : dget final "email" = dget payload "email").
  { unfold final, moved_params, dict_update. simpl.
    rewrite !dget_set_other by reflexivity. reflexivity. }
  assert (Hsrc : getitem (JObj final) "source" = inr (JObj l)).
  { unfold final, moved_params, dict_update. cbn [fold_left fst snd].
    rewrite !getitem_set_other by reflexivity. apply getitem_set_same. }
  assert (Hdst : getitem (JObj final) "destination" = inr (JObj l0)).
  { unfold final, moved_params, dict_update. cbn [fold_left fst snd].
    rewrite !getitem_set_other by reflexivity. apply getitem_set_same. }
  assert (Hfa : getitem (JObj final) "action" = inr act).
  { unfold final, moved_params, dict_update. cbn [fold_left fst snd].
    rewrite !getitem_set_other by reflexivity. exact Hact. }
  unfold notify_condition in H. rewrite Herr, Hmail in H.
  fold (notify_condition payload) in H.
  rewrite Hfa, Hsrc, Hdst in H. cbv beta iota in H.
  unfold ok in Hspath, Hsaddon, Hdaddon.
  rewrite Hspath, Hsaddon, Hdaddon in H. cbv beta iota in H.
  cbv zeta. rewrite <- H. unfold raise.
  destruct (truthy (dget payload "errors")); cbn [negb];
    destruct (notify_condition payload); cbv beta iota;
    cbn [app attempt];
    repeat match goal with
           | |- context [world ?c] => destruct (world c)
           end;
    cbn [fst snd]; rewrite ?app_nil_r; try rewrite <- app_assoc; reflexivity.
Qed.

(** The branch of the other actions, run to its end: it raises before
    any call, or it calls the add-on's logger and ends as the logger
    does. *)
Lemma log_single_run (world : Collaborators) (payload : list (string * json))
    (node : Node) (user : User) (action : NodeLogAction) (t0 : list effect) :
  (exists e, log_single world payload node user action t0 = (inl e, t0))
  \/ (exists fields p prov addon,
        getitem (JObj payload) "metadata" = ok (JObj fields)
        /\ dict_get "path" fields = Some (JStr p)
        /\ getitem (JObj payload) "provider" = ok prov
        /\ load_by (get_addon node) prov = Some addon
        /\ let call := AddonLog addon user action
                         (JObj (dict_set "path" (JStr (lstrip "/" p)) fields)) in
           log_single world payload node user action t0
           = (match world call with
              | Some x => raise x
              | None => ok tt
              end, (t0 ++ [call])%list)).
Proof.
  destruct (log_single world payload node user action t0) as [res t] eqn:H.
  match goal with
  | |- ?G => assert (Hfail : forall e, (inl e, t0) = (res, t) -> G)
               by (intros e He; left; exists e; symmetry; exact He)
  end.
  cbv beta delta [log_single vbind lift emit vret ok] in H.
  run_step H ltac:(exact (Hfail _ H)).
  destruct p as [metadata [node_addon|]]; cbn [fst snd] in H;
    [| exact (Hfail _ H)].
  repeat run_step H ltac:(exact (Hfail _ H)).
  destruct metadata as [| | | | |fields]; cbv beta iota in H;
    try exact (Hfail _ H).
  clear Hfail. right.
  unfold except_KeyError in E.
  destruct (getitem (JObj payload) "metadata") as [e|md] eqn:Hmd;
    [destruct e; discriminate E |].
  cbn [rbind] in E.
  destruct (getitem (JObj payload) "provider") as [e|pv] eqn:Hpv;
    [destruct e; discriminate E |].
  cbn [rbind] in E. unfold ok in E. injection E as -> Haddon.
  unfold json_lstrip in E1. destruct j as [| | |p0| |]; try discriminate E1.
  injection E1 as <-.
  exists fields, p0, pv, node_addon.
  split; [reflexivity |]. split.
  { unfold getitem in E0. destruct (dict_get "path" fields); [| discriminate E0].
    injection E0 as ->. reflexivity. }
  split; [reflexivity |]. split; [exact Haddon |].
  symmetry. exact H.
Qed.

Lemma update_bundle_strips_materialized (nd : Node) (addon : option Addon)
    (bundle : json) (fields' : list (string * json)) :
  update_bundle nd addon bundle = ok fields' ->
  exists m,
    getitem bundle "materialized" = ok (JStr m) /\
    getitem (JObj fields') "materialized" = ok (JStr (lstrip "/" m)).
Proof.
  unfold update_bundle, ok. destruct bundle as [| | | | |fields]; try discriminate.
  intros H. repeat result_step H. injection H as <-.
  unfold json_lstrip in E0. destruct j as [| | |m| |]; try discriminate E0.
  injection E0 as <-. exists m. split; [reflexivity |].
  unfold getitem, dict_update. simpl.
  rewrite !dict_get_set_other by reflexivity.
  rewrite dict_get_set. reflexivity.
Qed.

Lemma prelude_gives_action (payload : list (string * json)) (auth : json)
    (action : NodeLogAction) :
  except_KeyError
    (do auth <- getitem (JObj payload) "auth";
     do act <- getitem (JObj payload) "action";
     do action <- LOG_ACTION_MAP_getitem act;
     ok (auth, action))
    (raise (HTTPError BAD_REQUEST)) = inr (auth, action) ->
  exists name,
    dict_get "auth" payload = Some auth
    /\ dict_get "action" payload = Some (JStr name)
    /\ log_action_lookup name LOG_ACTION_MAP = Some action.
Proof.
  unfold getitem, LOG_ACTION_MAP_getitem, except_KeyError, raise, ok.
  destruct (dict_get "auth" payload) as [a|]; cbn [rbind]; [| discriminate].
  destruct (dict_get "action" payload) as [act|]; cbn [rbind]; [| discriminate].
  destruct act as [| | |name| |]; cbn [rbind]; try discriminate.
  destruct (log_action_lookup name LOG_ACTION_MAP) as [a0|] eqn:Hl;
    cbn [rbind]; [| discriminate].
  intros H. injection H as <- <-. exists name. auto.
Qed.


Lemma logged_app (t1 t2 : list effect) :
  logged (t1 ++ t2) = (logged t1 ++ logged t2)%list.
Proof. unfold logged. apply flat_map_app. Qed.

Lemma addon_logs_app (t1 t2 : list effect) :
  addon_logs (t1 ++ t2) = (addon_logs t1 ++ addon_logs t2)%list.
Proof. unfold addon_logs. apply flat_map_app. Qed.

Lemma view_returns (world : Collaborators) (models : Models)
    (payload : list (string * json)) (node : Node) (r : json)
    (t : list effect) :
  create_waterbutler_log world models payload node [] = (ok r, t) ->
  r = success
  /\ exists auth uid name action user,
       dict_get "auth" payload = Some auth
       /\ getitem auth "id" = ok uid
       /\ load_by (User_load models) uid = Some user
       /\ dict_get "action" payload = Some (JStr name)
       /\ log_action_lookup name LOG_ACTION_MAP = Some action
       /\ (if is_move_or_copy action
           then log_move_or_copy world models payload node user action
           else log_single world payload node user action) [] = (ok tt, t).
Proof.
  intros H.
  cbv beta delta [create_waterbutler_log vbind lift vret ok raise] in H.
  run_step H ltac:(discriminate H).
  run_step H ltac:(discriminate H).
  destruct (load_by (User_load models) j) as [user|] eqn:Huser;
    cbv beta iota in H; [| discriminate H].
  destruct p as [auth action]. cbn [fst snd] in H, E0.
  destruct (prelude_gives_action _ _ _ E) as (name & Hauth & Hact & Hmap).
  match type of H with
  | (let (_, _) := ?c in _) = _ => destruct c as [[e|[]] t'] eqn:Hrun
  end; cbv beta iota in H; [discriminate H |].
  injection H as <- <-. split; [reflexivity |].
  exists auth, j, name, action, user. auto 10.
Qed.

(** X4. A move or copy that the view handles is logged exactly when the
    payload reports no errors, by one [add_log] call on the destination
    node, under the mapped action and the user of the payload's [auth],
    with [node] and [project] filled in and the source's [materialized]
    path stripped; the mail is the failure notice when errors are
    reported, the success notice when there are none and the e-mail
    flag is [True], and none otherwise. *)
Theorem move_copy_logs_unless_errors (world : Collaborators)
    (models : Models) (payload : list (string * json)) (node : Node)
    (r : json) (t : list effect) :
  create_waterbutler_log world models payload node [] = (ok r, t) ->
  dget payload "action" = JStr "move" \/ dget payload "action" = JStr "copy" ->
  r = success
  /\ (exists auth uid user params src m,
        dict_get "auth" payload = Some auth
        /\ getitem auth "id" = ok uid
        /\ load_by (User_load models) uid = Some user
        /\ node_logs t
           = (if truthy (dget payload "errors") then []
              else [AddLog node
                      (if is_jstr "move" (dget payload "action")
                       then FILE_MOVED else FILE_COPIED)
                      user params])
        /\ logged t = (if truthy (dget payload "errors") then [] else [params])
        /\ dict_get "node" params = Some (JStr (node__id node))
        /\ dict_get "project" params = Some (opt_str (node_parent_id node))
        /\ getitem (JObj payload) "source" = ok src
        /\ getitem src "materialized" = ok (JStr m)
        /\ (do s <- getitem (JObj params) "source"; getitem s "materialized")
           = ok (JStr (lstrip "/" m)))
  /\ List.map mail_template (mails t)
     = (if truthy (dget payload "errors") then [FILE_OPERATION_FAILED]
        else if is_True (dget payload "email") then [FILE_OPERATION_SUCCESS]
        else [])
  /\ addon_logs t = [].
Proof.
  intros H Hmove.
  destruct (view_returns _ _ _ _ _ _ H)
    as (Hr & auth & uid & name & action & user & Hauth & Hid & Huser & Hact
        & Hmap & Hrun).
  split; [exact Hr |].
  assert (Hmc : is_move_or_copy action = true
                /\ action = (if is_jstr "move" (dget payload "action")
                             then FILE_MOVED else FILE_COPIED)).
  { unfold dget in *. rewrite Hact in *.
    destruct Hmove as [Hn | Hn]; injection Hn as ->;
      cbn in Hmap; injection Hmap as <-; split; reflexivity. }
  destruct Hmc as [Hmc Haction]. rewrite Hmc in Hrun.
  destruct (log_move_or_copy_run world models payload node user action
              (JStr name) [])
    as [[e' Hrun'] | (src & dst & sn & sa & da & src' & dst' & Hsrc & Hdst
                      & Hus & Hud & spath & Hspath & Hrun')];
    [ unfold getitem; rewrite Hact; reflexivity
    | rewrite Hrun' in Hrun; discriminate Hrun |].
  cbv zeta in Hrun'. rewrite Hrun' in Hrun. cbn [app] in Hrun.
  injection Hrun as Hfst <-.
  apply attempt_returns in Hfst. destruct Hfst as [-> _].
  destruct (update_bundle_strips_materialized _ _ _ _ Hus) as (m & Hm & Hm').
  split; [| split].
  - exists auth, uid, user, (moved_params node src' dst' payload), src, m.
    split; [exact Hauth |]. split; [exact Hid |]. split; [exact Huser |].
    split.
    { rewrite <- Haction. unfold node_logs.
      destruct (truthy (dget payload "errors"));
        destruct (notify_condition payload); reflexivity. }
    split.
    { rewrite !logged_app. cbn [app].
      destruct (truthy (dget payload "errors"));
        destruct (notify_condition payload); reflexivity. }
    unfold moved_params, dict_update. cbn [fold_left fst snd].
    split; [rewrite dict_get_set_other by reflexivity; apply dict_get_set |].
    split; [apply dict_get_set |].
    split; [exact Hsrc |]. split; [exact Hm |].
    rewrite !getitem_set_other by reflexivity.
    rewrite getitem_set_same. exact Hm'.
  - rewrite !mails_app. cbn [app]. unfold notify_condition.
    destruct (truthy (dget payload "errors"));
      destruct (is_True (dget payload "email")); reflexivity.
  - rewrite !addon_logs_app. cbn [app].
    destruct (truthy (dget payload "errors"));
      destruct (notify_condition payload); reflexivity.
Qed.

Lemma check_keys_dict (keys : list string) (d : list (string * json)) :
  check_keys keys (JObj d)
  = if forallb (fun k => dict_has k d) keys then ok tt
    else raise (HTTPError BAD_REQUEST).
Proof.
  induction keys as [|k keys IH]; [reflexivity |].
  cbn [check_keys contains rbind ok forallb].
  destruct (dict_has k d); [exact IH | reflexivity].
Qed.

Lemma check_bundles_dicts (payload s d : list (string * json)) :
  dict_get "source" payload = Some (JObj s) ->
  dict_get "destination" payload = Some (JObj d) ->
  check_bundles ["source"; "destination"] payload
  = if (forallb (fun k => dict_has k s) required_keys
        && forallb (fun k => dict_has k d) required_keys)%bool
    then ok tt else raise (HTTPError BAD_REQUEST).
Proof.
  intros Hs Hd. unfold check_bundles, getitem. rewrite Hs, Hd.
  cbn [rbind ok]. rewrite !check_keys_dict. fold required_keys.
  destruct (forallb (fun k => dict_has k s) required_keys); cbn [rbind andb];
    [| reflexivity].
  destruct (forallb (fun k => dict_has k d) required_keys); reflexivity.
Qed.

(** X5. A move or copy whose source or destination bundle lacks one of
    [provider], [materialized], [name], [nid] is a bad request: status
    400, nothing logged, nobody mailed. *)
Theorem move_copy_missing_key_is_bad_request (world : Collaborators)
    (models : Models) (payload : list (string * json)) (node : Node)
    (auth uid : json) (user : User) (name : string)
    (s d : list (string * json)) (k : string) :
  dict_get "auth" payload = Some auth ->
  getitem auth "id" = ok uid ->
  load_by (User_load models) uid = Some user ->
  dict_get "action" payload = Some (JStr name) ->
  name = "move" \/ name = "copy" ->
  dict_get "source" payload = Some (JObj s) ->
  dict_get "destination" payload = Some (JObj d) ->
  In k required_keys ->
  dict_get k s = None \/ dict_get k d = None ->
  create_waterbutler_log world models payload node []
  = (raise (HTTPError 400), []).
Proof.
  intros Hauth Hid Huser Hact Hname Hs Hd Hk Hmissing.
  assert (Hmap : exists action,
             log_action_lookup name LOG_ACTION_MAP = Some action
             /\ is_move_or_copy action = true).
  { destruct Hname as [-> | ->]; eexists; split; reflexivity. }
  destruct Hmap as (action & Hmap & Hmc).
  rewrite (create_waterbutler_log_branch world models payload node auth uid
             name action user [] Hauth Hact Hmap Hid Huser).
  rewrite Hmc. unfold log_move_or_copy, vbind, lift.
  rewrite (check_bundles_dicts payload s d Hs Hd).
  assert (Hb : (forallb (fun k => dict_has k s) required_keys
                && forallb (fun k => dict_has k d) required_keys)%bool = false).
  { apply andb_false_iff.
    destruct Hmissing as [Hm | Hm]; [left | right];
      apply not_true_is_false; intros Hall;
      rewrite forallb_forall in Hall; specialize (Hall k Hk);
      unfold dict_has in Hall; rewrite Hm in Hall; discriminate Hall. }
  rewrite Hb. reflexivity.
Qed.

(** X7. A file action that the view handles is handed to the add-on of
    the payload's provider exactly once, with the mapped log action and
    with the metadata as it came except for [path], which has lost its
    leading slashes; the node's own log and the mailer are not
    touched. *)
Theorem file_action_logged_once (world : Collaborators) (models : Models)
    (payload : list (string * json)) (node : Node) (r : json)
    (t : list effect) (name : string) :
  create_waterbutler_log world models payload node [] = (ok r, t) ->
  dget payload "action" = JStr name ->
  name <> "move" -> name <> "copy" ->
  exists action addon user fields p prov,
    log_action_lookup name LOG_ACTION_MAP = Some action
    /\ dict_get "metadata" payload = Some (JObj fields)
    /\ dict_get "path" fields = Some (JStr p)
    /\ dict_get "provider" payload = Some prov
    /\ load_by (get_addon node) prov = Some addon
    /\ t = [AddonLog addon user action
              (JObj (dict_set "path" (JStr (lstrip "/" p)) fields))]
    /\ (forall k, k <> "path" ->
          dict_get k (dict_set "path" (JStr (lstrip "/" p)) fields)
          = dict_get k fields).
Proof.
  intros H Hname Hnm Hnc.
  destruct (view_returns _ _ _ _ _ _ H)
    as (Hr & auth & uid & name' & action & user & Hauth & _ & _ & Hact & Hmap
        & Hrun).
  unfold dget in Hname. rewrite Hact in Hname. injection Hname as ->.
  assert (Hmc : is_move_or_copy action = false).
  { cbn in Hmap.
    repeat match type of Hmap with
           | (if String.eqb ?a ?b then _ else _) = _ =>
               destruct (String.eqb_spec a b);
               [try contradiction; injection Hmap as <-; reflexivity |]
           end.
    discriminate Hmap. }
  rewrite Hmc in Hrun.
  destruct (log_single_run world payload node user action [])
    as [[e' Hrun'] | (fields & p & prov & addon & Hmd & Hp & Hprov & Haddon
                      & Hrun')];
    [rewrite Hrun' in Hrun; discriminate Hrun |].
  cbv zeta in Hrun'. rewrite Hrun' in Hrun. injection Hrun as _ <-.
  exists action, addon, user, fields, p, prov.
  split; [exact Hmap |].
  split.
  { unfold getitem in Hmd. destruct (dict_get "metadata" payload);
      [injection Hmd as ->; reflexivity | discriminate Hmd]. }
  split; [exact Hp |].
  split.
  { unfold getitem in Hprov. destruct (dict_get "provider" payload);
      [injection Hprov as ->; reflexivity | discriminate Hprov]. }
  split; [exact Haddon |]. split; [reflexivity |].
  intros k Hk. apply dict_get_set_other. apply String.eqb_neq. exact Hk.
Qed.

(** X6. The view never checks for [path]: a file action whose metadata
    is a dictionary without it escapes as a [KeyError], not as a 400,
    before anything is logged. *)
Theorem file_action_without_path_is_KeyError (world : Collaborators)
    (models : Models) (payload : list (string * json)) (node : Node)
    (auth uid : json) (user : User) (name : string) (action : NodeLogAction)
    (fields : list (string * json)) (prov : json) (addon : Addon) :
  dict_get "auth" payload = Some auth ->
  getitem auth "id" = ok uid ->
  load_by (User_load models) uid = Some user ->
  dict_get "action" payload = Some (JStr name) ->
  log_action_lookup name LOG_ACTION_MAP = Some action ->
  is_move_or_copy action = false ->
  dict_get "metadata" payload = Some (JObj fields) ->
  dict_get "provider" payload = Some prov ->
  load_by (get_addon node) prov = Some addon ->
  dict_get "path" fields = None ->
  create_waterbutler_log world models payload node [] = (raise KeyError, []).
Proof.
  intros Hauth Hid Huser Hact Hmap Hmc Hmd Hprov Haddon Hpath.
  rewrite (create_waterbutler_log_branch world models payload node auth uid
             name action user [] Hauth Hact Hmap Hid Huser).
  rewrite Hmc. unfold log_single, vbind, lift, getitem.
  rewrite Hmd, Hprov. cbn [rbind ok except_KeyError fst snd].
  rewrite Haddon, Hpath. reflexivity.
Qed.


Example failed_mail_leaves_the_log_entry :
  let outcome := create_waterbutler_log Payloads.mailer_fails Fixtures.site
                   Fixtures.move_payload Fixtures.private_project [] in
  fst outcome = raise ValueError
  /\ length (snd outcome) = 2%nat
  /\ length (node_logs (snd outcome)) = 1%nat
  /\ length (mails (snd outcome)) = 1%nat.
Proof. vm_compute. repeat split; reflexivity. Qed.

Lemma move_copy_logs_unless_errors_witness :
  List.map mail_template
    (mails (snd (create_waterbutler_log Fixtures.obliging Fixtures.site
                   Payloads.failed_copy_payload Fixtures.private_project [])))
  = [FILE_OPERATION_FAILED]
  /\ addon_logs (snd (create_waterbutler_log Fixtures.obliging Fixtures.site
                        Payloads.failed_copy_payload
                        Fixtures.private_project [])) = [].
Proof.
  destruct (move_copy_logs_unless_errors Fixtures.obliging Fixtures.site
              Payloads.failed_copy_payload Fixtures.private_project
              success
              (snd (create_waterbutler_log Fixtures.obliging Fixtures.site
                      Payloads.failed_copy_payload
                      Fixtures.private_project [])))
    as (_ & _ & Hmails & Hnone).
  - vm_compute. reflexivity.
  - right. reflexivity.
  - split; [exact Hmails | exact Hnone].
Defined.

(** The failed copy is not logged; the move of [Fixtures.move_payload]
    is, on the destination node. *)
Example failed_copy_is_not_logged :
  node_logs (snd (create_waterbutler_log Fixtures.obliging Fixtures.site
                    Payloads.failed_copy_payload Fixtures.private_project []))
  = []
  /\ List.map (fun e => match e with
                        | AddLog n a _ _ => Some (node__id n, a)
                        | _ => None
                        end)
       (node_logs (snd (create_waterbutler_log Fixtures.obliging
                          Fixtures.site Fixtures.move_payload
                          Fixtures.private_project [])))
     = [Some ("proj1", FILE_MOVED)].
Proof. split; vm_compute; reflexivity. Qed.

Lemma move_copy_missing_key_is_bad_request_witness :
  create_waterbutler_log Fixtures.obliging Fixtures.site
    Payloads.move_without_nid Fixtures.private_project []
  = (raise (HTTPError 400), []).
Proof.
  eapply (move_copy_missing_key_is_bad_request Fixtures.obliging
            Fixtures.site Payloads.move_without_nid Fixtures.private_project
            (JObj [("id", JStr "cat01")]) (JStr "cat01") Fixtures.cat "move"
            _ _ "nid").
  - reflexivity.
  - reflexivity.
  - reflexivity.
  - reflexivity.
  - left. reflexivity.
  - reflexivity.
  - reflexivity.
  - right. right. right. left. reflexivity.
  - left. reflexivity.
Defined.

Lemma file_action_logged_once_witness :
  exists addon user,
    snd (create_waterbutler_log Fixtures.obliging Fixtures.site
           Fixtures.create_payload Fixtures.private_project [])
    = [AddonLog addon user FILE_ADDED
         (JObj [ ("path", JStr "a/x"); ("materialized", JStr "/a/x");
                 ("name", JStr "x") ])].
Proof.
  destruct (file_action_logged_once Fixtures.obliging Fixtures.site
              Fixtures.create_payload Fixtures.private_project success
              (snd (create_waterbutler_log Fixtures.obliging Fixtures.site
                      Fixtures.create_payload Fixtures.private_project []))
              "create")
    as (action & addon & user & fields & p & prov & Hmap & Hmd & Hp & _ & _
        & Ht & _).
  - vm_compute. reflexivity.
  - reflexivity.
  - discriminate.
  - discriminate.
  - injection Hmap as <-. injection Hmd as <-. injection Hp as <-.
    exists addon, user. exact Ht.
Defined.

Lemma file_action_without_path_is_KeyError_witness :
  create_waterbutler_log Fixtures.obliging Fixtures.site
    Payloads.create_without_path Fixtures.private_project []
  = (raise KeyError, []).
Proof.
  eapply (file_action_without_path_is_KeyError Fixtures.obliging
            Fixtures.site Payloads.create_without_path
            Fixtures.private_project
            (JObj [("id", JStr "cat01")]) (JStr "cat01") Fixtures.cat
            "create" FILE_ADDED _ (JStr "osfstorage") Fixtures.osfstorage);
    reflexivity.
Defined.

End WaterbutlerLogMore.

(* ===================================================================== *)
(** * Leading slashes: the view strips them, the GUID lookup adds one *)
(* ===================================================================== *)

Section Paths.

Import Views Events LogParams.

Lemma startswith_slash (s : string) :
  startswith "/" s = true <-> exists rest, s = String "/" rest.
Proof.
  unfold startswith. destruct s as [|c rest]; cbn [String.prefix].
  - split; [discriminate | intros [r Hr]; discriminate Hr].
  - destruct (ascii_dec "/"%char c) as [Heq|Hne].
    + subst c. destruct rest; split; eauto.
    + split; [discriminate |]. intros [r Hr]. injection Hr as Hc _.
      destruct (Hne (eq_sym Hc)).
Qed.

Lemma lstrip_no_leading_slash (s : string) :
  startswith "/" (lstrip "/" s) = false.
Proof.
  induction s as [|c rest IH]; simpl.
  - reflexivity.
  - destruct (Ascii.eqb c "/") eqn:Hc; [exact IH |].
    destruct (startswith "/" (String c rest)) eqn:Hs; [| reflexivity].
    apply startswith_slash in Hs. destruct Hs as [r Hr]. injection Hr as -> _.
    discriminate Hc.
Qed.

Lemma lstrip_canonical (s : string) :
  startswith "/" s = false -> lstrip "/" s = s.
Proof.
  intros H. destruct s as [|c rest]; [reflexivity |].
  cbn [lstrip in_chars].
  destruct (Ascii.eqb c "/") eqn:Hc; [| reflexivity].
  apply Ascii.eqb_eq in Hc. subst c.
  assert (H' : startswith "/" (String "/" rest) = true)
    by (apply startswith_slash; eauto).
  congruence.
Qed.

Lemma with_leading_slash_starts (p : string) (q : string) :
  with_leading_slash (JStr p) = ok q ->
  startswith "/" q = true /\ q = (if startswith "/" p then p else "/" +:+ p).
Proof.
  unfold with_leading_slash, ok. intros H. injection H as <-.
  split; [| reflexivity].
  destruct (startswith "/" p) eqn:Hp; [exact Hp |].
  apply startswith_slash. simpl. eauto.
Qed.

(** The calls of a run of the view are those of the branch for its
    action. *)
Lemma view_trace (world : Collaborators) (models : Models)
    (payload : list (string * json)) (node : Node) (res : result json)
    (t : list effect) :
  create_waterbutler_log world models payload node [] = (res, t) ->
  t = []
  \/ exists name action user,
       dict_get "action" payload = Some (JStr name)
       /\ t = snd ((if is_move_or_copy action
                    then log_move_or_copy world models payload node user action
                    else log_single world payload node user action) []).
Proof.
  intros H.
  cbv beta delta [create_waterbutler_log vbind lift vret ok raise] in H.
  run_step H ltac:(injection H as _ <-; left; reflexivity).
  run_step H ltac:(injection H as _ <-; left; reflexivity).
  destruct (load_by (User_load models) j) as [user|]; cbv beta iota in H;
    [| injection H as _ <-; left; reflexivity].
  destruct p as [auth action]. cbn [fst snd] in H.
  destruct (prelude_gives_action _ _ _ E) as (name & _ & Hact & _).
  right. exists name, action, user. split; [exact Hact |].
  match type of H with
  | (let (_, _) := ?c in _) = _ => destruct c as [[e|u] t']
  end; cbv beta iota in H; injection H as _ <-; reflexivity.
Qed.

Lemma FileEvent_form_guid_lookup (self self' : Instance) :
  FileEvent_form_guid self = ok self' ->
  exists md p addon,
    getitem (payload self) "metadata" = ok md /\
    getitem md "path" = ok (JStr p) /\
    guid self'
    = Some (find_or_create_file_guid addon
              (if startswith "/" p then p else "/" +:+ p)).
Proof.
  unfold FileEvent_form_guid, ok. intros H. repeat result_step H.
  injection H as <-.
  unfold with_leading_slash in E2. destruct j1 as [| | |p| |]; try discriminate E2.
  injection E2 as <-. exists j0, p, a. repeat split; assumption.
Qed.

(** C6, as the code has it.  [create_waterbutler_log] strips every
    leading slash from [metadata['path']] in the metadata it hands to an
    add-on's logger, and from the [materialized] path of the source and
    destination bundles in the parameters it logs for a move or copy,
    whose own [path] it passes on as it came; [FileEvent.form_guid]
    then looks the GUID up under the path with a leading slash, which it
    adds when there is none. *)
Theorem view_strips_slashes_guid_lookup_restores_one :
  (forall world models payload node res t,
     create_waterbutler_log world models payload node [] = (res, t) ->
     (forall addon user action md',
        In (AddonLog addon user action md') t ->
        exists md p0,
          getitem (JObj payload) "metadata" = ok md /\
          getitem md "path" = ok (JStr p0) /\
          getitem md' "path" = ok (JStr (lstrip "/" p0)) /\
          startswith "/" (lstrip "/" p0) = false)
     /\ (forall n action user params bundle,
           In (AddLog n action user params) t ->
           bundle = "source" \/ bundle = "destination" ->
           exists b m b',
             getitem (JObj payload) bundle = ok b /\
             getitem b "materialized" = ok (JStr m) /\
             getitem (JObj params) bundle = ok (JObj b') /\
             getitem (JObj b') "materialized" = ok (JStr (lstrip "/" m)) /\
             startswith "/" (lstrip "/" m) = false /\
             getitem (JObj b') "path" = getitem b "path"))
  /\ (forall self self',
        FileEvent_form_guid self = ok self' ->
        exists md p addon,
          getitem (payload self) "metadata" = ok md /\
          getitem md "path" = ok (JStr p) /\
          guid self'
          = Some (find_or_create_file_guid addon
                    (if startswith "/" p then p else "/" +:+ p)) /\
          startswith "/" (if startswith "/" p then p else "/" +:+ p) = true).
Proof.
  split.
  - intros world models payload node res t H.
    destruct (view_trace _ _ _ _ _ _ H)
      as [-> | (name & action & user & Hact & ->)];
      [split; [intros ? ? ? ? [] | intros ? ? ? ? ? []] |].
    destruct (is_move_or_copy action).
    + destruct (log_move_or_copy_run world models payload node user action
                  (JStr name) [])
        as [[e Hrun] | (src & dst & sn & sa & da & src' & dst' & Hsrc & Hdst
                        & Hus & Hud & spath & Hspath & Hrun)];
        [unfold getitem; rewrite Hact; reflexivity | |];
        cbv zeta in Hrun; rewrite Hrun; cbn [snd app].
      { split; [intros ? ? ? ? [] | intros ? ? ? ? ? []]. }
      split.
      * intros addon user' action' md' Hin. apply attempt_made in Hin.
        apply in_app_or in Hin. exfalso.
        destruct Hin as [Hin | Hin].
        -- destruct (truthy (dget payload "errors")); [destruct Hin |].
           destruct Hin as [Hin | []]. discriminate Hin.
        -- destruct (notify_condition payload); [| destruct Hin].
           destruct Hin as [Hin | []]. discriminate Hin.
      * intros n action' user' params bundle Hin Hbundle.
        apply attempt_made in Hin. apply in_app_or in Hin.
        assert (Hparams : params = moved_params node src' dst' payload).
        { destruct Hin as [Hin | Hin].
          - destruct (truthy (dget payload "errors")); [destruct Hin |].
            destruct Hin as [Hin | []]. injection Hin as _ _ _ <-.
            reflexivity.
          - destruct (notify_condition payload); [| destruct Hin].
            destruct Hin as [Hin | []]. discriminate Hin. }
        subst params.
        destruct (update_bundle_strips_materialized _ _ _ _ Hus)
          as (ms & Hms & Hms').
        destruct (update_bundle_strips_materialized _ _ _ _ Hud)
          as (md & Hmd & Hmd').
        destruct Hbundle as [-> | ->].
        -- exists src, ms, src'. split; [exact Hsrc |]. split; [exact Hms |].
           split.
           { unfold moved_params, dict_update. cbn [fold_left fst snd].
             rewrite !getitem_set_other by reflexivity.
             apply getitem_set_same. }
           split; [exact Hms' |].
           split; [apply lstrip_no_leading_slash |].
           apply (update_bundle_keeps_path _ _ _ _ Hus).
        -- exists dst, md, dst'. split; [exact Hdst |]. split; [exact Hmd |].
           split.
           { unfold moved_params, dict_update. cbn [fold_left fst snd].
             rewrite !getitem_set_other by reflexivity.
             apply getitem_set_same. }
           split; [exact Hmd' |].
           split; [apply lstrip_no_leading_slash |].
           apply (update_bundle_keeps_path _ _ _ _ Hud).
    + destruct (log_single_run world payload node user action [])
        as [[e Hrun] | (fields & p & prov & addon & Hmd & Hp & _ & _ & Hrun)];
        cbv zeta in Hrun; rewrite Hrun; cbn [snd app].
      { split; [intros ? ? ? ? [] | intros ? ? ? ? ? []]. }
      split.
      * intros addon' user' action' md' [Hin | []].
        injection Hin as _ _ _ <-.
        exists (JObj fields), p. split; [exact Hmd |].
        split; [unfold getitem; rewrite Hp; reflexivity |].
        split; [apply getitem_set_same |].
        apply lstrip_no_leading_slash.
      * intros n action' user' params bundle [Hin | []]. discriminate Hin.
  - intros self self' H.
    destruct (FileEvent_form_guid_lookup _ _ H) as (md & p & addon & Hmd & Hp & Hg).
    exists md, p, addon. repeat split; try assumption.
    destruct (startswith "/" p) eqn:Hs; [exact Hs |].
    apply startswith_slash. simpl. eauto.
Qed.

(** The upload of [/a/x], the move from [/old/place.txt], and the
    [file_added] event of the upload *)
Lemma view_strips_slashes_guid_lookup_restores_one_witness :
  (forall addon user action md',
     In (AddonLog addon user action md')
       (snd (create_waterbutler_log Fixtures.obliging Fixtures.site
               Fixtures.create_payload Fixtures.private_project [])) ->
     exists md p0,
       getitem (JObj Fixtures.create_payload) "metadata" = ok md /\
       getitem md "path" = ok (JStr p0) /\
       getitem md' "path" = ok (JStr (lstrip "/" p0)) /\
       startswith "/" (lstrip "/" p0) = false)
  /\ (forall n action user params bundle,
        In (AddLog n action user params)
          (snd (create_waterbutler_log Fixtures.obliging Fixtures.site
                  Fixtures.move_payload Fixtures.private_project [])) ->
        bundle = "source" \/ bundle = "destination" ->
        exists b m b',
          getitem (JObj Fixtures.move_payload) bundle = ok b /\
          getitem b "materialized" = ok (JStr m) /\
          getitem (JObj params) bundle = ok (JObj b') /\
          getitem (JObj b') "materialized" = ok (JStr (lstrip "/" m)) /\
          startswith "/" (lstrip "/" m) = false /\
          getitem (JObj b') "path" = getitem b "path")
  /\ exists md p addon,
       getitem Fixtures.file_added_payload "metadata" = ok md /\
       getitem md "path" = ok (JStr p) /\
       guid (set_guid (find_or_create_file_guid Fixtures.osfstorage "/a/x")
               (FileEvent_init Fixtures.events_env FileAdded Fixtures.cat
                  Fixtures.private_project "file_added"
                  Fixtures.file_added_payload))
       = Some (find_or_create_file_guid addon
                 (if startswith "/" p then p else "/" +:+ p)) /\
       startswith "/" (if startswith "/" p then p else "/" +:+ p) = true.
Proof.
  split; [| split].
  - apply (proj1 (proj1 view_strips_slashes_guid_lookup_restores_one
                    Fixtures.obliging Fixtures.site Fixtures.create_payload
                    Fixtures.private_project _ _ (surjective_pairing _))).
  - apply (proj2 (proj1 view_strips_slashes_guid_lookup_restores_one
                    Fixtures.obliging Fixtures.site Fixtures.move_payload
                    Fixtures.private_project _ _ (surjective_pairing _))).
  - apply (proj2 view_strips_slashes_guid_lookup_restores_one
             (FileEvent_init Fixtures.events_env FileAdded Fixtures.cat
                Fixtures.private_project "file_added"
                Fixtures.file_added_payload)).
    reflexivity.
Defined.

(** What the two runs log: the upload under [a/x]; the move with
    [old/place.txt] as the source's materialized path and
    [/old/place.txt] as its path. *)
Example logged_paths :
  List.map (fun md => getitem md "path")
    (addon_logs (snd (create_waterbutler_log Fixtures.obliging Fixtures.site
                        Fixtures.create_payload Fixtures.private_project [])))
  = [ok (JStr "a/x")]
  /\ List.map (fun params =>
                 do s <- getitem (JObj params) "source";
                 do m <- getitem s "materialized";
                 do p <- getitem s "path";
                 ok (m, p))
       (LogParams.logged
          (snd (create_waterbutler_log Fixtures.obliging Fixtures.site
                  Fixtures.move_payload Fixtures.private_project [])))
     = [ok (JStr "old/place.txt", JStr "/old/place.txt")].
Proof. split; vm_compute; reflexivity. Qed.

(** C6, as stated, fails: the view logs the upload of [/a/x] under the
    canonical [a/x], and the [file_added] event built from that very
    metadata looks its GUID up under [/a/x]. *)
Lemma guid_lookup_readds_leading_slash :
  let self := FileEvent_init Fixtures.events_env FileAdded Fixtures.cat
                Fixtures.private_project "file_added"
                Fixtures.file_added_payload in
  List.map (fun md => getitem md "path")
    (addon_logs (snd (create_waterbutler_log Fixtures.obliging Fixtures.site
                        Fixtures.create_payload Fixtures.private_project [])))
  = [ok (JStr "a/x")]
  /\ (do md <- getitem Fixtures.file_added_payload "metadata"; getitem md "path")
     = ok (JStr "a/x")
  /\ (do self' <- FileEvent_form_guid self; ok (guid self'))
     = ok (Some (find_or_create_file_guid Fixtures.osfstorage "/a/x"))
  /\ find_or_create_file_guid Fixtures.osfstorage "/a/x"
     <> find_or_create_file_guid Fixtures.osfstorage "a/x".
Proof.
  repeat split; try (vm_compute; reflexivity).
  vm_compute. discriminate.
Qed.

End Paths.

(* ===================================================================== *)
(** * Properties of [get_auth] *)
(* ===================================================================== *)

Section GetAuth.

Import Views ViewsAuth.

Lemma remote_allowed (addrs : list string) (request : Request) :
  existsb (String.eqb (remote_addr request)) addrs = true
  <-> In (remote_addr request) addrs.
Proof.
  rewrite existsb_exists. split.
  - intros (x & Hin & Heq). apply String.eqb_eq in Heq. congruence.
  - intros Hin. exists (remote_addr request). split; [exact Hin |].
    apply String.eqb_refl.
Qed.

Lemma check_access_true_or_raises (node : Node) (user : option User)
    (action : string) (key : option string) :
  check_access node user action key = ok true
  \/ exists e, check_access node user action key = raise e.
Proof.
  rewrite check_access_decision.
  destruct (permission_map_get action permission_map);
    [| right; eexists; reflexivity].
  match goal with
  | |- context [if ?b then _ else _] => destruct b
  end; [left; reflexivity | right; eexists; reflexivity].
Qed.

(** What a returning [get_auth] has looked up on its way. *)
Lemma get_auth_body_ok (env : Env) (session_data : list (string * string))
    (request : Request) (payload : json) :
  get_auth_body env session_data request = ok payload ->
  exists action nid provider node addon credentials settings,
    lookup "action" (args request) = Some action
    /\ lookup "nid" (args request) = Some nid
    /\ lookup "provider" (args request) = Some provider
    /\ Node_load (models env) nid = Some node
    /\ get_addon node provider = Some addon
    /\ serialize_waterbutler_credentials env addon = Some credentials
    /\ serialize_waterbutler_settings env addon = Some settings
    /\ let user :=
         match lookup "auth_user_id" session_data with
         | Some id => User_load (models env) id
         | None =>
             match lookup "cookie" (args request) with
             | Some c => if String.eqb c "" then None else User_from_cookie env c
             | None => None
             end
         end in
       check_access node user action (lookup "view_only" (args request))
       = ok true
       /\ payload
          = JObj [ ("auth", JObj (make_auth user));
                   ("credentials", credentials);
                   ("settings", settings);
                   ("callback_url",
                    JStr (api_url_for env node
                            (if negb (is_registration node)
                             then "create_waterbutler_log"
                             else "registration_callbacks"))) ].
Proof.
  unfold get_auth_body, lookup_item, except_KeyError, raise, ok.
  destruct (lookup "action" (args request)) as [action|]; cbn [rbind];
    [| discriminate].
  destruct (lookup "nid" (args request)) as [nid|]; cbn [rbind];
    [| discriminate].
  destruct (lookup "provider" (args request)) as [provider|];
    cbn [rbind fst snd]; [| discriminate].
  destruct (Node_load (models env) nid) as [node|] eqn:Hnode; [| discriminate].
  match goal with
  | |- context [check_access ?n ?u ?a ?k] =>
      destruct (check_access_true_or_raises n u a k) as [Hca | [e Hca]];
      rewrite Hca
  end; unfold raise, ok; cbn [rbind]; [| discriminate].
  destruct (get_addon node provider) as [addon|] eqn:Haddon; [| discriminate].
  destruct (serialize_waterbutler_credentials env addon) as [cr|] eqn:Hcr;
    [| discriminate].
  destruct (serialize_waterbutler_settings env addon) as [st|] eqn:Hst;
    [| discriminate].
  intros H. injection H as <-.
  exists action, nid, provider, node, addon, cr, st.
  repeat split; try reflexivity; assumption.
Qed.

(** X8. [get_auth] answers only a caller at one of the gateway's
    addresses, and only after [check_access] has granted the requested
    action on the requested node to the session's user (or, without one,
    the cookie's, or nobody); its [auth] bundle is [make_auth] of that
    user, and its callback is the registration callback exactly for a
    registration. *)
Theorem get_auth_answers_after_access_check (env : Env)
    (session_data : list (string * string)) (request : Request)
    (payload : json) :
  get_auth env session_data request = ok payload ->
  In (remote_addr request) (WATERBUTLER_ADDRS env)
  /\ exists action nid node user,
       lookup "action" (args request) = Some action
       /\ lookup "nid" (args request) = Some nid
       /\ Node_load (models env) nid = Some node
       /\ user = match lookup "auth_user_id" session_data with
                 | Some id => User_load (models env) id
                 | None =>
                     match lookup "cookie" (args request) with
                     | Some c =>
                         if String.eqb c "" then None
                         else User_from_cookie env c
                     | None => None
                     end
                 end
       /\ check_access node user action (lookup "view_only" (args request))
          = ok true
       /\ getitem payload "auth" = ok (JObj (make_auth user))
       /\ getitem payload "callback_url"
          = ok (JStr (api_url_for env node
                        (if is_registration node
                         then "registration_callbacks"
                         else "create_waterbutler_log"))).
Proof.
  unfold get_auth, restrict_addrs. intros H.
  destruct (existsb (String.eqb (remote_addr request)) (WATERBUTLER_ADDRS env))
    eqn:Haddr; [| discriminate H].
  split; [apply remote_allowed; exact Haddr |].
  destruct (get_auth_body_ok _ _ _ _ H)
    as (action & nid & provider & node & addon & cr & st & Ha & Hn & Hp
        & Hnode & Haddon & Hcr & Hst & Hca & ->).
  eexists action, nid, node, _.
  split; [exact Ha |]. split; [exact Hn |]. split; [exact Hnode |].
  split; [reflexivity |]. split; [exact Hca |].
  split; [reflexivity |]. destruct (is_registration node); reflexivity.
Qed.

(** X9. The errors of [get_auth] come in a fixed order: a caller from
    another address gets 403 whatever it asks; a gateway call without
    [action], [nid] or [provider] gets 400; one that names an unknown
    node gets 404 before any access check. *)
Theorem get_auth_error_order (env : Env)
    (session_data : list (string * string)) (request : Request) :
  (~ In (remote_addr request) (WATERBUTLER_ADDRS env) ->
   get_auth env session_data request = raise (HTTPError 403))
  /\ (In (remote_addr request) (WATERBUTLER_ADDRS env) ->
      lookup "action" (args request) = None
      \/ lookup "nid" (args request) = None
      \/ lookup "provider" (args request) = None ->
      get_auth env session_data request = raise (HTTPError 400))
  /\ (forall action nid provider,
        In (remote_addr request) (WATERBUTLER_ADDRS env) ->
        lookup "action" (args request) = Some action ->
        lookup "nid" (args request) = Some nid ->
        lookup "provider" (args request) = Some provider ->
        Node_load (models env) nid = None ->
        get_auth env session_data request = raise (HTTPError 404)).
Proof.
  unfold get_auth, restrict_addrs. split; [| split].
  - intros Hout.
    destruct (existsb (String.eqb (remote_addr request)) (WATERBUTLER_ADDRS env))
      eqn:Haddr; [| reflexivity].
    apply remote_allowed in Haddr. contradiction.
  - intros Hin Hmissing. apply remote_allowed in Hin. rewrite Hin.
    unfold get_auth_body, lookup_item, except_KeyError, raise, ok.
    destruct (lookup "action" (args request)) as [action|]; cbn [rbind];
      [| reflexivity].
    destruct (lookup "nid" (args request)) as [nid|]; cbn [rbind];
      [| reflexivity].
    destruct (lookup "provider" (args request)) as [provider|]; cbn [rbind];
      [| reflexivity].
    destruct Hmissing as [H | [H | H]]; discriminate H.
  - intros action nid provider Hin Ha Hn Hp Hnode.
    apply remote_allowed in Hin. rewrite Hin.
    unfold get_auth_body, lookup_item, except_KeyError, raise, ok.
    rewrite Ha, Hn, Hp. cbn [rbind fst snd]. rewrite Hnode. reflexivity.
Qed.

(** X10. A session that holds a user id settles who is asking: the
    [cookie] argument is not looked at. *)
Theorem get_auth_session_beats_cookie (env : Env)
    (session_data : list (string * string)) (r1 r2 : Request) (id : string) :
  lookup "auth_user_id" session_data = Some id ->
  remote_addr r1 = remote_addr r2 ->
  (forall k, k <> "cookie" -> lookup k (args r1) = lookup k (args r2)) ->
  get_auth env session_data r1 = get_auth env session_data r2.
Proof.
  intros Hid Haddr Hargs.
  unfold get_auth, restrict_addrs, get_auth_body, lookup_item.
  rewrite Haddr, Hid.
  rewrite (Hargs "action"), (Hargs "nid"), (Hargs "provider"),
    (Hargs "view_only") by discriminate.
  reflexivity.
Qed.

Lemma get_auth_answers_after_access_check_witness :
  (do payload <- get_auth AuthFixtures.env [] AuthFixtures.download_request;
   getitem payload "auth")
  = ok (JObj []).
Proof.
  destruct (get_auth AuthFixtures.env [] AuthFixtures.download_request)
    as [e|payload] eqn:Hrun; [discriminate Hrun |].
  destruct (get_auth_answers_after_access_check AuthFixtures.env []
              AuthFixtures.download_request payload Hrun)
    as (_ & action & nid & node & user & _ & _ & _ & Huser & _ & Hauth & _).
  cbn [rbind]. rewrite Hauth, Huser. reflexivity.
Defined.

Lemma get_auth_error_order_witness :
  get_auth AuthFixtures.env [] AuthFixtures.outside_request
  = raise (HTTPError 403).
Proof.
  apply (proj1 (get_auth_error_order AuthFixtures.env []
                  AuthFixtures.outside_request)).
  intros [H | []]. discriminate H.
Defined.

Lemma get_auth_session_beats_cookie_witness :
  get_auth AuthFixtures.env [("auth_user_id", "cat01")]
    AuthFixtures.cookie_request
  = get_auth AuthFixtures.env [("auth_user_id", "cat01")]
      AuthFixtures.download_request.
Proof.
  apply (get_auth_session_beats_cookie AuthFixtures.env
           [("auth_user_id", "cat01")] AuthFixtures.cookie_request
           AuthFixtures.download_request "cat01").
  - reflexivity.
  - reflexivity.
  - intros k Hk. cbn [AuthFixtures.cookie_request args lookup].
    destruct (String.eqb_spec k "cookie"); [contradiction | reflexivity].
Defined.

(** The anonymous visitor is let in by the key, and refused without
    it. *)
Example get_auth_view_only :
  (do payload <- get_auth AuthFixtures.env [] AuthFixtures.download_request;
   getitem payload "callback_url")
  = ok (JStr "https://osf.example/api/v1/project/proj1/create_waterbutler_log/")
  /\ get_auth AuthFixtures.env []
       {| args := [ ("action", "download"); ("nid", "proj1");
                    ("provider", "osfstorage") ];
          remote_addr := "127.0.0.1"; path := ""; url := "" |}
     = raise (HTTPError 401).
Proof. split; vm_compute; reflexivity. Qed.

End GetAuth.

(* ===================================================================== *)
(** * Properties of [check_file_guid] and of [str.split] *)
(* ===================================================================== *)

Section FileGuidUrl.

Import ViewsAuth.

Lemma append_cons (c : ascii) (a b : string) :
  String c a +:+ b = String c (a +:+ b).
Proof. reflexivity. Qed.

Lemma prefix_drop (sep s : string) :
  String.prefix sep s = true -> s = sep +:+ drop (String.length sep) s.
Proof.
  revert s. induction sep as [|c sep IH]; intros s H; [reflexivity |].
  destruct s as [|d s]; [discriminate H |].
  cbn [String.prefix] in H. destruct (ascii_dec c d) as [<-|]; [| discriminate H].
  cbn [String.length drop]. rewrite append_cons. f_equal. apply IH. exact H.
Qed.

Lemma partition_sound (sep s before after : string) :
  partition sep s = Some (before, after) -> s = before +:+ sep +:+ after.
Proof.
  revert before. induction s as [|c s IH]; intros before.
  - cbn [partition]. destruct (String.prefix sep "") eqn:Hp; [| discriminate].
    intros H. injection H as <- <-. apply (prefix_drop _ _ Hp).
  - cbn [partition]. destruct (String.prefix sep (String c s)) eqn:Hp.
    + intros H. injection H as <- <-. apply (prefix_drop _ _ Hp).
    + destruct (partition sep s) as [[b a]|]; [| discriminate].
      intros H. injection H as <- <-. rewrite append_cons. f_equal.
      apply IH. reflexivity.
Qed.

Lemma partition_None (sep s : string) :
  partition sep s = None <-> is_substring sep s = false.
Proof.
  induction s as [|c s IH]; cbn [partition is_substring].
  - destruct (String.prefix sep ""); split; congruence.
  - destruct (String.prefix sep (String c s)); [split; congruence |].
    rewrite <- IH. destruct (partition sep s) as [[b a]|]; split; congruence.
Qed.

Lemma length_append (a b : string) :
  String.length (a +:+ b) = (String.length a + String.length b)%nat.
Proof.
  induction a as [|c a IH]; [reflexivity |].
  rewrite append_cons. cbn [String.length]. rewrite IH. reflexivity.
Qed.

Lemma partition_shrinks (sep s before after : string) :
  sep <> "" -> partition sep s = Some (before, after) ->
  (String.length after < String.length s)%nat.
Proof.
  intros Hsep H. apply partition_sound in H. subst s.
  rewrite !length_append. destruct sep; [contradiction | cbn; lia].
Qed.

(** More steps than the text is long change nothing. *)
Lemma split_steps_enough (sep : string) (n : nat) (s : string) :
  sep <> "" -> (String.length s <= n)%nat ->
  split_steps n sep s = split_steps (String.length s) sep s.
Proof.
  intros Hsep. revert n s.
  assert (H : forall m n s, (String.length s <= m)%nat -> (String.length s <= n)%nat ->
                            split_steps m sep s = split_steps n sep s).
  { induction m as [|m IH]; intros n s Hm Hn.
    - destruct s; [| cbn in Hm; lia].
      destruct n; cbn [split_steps]; [reflexivity |].
      destruct (partition sep "") as [[b a]|] eqn:Hp; [| reflexivity].
      apply partition_shrinks in Hp; [cbn in Hp; lia | exact Hsep].
    - destruct n; cbn [split_steps].
      + destruct s; [| cbn in Hn; lia].
        destruct (partition sep "") as [[b a]|] eqn:Hp; [| reflexivity].
        apply partition_shrinks in Hp; [cbn in Hp; lia | exact Hsep].
      + destruct (partition sep s) as [[b a]|] eqn:Hp; [| reflexivity].
        pose proof (partition_shrinks _ _ _ _ Hsep Hp).
        f_equal. apply IH; lia. }
  intros n s Hn. apply H; lia.
Qed.

(** [sep.join(s.split(sep)) == s] *)
Lemma join_split_steps (sep : string) (n : nat) (s : string) :
  Py.join sep (split_steps n sep s) = s.
Proof.
  revert s. induction n as [|n IH]; intros s; cbn [split_steps]; [reflexivity |].
  destruct (partition sep s) as [[b a]|] eqn:Hp; [| reflexivity].
  apply partition_sound in Hp. subst s.
  unfold Py.join in *. cbn [String.concat].
  specialize (IH a).
  destruct (split_steps n sep a) as [|x xs] eqn:Hs.
  - destruct n; cbn in Hs; [discriminate Hs |].
    destruct (partition sep a) as [[? ?]|]; discriminate Hs.
  - rewrite IH. reflexivity.
Qed.

Lemma split_steps_head (sep : string) (n : nat) (s : string) :
  exists rest,
    split_steps n sep s
    = match n, partition sep s with
      | S _, Some (before, _) => before
      | _, _ => s
      end :: rest.
Proof.
  destruct n; cbn [split_steps]; [eexists; reflexivity |].
  destruct (partition sep s) as [[b a]|]; eexists; reflexivity.
Qed.

Lemma partition_empty (sep : string) :
  sep <> "" -> partition sep "" = None.
Proof. destruct sep; [contradiction | reflexivity]. Qed.

Lemma split_second (sep s before after : string) :
  sep <> "" -> partition sep s = Some (before, after) ->
  exists rest,
    split_steps (String.length s) sep s
    = before :: match partition sep after with
                | Some (piece, _) => piece
                | None => after
                end :: rest.
Proof.
  intros Hsep Hp. pose proof (partition_shrinks _ _ _ _ Hsep Hp) as Hlt.
  destruct (String.length s) as [|n] eqn:Hn; [lia |].
  cbn [split_steps]. rewrite Hp.
  rewrite (split_steps_enough sep n after Hsep) by lia.
  destruct (split_steps_head sep (String.length after) after) as [rest Hrest].
  rewrite Hrest. exists rest. f_equal. f_equal.
  destruct after as [|c after]; cbn [String.length].
  - rewrite (partition_empty sep Hsep). reflexivity.
  - reflexivity.
Qed.

(** X11. [check_file_guid] returns [None] exactly for a request whose
    path is already under [/<guid id>/].  Otherwise it builds the GUID
    URL: [/<guid id>/] alone when the request URL does not contain the
    file URL, and else followed by what comes after the first occurrence
    of the file URL (up to the next one), without its leading slashes;
    an empty file URL makes the split fail with [ValueError]. *)
Theorem check_file_guid_result (request : Request) (guid : FileGuid) :
  let guid_url := "/" +:+ guid__id guid +:+ "/" in
  (check_file_guid request guid = ok None
   <-> startswith guid_url (path request) = true)
  /\ (startswith guid_url (path request) = false ->
      file_url guid = "" ->
      check_file_guid request guid = raise ValueError)
  /\ (startswith guid_url (path request) = false ->
      file_url guid <> "" ->
      is_substring (file_url guid) (url request) = false ->
      check_file_guid request guid = ok (Some guid_url))
  /\ (forall before after,
        startswith guid_url (path request) = false ->
        file_url guid <> "" ->
        partition (file_url guid) (url request) = Some (before, after) ->
        let piece := match partition (file_url guid) after with
                     | Some (piece, _) => piece
                     | None => after
                     end in
        url request = before +:+ file_url guid +:+ after
        /\ check_file_guid request guid
           = ok (Some (guid_url +:+ lstrip "/" piece))
        /\ startswith "/" (lstrip "/" piece) = false).
Proof.
  cbv zeta. unfold check_file_guid, split_str.
  destruct (startswith ("/" +:+ guid__id guid +:+ "/") (path request)) eqn:Hs;
    cbn [negb].
  - split; [split; reflexivity |].
    split; [discriminate |]. split; [discriminate |]. discriminate.
  - split.
    { split; [| discriminate].
      destruct (String.eqb (file_url guid) ""); cbn [rbind raise ok];
        [discriminate |].
      destruct (split_steps _ _ _) as [|? [|? ?]]; discriminate. }
    split.
    { intros _ ->. reflexivity. }
    split.
    { intros _ Hne Hnone. apply String.eqb_neq in Hne. rewrite Hne.
      cbn [rbind ok]. apply partition_None in Hnone.
      destruct (String.length (url request)); cbn [split_steps];
        [reflexivity |].
      rewrite Hnone. reflexivity. }
    intros before after _ Hne Hp.
    split; [apply partition_sound; exact Hp |].
    split; [| apply lstrip_no_leading_slash].
    destruct (split_second _ _ _ _ Hne Hp) as [rest Hsplit].
    apply String.eqb_neq in Hne. rewrite Hne. cbn [rbind ok].
    rewrite Hsplit. reflexivity.
Qed.

Lemma check_file_guid_result_witness :
  check_file_guid AuthFixtures.file_request AuthFixtures.file_guid
  = ok (Some "/g1/?a=1").
Proof.
  refine (proj1 (proj2 (proj2 (proj2 (proj2
            (check_file_guid_result AuthFixtures.file_request
               AuthFixtures.file_guid))) "https://osf.example" "?a=1" _ _ _)));
    [reflexivity | discriminate | reflexivity].
Defined.

End FileGuidUrl.

(* ===================================================================== *)
(** * Splitting an event name at its underscores *)
(* ===================================================================== *)

Section SplitJoin.

Import Chars.

Lemma split_not_nil (c : ascii) (s : string) : Py.split c s <> [].
Proof.
  destruct s as [|d rest]; cbn [Py.split]; [discriminate |].
  destruct (Ascii.eqb d c); [discriminate |].
  destruct (Py.split c rest); discriminate.
Qed.

Lemma concat_empty_cons (x : string) (l : list string) :
  String.concat "" (x :: l) = x +:+ String.concat "" l.
Proof.
  destruct l as [|y l]; cbn [String.concat].
  - induction x as [|d x IH]; [reflexivity |].
    rewrite append_cons. f_equal. exact IH.
  - reflexivity.
Qed.

(** [''.join(s.split(c))] is [s] without its [c]s. *)
Lemma join_split_without (c : ascii) (s : string) :
  Py.join "" (Py.split c s) = without c s.
Proof.
  unfold Py.join. induction s as [|d rest IH]; [reflexivity |].
  cbn [Py.split without]. destruct (Ascii.eqb d c).
  - rewrite concat_empty_cons. exact IH.
  - destruct (Py.split c rest) as [|w ws] eqn:Hs;
      [destruct (split_not_nil c rest Hs) |].
    rewrite concat_empty_cons in *. rewrite append_cons. f_equal. exact IH.
Qed.

(** [len(s.split(c)) == s.count(c) + 1] *)
Lemma length_split (c : ascii) (s : string) :
  length (Py.split c s) = S (count_char c s).
Proof.
  induction s as [|d rest IH]; [reflexivity |].
  cbn [Py.split count_char]. destruct (Ascii.eqb d c).
  - cbn [length]. rewrite IH. reflexivity.
  - destruct (Py.split c rest) as [|w ws]; [discriminate IH |]. exact IH.
Qed.

(** A text without the separator is one piece; the pieces of
    [a + c + b] are [a], when it has no [c], and the pieces of [b]. *)
Lemma split_without_sep (c : ascii) (s : string) :
  count_char c s = O -> Py.split c s = [s].
Proof.
  induction s as [|d rest IH]; [reflexivity |].
  cbn [Py.split count_char]. destruct (Ascii.eqb d c); [discriminate |].
  intros H. rewrite (IH H). reflexivity.
Qed.

Lemma split_at_sep (c : ascii) (a b : string) :
  count_char c a = O ->
  Py.split c (a +:+ String c b) = a :: Py.split c b.
Proof.
  induction a as [|d a IH]; intros Ha.
  - change ("" +:+ String c b) with (String c b).
    cbn [Py.split]. rewrite Ascii.eqb_refl. reflexivity.
  - rewrite append_cons. cbn [Py.split count_char] in *.
    destruct (Ascii.eqb d c); [discriminate Ha |].
    rewrite (IH Ha). reflexivity.
Qed.

Lemma lower_ascii_idempotent (c : ascii) :
  lower_ascii (lower_ascii c) = lower_ascii c.
Proof.
  destruct c as [[] [] [] [] [] [] [] []]; reflexivity.
Qed.

Lemma lower_idempotent (s : string) : lower (lower s) = lower s.
Proof.
  induction s as [|c s IH]; [reflexivity |].
  cbn [lower]. rewrite lower_ascii_idempotent, IH. reflexivity.
Qed.

End SplitJoin.

(* ===================================================================== *)
(** * What the event constructors build *)
(* ===================================================================== *)

Section EventConstructors.

Import Chars Events.

(** X12. The kind that [get_event] looks up is the event name with its
    underscores removed and nothing else changed: letters keep their
    case, and a name with a capital letter matches no class. *)
Theorem get_event_kind_keeps_case (env : Env) (u : User) (n : Node)
    (ev : string) (kwargs : list (string * json)) :
  Py.join "" (Py.split underscore ev) = without underscore ev
  /\ (lower (without underscore ev) <> without underscore ev ->
      get_event env u n ev kwargs = raise TypeError).
Proof.
  split; [apply join_split_without |].
  intros Hcase. unfold get_event. rewrite join_split_without.
  destruct (registry !! without underscore ev) as [c|] eqn:Hl; [| reflexivity].
  apply registry_lookup in Hl. destruct Hl as [_ Hk].
  exfalso. apply Hcase. rewrite <- Hk. apply lower_idempotent.
Qed.

Lemma get_event_kind_keeps_case_witness :
  get_event Fixtures.events_env Fixtures.cat Fixtures.private_project
    "File_Added" [("payload", Fixtures.file_added_payload)]
  = raise TypeError.
Proof.
  apply (proj2 (get_event_kind_keeps_case Fixtures.events_env Fixtures.cat
                  Fixtures.private_project "File_Added"
                  [("payload", Fixtures.file_added_payload)])).
  discriminate.
Defined.

Lemma unpack2_split (ev : string) :
  (exists f_type act, Py.split underscore ev = [f_type; act]
                      /\ unpack2 (Py.split underscore ev) = ok (f_type, act))
  \/ (count_char underscore ev <> 1%nat
      /\ unpack2 (Py.split underscore ev) = raise ValueError).
Proof.
  pose proof (length_split underscore ev) as Hlen.
  destruct (Py.split underscore ev) as [|a [|b [|c l]]]; cbn in Hlen.
  - discriminate Hlen.
  - right. split; [lia | reflexivity].
  - left. exists a, b. split; reflexivity.
  - right. split; [lia | reflexivity].
Qed.

Lemma unpack2_ok_count (ev : string) (p : string * string) :
  unpack2 (Py.split underscore ev) = ok p -> count_char underscore ev = 1%nat.
Proof.
  pose proof (length_split underscore ev) as Hlen.
  destruct (Py.split underscore ev) as [|a [|b [|c l]]]; cbn in Hlen;
    try discriminate. intros _. lia.
Qed.

(** [FileEvent.form_message], step by step *)
Lemma FileEvent_form_message_shape (self self' : Instance) :
  FileEvent_form_message self = ok self' ->
  exists f_type act md m,
    Py.split underscore (action self) = [f_type; act]
    /\ getitem (payload self) "metadata" = ok md
    /\ getitem md "materialized" = ok (JStr m)
    /\ self' = set_message
                 (act +:+ " " +:+ f_type +:+ " " +:+ dquote +:+ "<b>"
                  +:+ strip "/" m +:+ "</b>" +:+ dquote +:+ ".") self.
Proof.
  unfold FileEvent_form_message, ok. intros H.
  destruct (unpack2_split (action self))
    as [(f_type & act & Hsplit & Hun) | [_ Hun]];
    rewrite Hun in H; [| discriminate H].
  unfold ok in H. repeat result_step H. injection H as <-.
  unfold json_strip in E1. destruct j0 as [| | |m| |]; try discriminate E1.
  injection E1 as <-.
  exists f_type, act, j, m. auto.
Qed.

Lemma getitem_raises (v : json) (k : string) (e : exn) :
  getitem v k = raise e -> e = KeyError \/ e = TypeError.
Proof.
  unfold getitem, raise, ok. destruct v; try (intros H; injection H as <-; auto).
  destruct (dict_get k fields); intros H; [discriminate H |].
  injection H as <-. auto.
Qed.

Lemma json_strip_raises (chars : string) (v : json) (e : exn) :
  json_strip chars v = raise e -> e = AttributeError.
Proof.
  unfold json_strip, raise, ok. destruct v; intros H;
    first [discriminate H | injection H as <-; reflexivity].
Qed.

Lemma FileEvent_form_message_ValueError (self : Instance) :
  FileEvent_form_message self = raise ValueError
  <-> count_char underscore (action self) <> 1%nat.
Proof.
  unfold FileEvent_form_message.
  destruct (unpack2_split (action self))
    as [(f_type & act & Hsplit & Hun) | [Hcount Hun]]; rewrite Hun.
  - cbn [rbind ok fst snd]. split.
    + intros H. exfalso.
      destruct (getitem (payload self) "metadata") as [e|md] eqn:Hmd;
        cbn [rbind] in H.
      { destruct (getitem_raises _ _ _ Hmd) as [-> | ->]; discriminate H. }
      destruct (getitem md "materialized") as [e|mt] eqn:Hmt; cbn [rbind] in H.
      { destruct (getitem_raises _ _ _ Hmt) as [-> | ->]; discriminate H. }
      destruct (json_strip "/" mt) as [e|nm] eqn:Hnm; cbn [rbind] in H.
      { rewrite (json_strip_raises _ _ _ Hnm) in H. discriminate H. }
      discriminate H.
    + intros Hc. exfalso. apply Hc.
      apply (unpack2_ok_count _ _ Hun).
  - split; [intros _; exact Hcount | reflexivity].
Qed.

(** X13. An event of the simple family ([SimpleFileEvent],
    [FileRemoved], [FolderCreated]) is built without any GUID lookup and
    is always filed under ['file_updated'], whatever its name; its URL is
    the node's files page and its message reads
    [<action> <type> "<b><name></b>".].  The constructor raises
    [ValueError] exactly when the event name does not have exactly one
    underscore. *)
Theorem simple_event_is_filed_under_file_updated (env : Env)
    (c : event_class) (u : User) (n : Node) (ev : string) (pl : json) :
  In c [SimpleFileEvent; FileRemoved; FolderCreated] ->
  (construct env c u n ev [("payload", pl)] = raise ValueError
   <-> count_char underscore ev <> 1%nat)
  /\ (forall self,
        construct env c u n ev [("payload", pl)] = ok self ->
        exists f_type act md m,
          Py.split underscore ev = [f_type; act]
          /\ getitem pl "metadata" = ok md
          /\ getitem md "materialized" = ok (JStr m)
          /\ self
             = {| cls := c;
                  user := u;
                  gravatar_url := user_gravatar_url u;
                  node := n;
                  node_id := node__id n;
                  action := ev;
                  timestamp := utcnow env;
                  event := "file_updated";
                  message := act +:+ " " +:+ f_type +:+ " " +:+ dquote
                             +:+ "<b>" +:+ strip "/" m +:+ "</b>"
                             +:+ dquote +:+ ".";
                  url := Some (furl_with_path env (node_absolute_url n)
                                 (web_url_for n "collect_file_trees" []));
                  payload := pl;
                  guid := None;
                  source_guid := None;
                  source_node := None;
                  source_event_sub := None;
                  source_url := None |}).
Proof.
  intros Hc.
  assert (Hrun : construct env c u n ev [("payload", pl)]
                 = do self <- FileEvent_form_message
                                (set_event "file_updated"
                                   (FileEvent_init env c u n ev pl));
                   SimpleFileEvent_form_url env self).
  { destruct (FileEvent_form_message
                (set_event "file_updated" (FileEvent_init env c u n ev pl)))
      as [e|s1] eqn:Hmsg.
    - destruct Hc as [<- | [<- | [<- | []]]];
        cbn [construct bind_kwargs String.eqb Ascii.eqb Bool.eqb rbind ok];
        unfold SimpleFileEvent_init, form_event, form_message;
        cbn [cls FileEvent_init set_event FileEvent_form_event rbind ok];
        rewrite Hmsg; reflexivity.
    - destruct (FileEvent_form_message_shape _ _ Hmsg)
        as (f_type & act & md & m & _ & _ & _ & Hs1).
      destruct Hc as [<- | [<- | [<- | []]]];
        cbn [construct bind_kwargs String.eqb Ascii.eqb Bool.eqb rbind ok];
        unfold SimpleFileEvent_init, form_event, form_message;
        cbn [cls FileEvent_init set_event FileEvent_form_event rbind ok];
        rewrite Hmsg; cbn [rbind]; rewrite Hs1; reflexivity. }
  rewrite Hrun. split.
  - rewrite <- (FileEvent_form_message_ValueError
                  (set_event "file_updated" (FileEvent_init env c u n ev pl))).
    destruct (FileEvent_form_message
                (set_event "file_updated" (FileEvent_init env c u n ev pl)))
      as [e|s1]; cbn [rbind]; [reflexivity |].
    split; discriminate.
  - intros self H.
    destruct (FileEvent_form_message
                (set_event "file_updated" (FileEvent_init env c u n ev pl)))
      as [e|s1] eqn:Hmsg; cbn [rbind] in H; [discriminate H |].
    destruct (FileEvent_form_message_shape _ _ Hmsg)
      as (f_type & act & md & m & Hsplit & Hmd & Hm & ->).
    exists f_type, act, md, m.
    split; [exact Hsplit |]. split; [exact Hmd |]. split; [exact Hm |].
    unfold ok in H. injection H as <-. reflexivity.
Qed.

Lemma simple_event_is_filed_under_file_updated_witness :
  construct Fixtures.events_env FolderCreated Fixtures.cat
    Fixtures.private_project "foldercreated"
    [("payload", Fixtures.file_added_payload)]
  = raise ValueError.
Proof.
  apply (proj1 (simple_event_is_filed_under_file_updated Fixtures.events_env
                  FolderCreated Fixtures.cat Fixtures.private_project
                  "foldercreated" Fixtures.file_added_payload
                  (or_intror (or_intror (or_introl eq_refl))))).
  discriminate.
Defined.

(** A folder creation is announced under ['file_updated']. *)
Example folder_created_event :
  match get_event Fixtures.events_env Fixtures.cat Fixtures.private_project
          "folder_created" [("payload", Fixtures.file_added_payload)] with
  | inr self => Some (cls self, event self, message self, guid self)
  | inl _ => None
  end
  = Some (FolderCreated, "file_updated",
          "created folder " +:+ dquote +:+ "<b>a/x</b>" +:+ dquote +:+ ".",
          None).
Proof. vm_compute. reflexivity. Qed.

(** [FileEvent.form_guid], step by step *)
Lemma FileEvent_form_guid_shape (self self' : Instance) :
  FileEvent_form_guid self = ok self' ->
  exists provider addon md p,
    getitem (payload self) "provider" = ok provider
    /\ load_by (get_addon (node self)) provider = Some addon
    /\ getitem (payload self) "metadata" = ok md
    /\ getitem md "path" = ok (JStr p)
    /\ self' = set_guid
                 (find_or_create_file_guid addon
                    (if startswith "/" p then p else "/" +:+ p)) self.
Proof.
  unfold FileEvent_form_guid, ok. intros H. repeat result_step H.
  injection H as <-.
  unfold with_leading_slash in E2. destruct j1 as [| | |p| |]; try discriminate E2.
  injection E2 as <-.
  destruct (load_by (get_addon (node self)) j) as [addon|] eqn:Haddon;
    [| discriminate E3].
  injection E3 as <-.
  exists j, addon, j0, p. auto.
Qed.

(** X14. A returned event of the update family ([UpdateFileEvent],
    [FileAdded], [FileUpdated]) follows the GUID of its file: the GUID is
    looked up in the add-on of the payload's provider under the path
    with a leading slash, the event is filed under
    [<guid url without slashes>_file_updated], and the URL is the node's
    URL with the GUID URL as its path. *)
Theorem update_event_follows_its_guid (env : Env) (c : event_class)
    (u : User) (n : Node) (ev : string) (pl : json) (self : Instance) :
  In c [UpdateFileEvent; FileAdded; FileUpdated] ->
  construct env c u n ev [("payload", pl)] = ok self ->
  exists provider addon md p f_type act m,
    getitem pl "provider" = ok provider
    /\ load_by (get_addon n) provider = Some addon
    /\ getitem pl "metadata" = ok md
    /\ getitem md "path" = ok (JStr p)
    /\ Py.split underscore ev = [f_type; act]
    /\ getitem md "materialized" = ok (JStr m)
    /\ let g := find_or_create_file_guid addon
                  (if startswith "/" p then p else "/" +:+ p) in
       self
       = {| cls := c;
            user := u;
            gravatar_url := user_gravatar_url u;
            node := n;
            node_id := node__id n;
            action := ev;
            timestamp := utcnow env;
            event := strip "/" (guid_url g) +:+ "_file_updated";
            message := act +:+ " " +:+ f_type +:+ " " +:+ dquote
                       +:+ "<b>" +:+ strip "/" m +:+ "</b>"
                       +:+ dquote +:+ ".";
            url := Some (furl_with_path env (node_absolute_url n)
                           (guid_url g));
            payload := pl;
            guid := Some g;
            source_guid := None;
            source_node := None;
            source_event_sub := None;
            source_url := None |}.
Proof.
  intros Hc H.
  assert (Hrun : exists s1,
             FileEvent_form_guid (FileEvent_init env c u n ev pl) = ok s1
             /\ exists s3,
                  FileEvent_form_message
                    (set_event (match guid s1 with
                                | Some g => strip "/" (guid_url g)
                                            +:+ "_file_updated"
                                | None => ""
                                end) s1) = ok s3
                  /\ UpdateFileEvent_form_url env s3 = ok self).
  { destruct Hc as [<- | [<- | [<- | []]]];
      cbn [construct bind_kwargs String.eqb Ascii.eqb Bool.eqb rbind ok] in H;
      unfold UpdateFileEvent_init, form_guid in H;
      cbn [cls FileEvent_init] in H;
      (destruct (FileEvent_form_guid _) as [e|s1] eqn:Hg in H;
       cbn [rbind] in H; [discriminate H |]);
      destruct (FileEvent_form_guid_shape _ _ Hg)
        as (? & ? & ? & ? & _ & _ & _ & _ & Hs1);
      exists s1; (split; [exact Hg |]);
      rewrite Hs1 in H |- *;
      unfold form_event, form_message, UpdateFileEvent_form_event in H;
      cbn [cls set_guid FileEvent_init guid attr_of rbind ok] in H;
      unfold form_message in H; cbn [cls set_event set_guid FileEvent_init] in H;
      (destruct (FileEvent_form_message _) as [e|s3] eqn:Hm in H;
       cbn [rbind] in H; [discriminate H |]);
      exists s3; (split; [exact Hm |]);
      destruct (FileEvent_form_message_shape _ _ Hm)
        as (? & ? & ? & ? & _ & _ & _ & Hs3);
      rewrite Hs3 in H |- *; exact H. }
  destruct Hrun as (s1 & Hg & s3 & Hm & Hu).
  destruct (FileEvent_form_guid_shape _ _ Hg)
    as (provider & addon & md & p & Hprov & Haddon & Hmd & Hp & ->).
  destruct (FileEvent_form_message_shape _ _ Hm)
    as (f_type & act & md' & m & Hsplit & Hmd' & Hmat & ->).
  cbn [payload set_event set_guid FileEvent_init action node guid] in *.
  rewrite Hmd in Hmd'. injection Hmd' as <-.
  exists provider, addon, md, p, f_type, act, m.
  repeat (split; [assumption |]).
  unfold UpdateFileEvent_form_url, FileEvent_form_url in Hu.
  cbn in Hu. unfold ok in Hu. injection Hu as <-. reflexivity.
Qed.

Lemma update_event_follows_its_guid_witness :
  exists self,
    construct Fixtures.events_env FileAdded Fixtures.cat
      Fixtures.private_project "file_added"
      [("payload", Fixtures.file_added_payload)] = ok self
    /\ event self = "guid/a/x_file_updated"
    /\ url self = Some "https://osf.example/guid/a/x/".
Proof.
  destruct (construct Fixtures.events_env FileAdded Fixtures.cat
              Fixtures.private_project "file_added"
              [("payload", Fixtures.file_added_payload)])
    as [e|self] eqn:H; [discriminate H |].
  exists self. split; [reflexivity |].
  destruct (update_event_follows_its_guid Fixtures.events_env FileAdded
              Fixtures.cat Fixtures.private_project "file_added"
              Fixtures.file_added_payload self
              (or_intror (or_introl eq_refl)) H)
    as (provider & addon & md & p & f_type & act & m & Hprov & Haddon & Hmd
        & Hp & _ & _ & ->).
  injection Hprov as <-. injection Haddon as <-. injection Hmd as <-.
  injection Hp as <-. split; reflexivity.
Defined.

(** [ComplexFileEvent.form_guid], step by step *)
Lemma ComplexFileEvent_form_guid_shape (env : Env) (self self' : Instance) :
  ComplexFileEvent_form_guid env self = ok self' ->
  exists dst dprov da dp src snd_ snid sn sprov sa sp,
    getitem (payload self) "destination" = ok dst
    /\ getitem dst "provider" = ok dprov
    /\ load_by (get_addon (node self)) dprov = Some da
    /\ getitem dst "path" = ok (JStr dp)
    /\ getitem (payload self) "source" = ok src
    /\ getitem src "node" = ok snd_
    /\ getitem snd_ "_id" = ok snid
    /\ load_by (Node_load (models env)) snid = Some sn
    /\ getitem src "provider" = ok sprov
    /\ load_by (get_addon sn) sprov = Some sa
    /\ getitem src "path" = ok (JStr sp)
    /\ self'
       = set_source_guid
           (Some (find_or_create_file_guid sa
                    (if startswith "/" sp then sp else "/" +:+ sp)))
           (set_source_node (Some sn)
              (set_guid (find_or_create_file_guid da
                           (if startswith "/" dp then dp else "/" +:+ dp))
                 self)).
Proof.
  unfold ComplexFileEvent_form_guid, ok. intros H.
  repeat result_step H.
  cbn [payload set_guid set_source_node source_node] in *.
  rewrite E4 in E8. injection E8 as <-.
  unfold with_leading_slash in E2, E11.
  destruct j1 as [| | |dp| |]; try discriminate E2. injection E2 as <-.
  destruct j7 as [| | |sp| |]; try discriminate E11. injection E11 as <-.
  destruct (load_by (get_addon (node self)) j0) as [da|] eqn:Hda;
    [| discriminate E3]. injection E3 as <-.
  destruct (load_by (Node_load (models env)) j4) as [sn|] eqn:Hsn;
    [| discriminate E7]. injection E7 as <-.
  destruct (load_by (get_addon sn) j6) as [sa|] eqn:Hsa;
    [| discriminate E12]. injection E12 as <-.
  injection H as <-.
  exists j, j0, da, dp, j2, j3, j4, sn, j6, sa, sp.
  split; [reflexivity |].
  repeat (split; [assumption |]). reflexivity.
Qed.

Lemma unpack3_ok_count (ev : string) (p : string * string * string) :
  unpack3 (Py.split underscore ev) = ok p -> count_char underscore ev = 2%nat.
Proof.
  pose proof (length_split underscore ev) as Hlen.
  destruct (Py.split underscore ev) as [|a [|b [|c [|d l]]]]; cbn in Hlen;
    try discriminate. intros _. lia.
Qed.

(** [ComplexFileEvent.form_message] sets the message and nothing else,
    and needs a name of three parts. *)
Lemma ComplexFileEvent_form_message_shape (env : Env) (self self' : Instance) :
  ComplexFileEvent_form_message env self = ok self' ->
  count_char underscore (action self) = 2%nat
  /\ exists msg, self' = set_message msg self.
Proof.
  unfold ComplexFileEvent_form_message, ok. intros H.
  result_step H. apply unpack3_ok_count in E.
  repeat result_step H. injection H as <-.
  split; [exact E |]. eexists. reflexivity.
Qed.

Ltac fields :=
  cbn [cls user gravatar_url node node_id action timestamp event message url
       payload guid source_guid source_node source_event_sub source_url
       set_guid set_event set_message set_url set_source_guid set_source_node
       set_source_event_sub set_source_url FileEvent_init].

(** [ComplexFileEvent.form_event], step by step *)
Lemma ComplexFileEvent_form_event_shape (self self' : Instance) :
  ComplexFileEvent_form_event self = ok self' ->
  exists g sg,
    guid self = Some g
    /\ source_guid self = Some sg
    /\ self' = set_source_event_sub
                 (Some (strip "/" (guid_url sg) +:+ "_file_updated"))
                 (set_event (strip "/" (guid_url g) +:+ "_file_updated") self).
Proof.
  unfold ComplexFileEvent_form_event, ok. intros H.
  destruct (guid self) as [g|] eqn:Hg; cbn [attr_of rbind ok] in H;
    [| discriminate H].
  cbn [source_guid set_event] in H.
  destruct (source_guid self) as [sg|] eqn:Hsg; cbn [attr_of rbind ok] in H;
    [| discriminate H].
  unfold ok in H. injection H as <-. exists g, sg. auto.
Qed.

(** [form_url] of the complex family sets [url] from the destination
    GUID, and [source_url] as the class says. *)
Lemma complex_form_url_shape (env : Env) (self self' : Instance) :
  In (cls self) [ComplexFileEvent; AddonFileMoved; AddonFileCopied] ->
  form_url env self = ok self' ->
  exists g,
    guid self = Some g
    /\ let with_url :=
         set_url (furl_with_path env (node_absolute_url (node self))
                    (guid_url g)) self in
       match cls self with
       | AddonFileMoved =>
           self' = set_source_url
                     (Some (furl_with_path env (node_absolute_url (node self))
                              (web_url_for (node self) "collect_file_trees" [])))
                     with_url
       | AddonFileCopied =>
           exists sg,
             source_guid self = Some sg
             /\ self' = set_source_url
                          (Some (furl_with_path env
                                   (node_absolute_url (node self))
                                   (guid_url sg)))
                          with_url
       | _ => self' = with_url
       end.
Proof.
  intros Hc H. unfold form_url in H.
  destruct (cls self) eqn:Hcls;
    try (exfalso; cbn in Hc; intuition discriminate).
  - unfold ComplexFileEvent_form_url, FileEvent_form_url in H.
    cbn [rbind ok fst snd] in H.
    destruct (guid self) as [g|]; cbn [attr_of rbind ok fst snd] in H;
      [| discriminate H].
    unfold ok in H. injection H as <-. exists g. split; reflexivity.
  - unfold AddonFileMoved_form_url, ComplexFileEvent_form_url,
      FileEvent_form_url in H.
    cbn [rbind ok fst snd] in H.
    destruct (guid self) as [g|]; cbn [attr_of rbind ok fst snd] in H;
      [| discriminate H].
    unfold ok in H. injection H as <-. exists g. split; reflexivity.
  - unfold AddonFileCopied_form_url, ComplexFileEvent_form_url,
      FileEvent_form_url in H.
    cbn [rbind ok fst snd] in H.
    destruct (guid self) as [g|]; cbn [attr_of rbind ok fst snd] in H;
      [| discriminate H].
    cbn [source_guid set_url] in H.
    destruct (source_guid self) as [sg|]; cbn [attr_of rbind ok fst snd] in H;
      [| discriminate H].
    unfold ok in H. injection H as <-. exists g. split; [reflexivity |].
    exists sg. split; reflexivity.
Qed.

(** [form_message] of the complex family sets the message and nothing
    else, and needs a name of three parts. *)
Lemma complex_form_message_shape (env : Env) (self self' : Instance) :
  In (cls self) [ComplexFileEvent; AddonFileMoved; AddonFileCopied] ->
  form_message env self = ok self' ->
  count_char underscore (action self) = 2%nat
  /\ exists msg, self' = set_message msg self.
Proof.
  intros Hc H. unfold form_message in H.
  destruct (cls self) eqn:Hcls;
    try (exfalso; cbn in Hc; intuition discriminate).
  - apply (ComplexFileEvent_form_message_shape env _ _ H).
  - apply (ComplexFileEvent_form_message_shape env _ _ H).
  - unfold AddonFileCopied_form_message in H.
    destruct (ComplexFileEvent_form_message env self) as [e|s5] eqn:Hm;
      cbn [rbind] in H; [discriminate H |].
    destruct (ComplexFileEvent_form_message_shape env _ _ Hm)
      as (Hcount & msg & ->).
    split; [exact Hcount |].
    unfold ok in H. injection H as <-. eexists.
    cbn [set_message cls user gravatar_url node node_id action timestamp
         event message url payload guid source_guid source_node
         source_event_sub source_url].
    reflexivity.
Qed.

(** [ComplexFileEvent.__init__], step by step: the lookups it makes and
    every attribute of the instance it leaves. *)
Lemma ComplexFileEvent_init_shape (env : Env) (c : event_class)
    (u : User) (n : Node) (ev : string) (pl : json) (self : Instance) :
  In c [ComplexFileEvent; AddonFileMoved; AddonFileCopied] ->
  ComplexFileEvent_init env c u n ev pl = ok self ->
  exists dst dprov da dp src snd_ snid sn sprov sa sp msg,
    getitem pl "destination" = ok dst
    /\ getitem dst "provider" = ok dprov
    /\ load_by (get_addon n) dprov = Some da
    /\ getitem dst "path" = ok (JStr dp)
    /\ getitem pl "source" = ok src
    /\ getitem src "node" = ok snd_
    /\ getitem snd_ "_id" = ok snid
    /\ load_by (Node_load (models env)) snid = Some sn
    /\ getitem src "provider" = ok sprov
    /\ load_by (get_addon sn) sprov = Some sa
    /\ getitem src "path" = ok (JStr sp)
    /\ count_char underscore ev = 2%nat
    /\ let g := find_or_create_file_guid da
                  (if startswith "/" dp then dp else "/" +:+ dp) in
       let sg := find_or_create_file_guid sa
                   (if startswith "/" sp then sp else "/" +:+ sp) in
       self
       = {| cls := c;
            user := u;
            gravatar_url := user_gravatar_url u;
            node := n;
            node_id := node__id n;
            action := ev;
            timestamp := utcnow env;
            event := strip "/" (guid_url g) +:+ "_file_updated";
            message := msg;
            url := Some (furl_with_path env (node_absolute_url n)
                           (guid_url g));
            payload := pl;
            guid := Some g;
            source_guid := Some sg;
            source_node := Some sn;
            source_event_sub
              := Some (strip "/" (guid_url sg) +:+ "_file_updated");
            source_url
              := match c with
                 | AddonFileMoved =>
                     Some (furl_with_path env (node_absolute_url n)
                             (web_url_for n "collect_file_trees" []))
                 | AddonFileCopied =>
                     Some (furl_with_path env (node_absolute_url n)
                             (guid_url sg))
                 | _ => None
                 end |}.
Proof.
  intros Hc Hinit. unfold ComplexFileEvent_init in Hinit.
  assert (Hg : form_guid env
                 (set_source_node None
                    (set_source_guid None (FileEvent_init env c u n ev pl)))
               = ComplexFileEvent_form_guid env
                   (set_source_node None
                      (set_source_guid None (FileEvent_init env c u n ev pl)))).
  { unfold form_guid. fields.
    destruct Hc as [<- | [<- | [<- | []]]]; reflexivity. }
  cbv zeta in Hinit. rewrite Hg in Hinit. clear Hg.
  destruct (ComplexFileEvent_form_guid env _) as [e|s1] eqn:Hg in Hinit;
    cbn [rbind] in Hinit; [discriminate Hinit |].
  destruct (ComplexFileEvent_form_guid_shape _ _ _ Hg)
    as (dst & dprov & da & dp & src & snd_ & snid & sn & sprov & sa & sp
        & Hdst & Hdprov & Hda & Hdp & Hsrc & Hsnd & Hsnid & Hsn & Hsprov
        & Hsa & Hsp & Hs1).
  cbn [payload node set_source_node set_source_guid FileEvent_init] in
    Hdst, Hda, Hsrc.
  assert (Hev : form_event (set_source_event_sub None s1)
                = ComplexFileEvent_form_event (set_source_event_sub None s1)).
  { unfold form_event. rewrite Hs1. fields.
    destruct Hc as [<- | [<- | [<- | []]]]; reflexivity. }
  rewrite Hev in Hinit. clear Hev.
  destruct (ComplexFileEvent_form_event _) as [e|s2] eqn:He in Hinit;
    cbn [rbind] in Hinit; [discriminate Hinit |].
  destruct (ComplexFileEvent_form_event_shape _ _ He)
    as (g & sg & Hguid & Hsguid & Hs2).
  destruct (form_url env (set_source_url None s2)) as [e|s3] eqn:Hu;
    cbn [rbind] in Hinit; [discriminate Hinit |].
  assert (Hcls2 : cls (set_source_url None s2) = c).
  { rewrite Hs2, Hs1. fields. reflexivity. }
  assert (Hc2 : In (cls (set_source_url None s2))
                  [ComplexFileEvent; AddonFileMoved; AddonFileCopied]).
  { rewrite Hcls2. exact Hc. }
  destruct (complex_form_url_shape env _ _ Hc2 Hu) as (g' & Hguid' & Hs3).
  rewrite Hcls2 in Hs3. cbv zeta in Hs3.
  rewrite Hs1 in Hguid, Hsguid. rewrite Hs2, Hs1 in Hguid'.
  cbn [guid source_guid set_source_event_sub set_source_guid set_source_node
       set_guid set_source_url set_event] in Hguid, Hsguid, Hguid'.
  injection Hguid as <-. injection Hsguid as <-. injection Hguid' as <-.
  assert (Hs3' : cls s3 = c /\ action s3 = ev
                 /\ exists surl, s3 = set_source_url surl
                      (set_url (furl_with_path env
                                  (node_absolute_url
                                     (node (set_source_url None s2)))
                                  (guid_url (find_or_create_file_guid da
                                     (if startswith "/" dp then dp
                                      else "/" +:+ dp))))
                         (set_source_url None s2))).
  { destruct Hc as [<- | [<- | [<- | []]]];
      [| | destruct Hs3 as (sg' & _ & Hs3)];
      rewrite Hs3, Hs2, Hs1; fields;
      (split; [reflexivity |]); (split; [reflexivity |]);
      eexists; reflexivity. }
  destruct Hs3' as (Hcls3 & Hact & _).
  assert (Hc3 : In (cls s3)
                  [ComplexFileEvent; AddonFileMoved; AddonFileCopied]).
  { rewrite Hcls3. exact Hc. }
  destruct (complex_form_message_shape env _ _ Hc3 Hinit)
    as (Hcount & msg & Hself).
  rewrite Hact in Hcount.
  exists dst, dprov, da, dp, src, snd_, snid, sn, sprov, sa, sp, msg.
  repeat (split; [assumption |]).
  cbv zeta. rewrite Hself.
  destruct Hc as [<- | [<- | [<- | []]]].
  - rewrite Hs3, Hs2, Hs1. fields. reflexivity.
  - rewrite Hs3, Hs2, Hs1. fields. reflexivity.
  - destruct Hs3 as (sg' & Hsg' & Hs3).
    rewrite Hs2, Hs1 in Hsg'.
    cbn [guid source_guid set_source_event_sub set_source_guid set_source_node
         set_guid set_source_url set_event] in Hsg'.
    injection Hsg' as <-.
    rewrite Hs3, Hs2, Hs1. fields. reflexivity.
Qed.

(** X15. A returned event of the complex family ([ComplexFileEvent],
    [AddonFileMoved], [AddonFileCopied]) has a name of three parts and
    carries two GUIDs, the destination's and the source's, each looked
    up under its path with a leading slash.  The event and its URL
    follow the destination GUID, the source subscription follows the
    source GUID; the source URL is the destination node's files page for
    a move, the source GUID's URL for a copy, and unset for the base
    class. *)
Theorem complex_event_follows_two_guids (env : Env) (c : event_class)
    (u : User) (n : Node) (ev : string) (pl : json) (self : Instance) :
  In c [ComplexFileEvent; AddonFileMoved; AddonFileCopied] ->
  construct env c u n ev [("payload", pl)] = ok self ->
  exists dst dprov da dp src snd_ snid sn sprov sa sp,
    getitem pl "destination" = ok dst
    /\ getitem dst "provider" = ok dprov
    /\ load_by (get_addon n) dprov = Some da
    /\ getitem dst "path" = ok (JStr dp)
    /\ getitem pl "source" = ok src
    /\ getitem src "node" = ok snd_
    /\ getitem snd_ "_id" = ok snid
    /\ load_by (Node_load (models env)) snid = Some sn
    /\ getitem src "provider" = ok sprov
    /\ load_by (get_addon sn) sprov = Some sa
    /\ getitem src "path" = ok (JStr sp)
    /\ count_char underscore ev = 2%nat
    /\ let g := find_or_create_file_guid da
                  (if startswith "/" dp then dp else "/" +:+ dp) in
       let sg := find_or_create_file_guid sa
                   (if startswith "/" sp then sp else "/" +:+ sp) in
       cls self = c
       /\ guid self = Some g
       /\ source_guid self = Some sg
       /\ source_node self = Some sn
       /\ event self = strip "/" (guid_url g) +:+ "_file_updated"
       /\ source_event_sub self
          = Some (strip "/" (guid_url sg) +:+ "_file_updated")
       /\ url self
          = Some (furl_with_path env (node_absolute_url n) (guid_url g))
       /\ source_url self
          = match c with
            | AddonFileMoved =>
                Some (furl_with_path env (node_absolute_url n)
                        (web_url_for n "collect_file_trees" []))
            | AddonFileCopied =>
                Some (furl_with_path env (node_absolute_url n) (guid_url sg))
            | _ => None
            end.
Proof.
  intros Hc H.
  assert (Hinit : ComplexFileEvent_init env c u n ev pl = ok self).
  { destruct Hc as [<- | [<- | [<- | []]]]; exact H. }
  destruct (ComplexFileEvent_init_shape env c u n ev pl self Hc Hinit)
    as (dst & dprov & da & dp & src & snd_ & snid & sn & sprov & sa & sp
        & msg & Hdst & Hdprov & Hda & Hdp & Hsrc & Hsnd & Hsnid & Hsn
        & Hsprov & Hsa & Hsp & Hcount & Hself).
  exists dst, dprov, da, dp, src, snd_, snid, sn, sprov, sa, sp.
  repeat (split; [assumption |]).
  cbv zeta in Hself |- *. rewrite Hself. fields.
  repeat split; reflexivity.
Qed.

Lemma complex_event_follows_two_guids_witness :
  exists self,
    construct Fixtures.events_env AddonFileMoved Fixtures.cat
      Fixtures.private_project "addon_file_moved"
      [("payload", EventPayloads.moved_payload)] = ok self
    /\ event self = "guid/new/place.txt_file_updated"
    /\ source_event_sub self = Some "guid/old/place.txt_file_updated"
    /\ source_url self = Some "https://osf.example/proj1/files/".
Proof.
  destruct (construct Fixtures.events_env AddonFileMoved Fixtures.cat
              Fixtures.private_project "addon_file_moved"
              [("payload", EventPayloads.moved_payload)])
    as [e|self] eqn:H; [vm_compute in H; discriminate H |].
  exists self. split; [reflexivity |].
  destruct (complex_event_follows_two_guids Fixtures.events_env AddonFileMoved
              Fixtures.cat Fixtures.private_project "addon_file_moved"
              EventPayloads.moved_payload self
              (or_intror (or_introl eq_refl)) H)
    as (dst & dprov & da & dp & src & snd_ & snid & sn & sprov & sa & sp
        & Hdst & Hdprov & Hda & Hdp & Hsrc & Hsnd & Hsnid & Hsn & Hsprov
        & Hsa & Hsp & _ & _ & _ & _ & _ & Hev & Hsub & _ & Hsurl).
  vm_compute in Hdst. injection Hdst as <-.
  vm_compute in Hdprov. injection Hdprov as <-.
  vm_compute in Hda. injection Hda as <-.
  vm_compute in Hdp. injection Hdp as <-.
  vm_compute in Hsrc. injection Hsrc as <-.
  vm_compute in Hsnd. injection Hsnd as <-.
  vm_compute in Hsnid. injection Hsnid as <-.
  vm_compute in Hsn. injection Hsn as <-.
  vm_compute in Hsprov. injection Hsprov as <-.
  vm_compute in Hsa. injection Hsa as <-.
  vm_compute in Hsp. injection Hsp as <-.
  rewrite Hev, Hsub, Hsurl. repeat split; reflexivity.
Defined.

End EventConstructors.

(* ===================================================================== *)
(** * What [perform] calls *)
(* ===================================================================== *)

Section PerformCalls.

Import Chars Events Perform.

(** X16. Only a moved-file event touches subscriptions.  An event of any
    other class performs one call, [notify], with its own attributes.
    A moved-file event that its constructor returned first moves the
    subscription from the source GUID's event on the source node to the
    destination GUID's event on the node, then warns the users removed,
    under the source event and with the node's files page as URL, with a
    message that is a tuple of one string, and only then notifies, under
    the destination event with the destination GUID's URL. *)
Theorem only_a_move_touches_subscriptions (env : Env)
    (removed : Subscriptions) (u : User) (n : Node) (ev : string)
    (pl : json) :
  (forall self, cls self <> AddonFileMoved ->
     perform removed self
     = [ notify (node_id self) (event self) (user self) (node self)
           (timestamp self) (message self) (gravatar_url self) (url self) ])
  /\ (forall self,
        construct env AddonFileMoved u n ev [("payload", pl)] = ok self ->
        exists g sg sn,
          guid self = Some g /\ source_guid self = Some sg
          /\ source_node self = Some sn
          /\ let sub := strip "/" (guid_url g) +:+ "_file_updated" in
             let source_sub := strip "/" (guid_url sg) +:+ "_file_updated" in
             perform removed self
             = [ move_file_subscription (Some source_sub) (Some sn) sub n;
                 warn_users_removed_from_subscription
                   (removed (Some source_sub) (Some sn) sub n)
                   (Some source_sub) u (Some sn) (utcnow env)
                   (user_gravatar_url u)
                   [ message self +:+ " Your subscription has been removed"
                     +:+ " due to insufficient permissions in the new component." ]
                   (Some (furl_with_path env (node_absolute_url n)
                            (web_url_for n "collect_file_trees" [])));
                 notify (node__id n) sub u n (utcnow env) (message self)
                   (user_gravatar_url u)
                   (Some (furl_with_path env (node_absolute_url n)
                            (guid_url g))) ]).
Proof.
  split.
  - intros self Hcls. unfold perform.
    destruct (cls self); try reflexivity. destruct (Hcls eq_refl).
  - intros self H.
    assert (Hc : In AddonFileMoved
                   [ComplexFileEvent; AddonFileMoved; AddonFileCopied]).
    { right. left. reflexivity. }
    destruct (ComplexFileEvent_init_shape env _ u n ev pl self Hc H)
      as (dst & dprov & da & dp & src & snd_ & snid & sn & sprov & sa & sp
          & msg & _ & _ & _ & _ & _ & _ & _ & _ & _ & _ & _ & _ & Hself).
    cbv zeta in Hself. rewrite Hself.
    eexists _, _, sn. split; [reflexivity |]. split; [reflexivity |].
    split; reflexivity.
Qed.

Lemma only_a_move_touches_subscriptions_witness :
  exists self,
    construct Fixtures.events_env AddonFileMoved Fixtures.cat
      Fixtures.private_project "addon_file_moved"
      [("payload", EventPayloads.moved_payload)] = ok self
    /\ length (perform nobody self) = 3%nat.
Proof.
  destruct (construct Fixtures.events_env AddonFileMoved Fixtures.cat
              Fixtures.private_project "addon_file_moved"
              [("payload", EventPayloads.moved_payload)])
    as [e|self] eqn:H; [vm_compute in H; discriminate H |].
  exists self. split; [reflexivity |].
  destruct (proj2 (only_a_move_touches_subscriptions Fixtures.events_env
                     nobody Fixtures.cat Fixtures.private_project
                     "addon_file_moved" EventPayloads.moved_payload)
              self H)
    as (g & sg & sn & _ & _ & _ & Hp).
  cbv zeta in Hp. rewrite Hp. reflexivity.
Defined.

End PerformCalls.

(* ===================================================================== *)
(** * Viewing and downloading a file *)
(* ===================================================================== *)

Section FileView.

Import FileViews.

Lemma lookup_without_key_same (k : string) (d : Query) :
  ViewsAuth.lookup k (without_key k d) = None.
Proof.
  unfold without_key. induction d as [|[k' v] d IH]; [reflexivity |].
  cbn [List.filter fst]. destruct (String.eqb k' k) eqn:Hk; cbn [negb].
  - exact IH.
  - cbn [ViewsAuth.lookup]. rewrite String.eqb_sym, Hk. exact IH.
Qed.

Lemma lookup_without_key_other (k k' : string) (d : Query) :
  k <> k' ->
  ViewsAuth.lookup k (without_key k' d) = ViewsAuth.lookup k d.
Proof.
  intros Hne. unfold without_key. induction d as [|[k0 v] d IH]; [reflexivity |].
  cbn [List.filter fst ViewsAuth.lookup].
  destruct (String.eqb k0 k') eqn:Hk; cbn [negb].
  - apply String.eqb_eq in Hk. subst k0.
    destruct (String.eqb k k') eqn:Hkk; [| exact IH].
    apply String.eqb_eq in Hkk. destruct (Hne Hkk).
  - cbn [ViewsAuth.lookup]. destruct (String.eqb k k0); [reflexivity | exact IH].
Qed.

(** [to_dict] keeps the first value of every key. *)
Lemma lookup_to_dict (k : string) (d : Query) :
  ViewsAuth.lookup k (to_dict d) = ViewsAuth.lookup k d.
Proof.
  induction d as [|[k' v] d IH]; [reflexivity |].
  cbn [to_dict ViewsAuth.lookup].
  destruct (String.eqb k k') eqn:Hk; [reflexivity |].
  rewrite lookup_without_key_other; [exact IH |].
  intros ->. rewrite String.eqb_refl in Hk. discriminate Hk.
Qed.

Lemma lookup_app (k : string) (d e : Query) :
  ViewsAuth.lookup k (d ++ e)%list
  = match ViewsAuth.lookup k d with
    | Some v => Some v
    | None => ViewsAuth.lookup k e
    end.
Proof.
  induction d as [|[k' v] d IH]; [reflexivity |].
  cbn [app ViewsAuth.lookup]. destruct (String.eqb k k'); [reflexivity | exact IH].
Qed.

Lemma lookup_Some_in_keys (k v : string) (d : Query) :
  ViewsAuth.lookup k d = Some v ->
  existsb (String.eqb k) (map fst d) = true.
Proof.
  induction d as [|[k' v'] d IH]; [discriminate |].
  cbn [ViewsAuth.lookup map fst existsb].
  destruct (String.eqb k k'); [reflexivity |]. exact IH.
Qed.

Lemma lookup_None_in_keys (k : string) (d : Query) :
  ViewsAuth.lookup k d = None ->
  existsb (String.eqb k) (map fst d) = false.
Proof.
  induction d as [|[k' v'] d IH]; [reflexivity |].
  cbn [ViewsAuth.lookup map fst existsb].
  destruct (String.eqb k k'); [discriminate |]. exact IH.
Qed.

(** In [dict(d, **kw)] the keywords win. *)
Lemma lookup_dict_with (k : string) (kw d : Query) :
  ViewsAuth.lookup k (dict_with kw d)
  = match ViewsAuth.lookup k kw with
    | Some v => Some v
    | None => ViewsAuth.lookup k d
    end.
Proof.
  unfold dict_with. rewrite lookup_app.
  assert (Hd : ViewsAuth.lookup k
                 (List.filter
                    (fun kv => negb (existsb (String.eqb (fst kv)) (map fst kw)))
                    d)
               = if existsb (String.eqb k) (map fst kw) then None
                 else ViewsAuth.lookup k d).
  { induction d as [|[k' v] d IH].
    - cbn. destruct (existsb _ _); reflexivity.
    - cbn [List.filter fst ViewsAuth.lookup].
      destruct (String.eqb k k') eqn:Hk.
      + apply String.eqb_eq in Hk. subst k'.
        destruct (existsb (String.eqb k) (map fst kw)) eqn:Hin; cbn [negb].
        * rewrite IH. reflexivity.
        * cbn [ViewsAuth.lookup]. rewrite String.eqb_refl. reflexivity.
      + destruct (existsb (String.eqb k') (map fst kw)); cbn [negb].
        * exact IH.
        * cbn [ViewsAuth.lookup]. rewrite Hk. exact IH. }
  rewrite Hd.
  destruct (ViewsAuth.lookup k kw) as [v|] eqn:Hkw.
  - rewrite (lookup_Some_in_keys _ _ _ Hkw). reflexivity.
  - rewrite (lookup_None_in_keys _ _ Hkw).
    destruct (ViewsAuth.lookup k d); reflexivity.
Qed.

(** What the view forwards of the query: everything but [_], each key
    with its first value. *)
Lemma extras_lookup (k : string) (d : Query) :
  ViewsAuth.lookup k (pop "_" (to_dict d))
  = if String.eqb k "_" then None else ViewsAuth.lookup k d.
Proof.
  unfold pop. destruct (String.eqb k "_") eqn:Hk.
  - apply String.eqb_eq in Hk. subst k. apply lookup_without_key_same.
  - rewrite lookup_without_key_other; [apply lookup_to_dict |].
    intros ->. discriminate Hk.
Qed.

(** X17. The view creates and touches the file node only after its
    checks of the path and the add-on: when they pass, its first two
    calls are [get_or_create] and [touch] with the forwarded query; when
    they do not, it makes no call, leaves the share UUIDs alone and
    raises 401 for a storage add-on without authorization and 400 in
    every other case.  The forwarded query is the request's without [_],
    each key with its first value. *)
Theorem file_is_touched_only_after_the_checks (env : Env)
    (request : Request) (auth : option User) (path provider : string)
    (node : Node) (uuids : gmap string string) :
  let o := addon_view_or_download_file env request auth path provider node
             uuids in
  let extras := pop "_" (to_dict (request_args request)) in
  (checks_pass env path provider node = true ->
   exists rest,
     made o = get_or_create_call provider node path
              :: touch_call (get_or_create env provider node path) extras
              :: rest)
  /\ (checks_pass env path provider node = false ->
      made o = [] /\ share_uuids o = uuids
      /\ answer o
         = raise (HTTPError
                    (match get_addon node provider with
                     | Some node_addon =>
                         if negb (String.eqb path "")
                            && is_storage env node_addon
                            && negb (has_auth env node_addon)
                         then UNAUTHORIZED else BAD_REQUEST
                     | None => BAD_REQUEST
                     end)))
  /\ (forall k, ViewsAuth.lookup k extras
                = if String.eqb k "_" then None
                  else ViewsAuth.lookup k (request_args request)).
Proof.
  cbv zeta. split; [| split].
  - unfold checks_pass, addon_view_or_download_file. intros H.
    destruct (String.eqb path ""); [discriminate H |].
    destruct (get_addon node provider) as [a|]; [| discriminate H].
    destruct (is_storage env a); [| discriminate H].
    destruct (has_auth env a); [| discriminate H].
    destruct (complete env a); [| discriminate H].
    cbn [negb].
    destruct (touch _ _); [eexists; reflexivity | |];
      destruct (String.eqb (request_method request) "HEAD");
      try (eexists; reflexivity);
      destruct (String.eqb _ "download");
      try (eexists; reflexivity);
      destruct (1 <? _)%nat; eexists; reflexivity.
  - unfold checks_pass, addon_view_or_download_file, refuse. intros H.
    destruct (String.eqb path ""); [repeat split; destruct (get_addon _ _); reflexivity |].
    destruct (get_addon node provider) as [a|]; [| repeat split; reflexivity].
    destruct (is_storage env a); [| repeat split; reflexivity].
    destruct (has_auth env a); [| repeat split; reflexivity].
    destruct (complete env a); [discriminate H |]. repeat split; reflexivity.
  - intros k. apply extras_lookup.
Qed.

(** A view through an add-on that has lost its authorization and its
    configuration *)
Lemma file_is_touched_only_after_the_checks_witness :
  let o := addon_view_or_download_file FileFixtures.unauthorized_env
             FileFixtures.view_request (Some Fixtures.cat) "f1" "osfstorage"
             Fixtures.private_project FileFixtures.no_uuids in
  made o = [] /\ share_uuids o = FileFixtures.no_uuids
  /\ answer o = raise (HTTPError UNAUTHORIZED).
Proof.
  refine (proj1 (proj2 (file_is_touched_only_after_the_checks
                          FileFixtures.unauthorized_env
                          FileFixtures.view_request (Some Fixtures.cat) "f1"
                          "osfstorage" Fixtures.private_project
                          FileFixtures.no_uuids)) _).
  reflexivity.
Defined.

(** X18. A [HEAD] request or a download, once the checks pass and the
    file has a version, is answered with the file's download URL, as
    the [Location] of an empty 200 for [HEAD] and as a redirect
    otherwise; [HEAD] wins over the action.  The URL is generated from
    the forwarded query with [accept_url] set to [false] whatever the
    request said, nothing else is called and no share UUID changes. *)
Theorem download_is_answered_with_the_download_url (env : Env)
    (request : Request) (auth : option User) (path provider : string)
    (node : Node) (uuids : gmap string string) :
  let o := addon_view_or_download_file env request auth path provider node
             uuids in
  let extras := pop "_" (to_dict (request_args request)) in
  let file_node := get_or_create env provider node path in
  let kwargs := dict_with [("accept_url", "false")] extras in
  let location := generate_download_url file_node kwargs in
  checks_pass env path provider node = true ->
  touch file_node extras <> no_version ->
  request_method request = "HEAD"
  \/ ViewsAuth.lookup "action" (request_args request) = Some "download" ->
  answer o
  = ok (if String.eqb (request_method request) "HEAD"
        then make_response "" OK [("Location", location)]
        else redirect location FOUND)
  /\ made o = [ get_or_create_call provider node path;
                touch_call file_node extras ]
  /\ share_uuids o = uuids
  /\ (forall k, ViewsAuth.lookup k kwargs
                = if String.eqb k "accept_url" then Some "false"
                  else if String.eqb k "_" then None
                  else ViewsAuth.lookup k (request_args request)).
Proof.
  cbv zeta. intros Hchecks Hversion Hdl.
  assert (Haction : request_method request <> "HEAD" ->
            String.eqb
              (get_default "action" "view"
                 (pop "_" (to_dict (request_args request))))
              "download" = true).
  { intros Hm. destruct Hdl as [Hhead | Hact]; [destruct (Hm Hhead) |].
    unfold get_default. rewrite extras_lookup. cbn [String.eqb Ascii.eqb Bool.eqb].
    rewrite Hact. reflexivity. }
  unfold checks_pass in Hchecks.
  unfold addon_view_or_download_file.
  destruct (String.eqb path ""); [discriminate Hchecks |].
  destruct (get_addon node provider) as [a|]; [| discriminate Hchecks].
  destruct (is_storage env a); [| discriminate Hchecks].
  destruct (has_auth env a); [| discriminate Hchecks].
  destruct (complete env a); [| discriminate Hchecks].
  cbn [negb].
  assert (Hkw : forall k,
            ViewsAuth.lookup k
              (dict_with [("accept_url", "false")]
                 (pop "_" (to_dict (request_args request))))
            = if String.eqb k "accept_url" then Some "false"
              else if String.eqb k "_" then None
              else ViewsAuth.lookup k (request_args request)).
  { intros k. rewrite lookup_dict_with. cbn [ViewsAuth.lookup].
    destruct (String.eqb k "accept_url"); [reflexivity |].
    apply extras_lookup. }
  destruct (touch _ _) eqn:Ht; [destruct (Hversion eq_refl) | |];
    (destruct (String.eqb (request_method request) "HEAD") eqn:Hm;
     [repeat split; first [reflexivity | exact Hkw] |]);
    (rewrite Haction;
     [repeat split; first [reflexivity | exact Hkw]
     | intros Hhead; rewrite Hhead in Hm; discriminate Hm]).
Qed.

Lemma download_is_answered_with_the_download_url_witness :
  answer (addon_view_or_download_file FileFixtures.env
            FileFixtures.download_request (Some Fixtures.cat) "f1"
            "osfstorage" Fixtures.private_project FileFixtures.no_uuids)
  = ok (redirect "https://files.example/f1?accept_url=false" FOUND).
Proof.
  refine (proj1 (download_is_answered_with_the_download_url FileFixtures.env
                   FileFixtures.download_request (Some Fixtures.cat) "f1"
                   "osfstorage" Fixtures.private_project FileFixtures.no_uuids _ _ _)).
  - reflexivity.
  - discriminate.
  - right. reflexivity.
Defined.

Lemma addon_view_file_makes_no_guid (env : Env) (request : Request)
    (auth : option User) (node : Node) (file_node f : FileNode)
    (t : touched) (uuids : gmap string string) :
  ~ In (get_guid_call f)
      (made (addon_view_file env request auth node file_node t uuids)).
Proof.
  unfold addon_view_file. cbn [made].
  destruct (uuids !! file__id file_node); cbn [In].
  - intros [].
  - intros [H | [H | []]]; discriminate H.
Qed.

(** X19. The view asks for the file's GUID, creating it if need be,
    exactly when the checks pass, the file has a version, the request
    is not a [HEAD], its action is not [download] and its path has more
    than one segment; it then redirects to [/<guid>/] with the forwarded
    query and changes no share UUID. *)
Theorem guid_is_made_for_a_view_by_a_long_path (env : Env)
    (request : Request) (auth : option User) (path provider : string)
    (node : Node) (uuids : gmap string string) :
  let o := addon_view_or_download_file env request auth path provider node
             uuids in
  let extras := pop "_" (to_dict (request_args request)) in
  let file_node := get_or_create env provider node path in
  let by_long_path :=
    checks_pass env path provider node = true
    /\ touch file_node extras <> no_version
    /\ request_method request <> "HEAD"
    /\ ViewsAuth.lookup "action" (request_args request) <> Some "download"
    /\ (1 < length (Py.split "/" (strip "/" (request_path request))))%nat in
  (forall f, In (get_guid_call f) (made o) <-> f = file_node /\ by_long_path)
  /\ (by_long_path ->
      answer o
      = ok (redirect
              (furl_set env
                 ("/" +:+ ViewsAuth.guid__id (get_guid file_node) +:+ "/")
                 None extras)
              FOUND)
      /\ share_uuids o = uuids).
Proof.
  cbv zeta.
  assert (Haction :
            String.eqb
              (get_default "action" "view"
                 (pop "_" (to_dict (request_args request))))
              "download" = true
            <-> ViewsAuth.lookup "action" (request_args request)
                = Some "download").
  { unfold get_default. rewrite extras_lookup.
    cbn [String.eqb Ascii.eqb Bool.eqb].
    destruct (ViewsAuth.lookup "action" (request_args request)) as [a|].
    - rewrite String.eqb_eq. split; [intros ->; reflexivity |].
      intros H. injection H as ->. reflexivity.
    - split; discriminate. }
  unfold checks_pass, addon_view_or_download_file, refuse.
  destruct (String.eqb path "");
    [split; [intros f; split; [intros [] | intros (_ & H & _); discriminate H]
            | intros (H & _); discriminate H] |].
  destruct (get_addon node provider) as [a|];
    [| split; [intros f; split; [intros [] | intros (_ & H & _); discriminate H]
              | intros (H & _); discriminate H]].
  destruct (is_storage env a);
    [| split; [intros f; split; [intros [] | intros (_ & H & _); discriminate H]
              | intros (H & _); discriminate H]].
  destruct (has_auth env a);
    [| split; [intros f; split; [intros [] | intros (_ & H & _); discriminate H]
              | intros (H & _); discriminate H]].
  destruct (complete env a);
    [| split; [intros f; split; [intros [] | intros (_ & H & _); discriminate H]
              | intros (H & _); discriminate H]].
  cbn [negb andb].
  set (file_node := get_or_create env provider node path).
  set (extras := pop "_" (to_dict (request_args request))) in *.
  assert (Hno : forall f : FileNode,
            ~ In (get_guid_call f)
                [ get_or_create_call provider node path;
                  touch_call file_node extras ]).
  { intros f [H | [H | []]]; discriminate H. }
  destruct (touch file_node extras) as [|v|v err] eqn:Ht.
  - split.
    + intros f. split; [intros H; destruct (Hno f H) |].
      intros (_ & _ & H & _). destruct (H eq_refl).
    + intros (_ & H & _). destruct (H eq_refl).
  - destruct (String.eqb (request_method request) "HEAD") eqn:Hm.
    { apply String.eqb_eq in Hm. split.
      - intros f. split; [intros H; destruct (Hno f H) |].
        intros (_ & _ & _ & H & _). destruct (H Hm).
      - intros (_ & _ & H & _). destruct (H Hm). }
    destruct (String.eqb (get_default "action" "view" extras) "download")
      eqn:Hd.
    { pose proof (proj1 Haction eq_refl) as Hd'. split.
      - intros f. split; [intros H; destruct (Hno f H) |].
        intros (_ & _ & _ & _ & H & _). destruct (H Hd').
      - intros (_ & _ & _ & H & _). destruct (H Hd'). }
    destruct (1 <? length (Py.split "/" (strip "/" (request_path request))))%nat
      eqn:Hlen.
    + apply Nat.ltb_lt in Hlen. cbn [made answer share_uuids]. split.
      * intros f. split.
        -- intros H. apply in_app_or in H. destruct H as [H | H];
             [destruct (Hno f H) |].
           destruct H as [H | []]. injection H as <-.
           split; [reflexivity |]. split; [reflexivity |].
           split; [discriminate |].
           split; [intros Hh; rewrite Hh in Hm; discriminate Hm |].
           split; [| exact Hlen].
           intros Hact. apply Haction in Hact. discriminate Hact.
        -- intros (-> & _). apply in_or_app. right. left. reflexivity.
      * intros _. split; reflexivity.
    + apply Nat.ltb_ge in Hlen. cbn [made answer share_uuids]. split.
      * intros f. split.
        -- intros H. apply in_app_or in H. destruct H as [H | H];
             [destruct (Hno f H) |].
           destruct (addon_view_file_makes_no_guid _ _ _ _ _ _ _ _ H).
        -- intros (_ & _ & _ & _ & _ & H). lia.
      * intros (_ & _ & _ & _ & H). lia.
  - destruct (String.eqb (request_method request) "HEAD") eqn:Hm.
    { apply String.eqb_eq in Hm. split.
      - intros f. split; [intros H; destruct (Hno f H) |].
        intros (_ & _ & _ & H & _). destruct (H Hm).
      - intros (_ & _ & H & _). destruct (H Hm). }
    destruct (String.eqb (get_default "action" "view" extras) "download")
      eqn:Hd.
    { pose proof (proj1 Haction eq_refl) as Hd'. split.
      - intros f. split; [intros H; destruct (Hno f H) |].
        intros (_ & _ & _ & _ & H & _). destruct (H Hd').
      - intros (_ & _ & _ & H & _). destruct (H Hd'). }
    destruct (1 <? length (Py.split "/" (strip "/" (request_path request))))%nat
      eqn:Hlen.
    + apply Nat.ltb_lt in Hlen. cbn [made answer share_uuids]. split.
      * intros f. split.
        -- intros H. apply in_app_or in H. destruct H as [H | H];
             [destruct (Hno f H) |].
           destruct H as [H | []]. injection H as <-.
           split; [reflexivity |]. split; [reflexivity |].
           split; [discriminate |].
           split; [intros Hh; rewrite Hh in Hm; discriminate Hm |].
           split; [| exact Hlen].
           intros Hact. apply Haction in Hact. discriminate Hact.
        -- intros (-> & _). apply in_or_app. right. left. reflexivity.
      * intros _. split; reflexivity.
    + apply Nat.ltb_ge in Hlen. cbn [made answer share_uuids]. split.
      * intros f. split.
        -- intros H. apply in_app_or in H. destruct H as [H | H];
             [destruct (Hno f H) |].
           destruct (addon_view_file_makes_no_guid _ _ _ _ _ _ _ _ H).
        -- intros (_ & _ & _ & _ & _ & H). lia.
      * intros (_ & _ & _ & _ & H). lia.
Qed.

Lemma guid_is_made_for_a_view_by_a_long_path_witness :
  let o := addon_view_or_download_file FileFixtures.env
             FileFixtures.view_request (Some Fixtures.cat) "f1" "osfstorage"
             Fixtures.private_project FileFixtures.no_uuids in
  answer o = ok (redirect "/g1/" FOUND) /\ share_uuids o = FileFixtures.no_uuids.
Proof.
  refine (proj2 (guid_is_made_for_a_view_by_a_long_path FileFixtures.env
                   FileFixtures.view_request (Some Fixtures.cat) "f1"
                   "osfstorage" Fixtures.private_project FileFixtures.no_uuids) _).
  split; [reflexivity |]. split; [discriminate |]. split; [discriminate |].
  split; [discriminate |]. vm_compute. lia.
Defined.

Lemma dict_get_update_absent (k : string) (other d : list (string * json)) :
  dict_get k other = None ->
  dict_get k (dict_update other d) = dict_get k d.
Proof.
  unfold dict_update. revert d.
  induction other as [|[k' v] other IH]; intros d H; [reflexivity |].
  cbn [dict_get] in H. cbn [fold_left fst snd].
  destruct (String.eqb k k') eqn:Hk; [discriminate H |].
  rewrite (IH _ H). apply dict_get_set_other. exact Hk.
Qed.

(** X20. Viewing a file gives it a share UUID once: a file that has
    none gets a fresh one, which is saved, and a file that has one
    keeps it and nothing is saved; no other file's UUID changes, and a
    second view changes nothing more.  This happens whether or not the
    view then returns and whether or not the visitor may edit; the
    answer names the UUID only to a visitor who may edit, unless the
    add-on assets overwrite the key. *)
Theorem share_uuid_is_allocated_once (env : Env) (request : Request)
    (auth : option User) (node : Node) (file_node : FileNode) (t : touched)
    (uuids : gmap string string) :
  let o := addon_view_file env request auth node file_node t uuids in
  let uuid := default (uuid4 env) (uuids !! file__id file_node) in
  share_uuids o !! file__id file_node = Some uuid
  /\ (forall k, k <> file__id file_node -> share_uuids o !! k = uuids !! k)
  /\ made o = match uuids !! file__id file_node with
              | Some _ => []
              | None => [uuid4_call; save_call node]
              end
  /\ (let again := addon_view_file env request auth node file_node t
                     (share_uuids o) in
      made again = [] /\ share_uuids again = share_uuids o
      /\ answer again = answer o)
  /\ (forall ret,
        answer o = ok ret ->
        dict_get "sharejs_uuid" (collect_addon_assets env node) = None ->
        exists user can_edit,
          dict_get "user" (serialize_node env node auth) = Some user
          /\ getitem user "can_edit" = ok can_edit
          /\ dict_get "sharejs_uuid" ret
             = Some (if truthy can_edit then JStr uuid else JNull)).
Proof.
  cbv zeta.
  assert (Hlook : share_uuids
                    (addon_view_file env request auth node file_node t uuids)
                  !! file__id file_node
                  = Some (default (uuid4 env) (uuids !! file__id file_node))).
  { unfold addon_view_file. cbn [share_uuids].
    destruct (uuids !! file__id file_node) as [u|] eqn:Hu; cbn [default].
    - exact Hu.
    - apply lookup_insert_eq. }
  split; [exact Hlook |]. split; [| split; [| split]].
  - intros k Hk. unfold addon_view_file. cbn [share_uuids].
    destruct (uuids !! file__id file_node); [reflexivity |].
    apply lookup_insert_ne. congruence.
  - unfold addon_view_file. cbn [made].
    destruct (uuids !! file__id file_node); reflexivity.
  - destruct (uuids !! file__id file_node) as [u|] eqn:Hu.
    + assert (Ho : share_uuids
                     (addon_view_file env request auth node file_node t uuids)
                   = uuids).
      { unfold addon_view_file. cbn [share_uuids]. rewrite Hu. reflexivity. }
      rewrite Ho. split; [| split; [exact Ho | reflexivity]].
      unfold addon_view_file. cbn [made]. rewrite Hu. reflexivity.
    + assert (Ho : share_uuids
                     (addon_view_file env request auth node file_node t uuids)
                   = <[file__id file_node := uuid4 env]> uuids).
      { unfold addon_view_file. cbn [share_uuids]. rewrite Hu. reflexivity. }
      rewrite Ho. unfold addon_view_file. cbn [made share_uuids answer].
      rewrite Hu, !lookup_insert_eq. split; [reflexivity |].
      split; reflexivity.
  - intros ret H Hassets.
    unfold addon_view_file in H, Hlook. cbn [answer share_uuids] in H, Hlook.
    rewrite Hlook in H.
    unfold getitem at 1 in H.
    destruct (dict_get "user" (serialize_node env node auth)) as [user|];
      [| discriminate H].
    cbn [rbind ok] in H.
    destruct (getitem user "can_edit") as [e|can_edit] eqn:Hce;
      cbn [rbind] in H; [discriminate H |].
    exists user, can_edit. split; [reflexivity |]. split; [exact Hce |].
    assert (Hsh : exists sharejs_uuid,
              (if truthy can_edit
               then ok (JStr (default (uuid4 env)
                                (uuids !! file__id file_node)))
               else ok JNull) = ok sharejs_uuid
              /\ sharejs_uuid
                 = (if truthy can_edit
                    then JStr (default (uuid4 env)
                                 (uuids !! file__id file_node))
                    else JNull)).
    { destruct (truthy can_edit); eexists; split; reflexivity. }
    destruct Hsh as (sharejs_uuid & Hsh & Hval). rewrite <- Hval.
    rewrite Hsh in H. cbn [rbind ok] in H.
    destruct t as [|v|v err]; cbn [attr_of rbind ok] in H;
      [discriminate H | |];
      unfold ok in H; injection H as <-;
      rewrite (dict_get_update_absent _ _ _ Hassets);
      unfold dict_update; cbn [fold_left fst snd];
      repeat (rewrite dict_get_set_other by reflexivity);
      rewrite dict_get_set, String.eqb_refl; reflexivity.
Qed.

Lemma share_uuid_is_allocated_once_witness :
  let o := addon_view_file FileFixtures.env FileFixtures.guid_request
             (Some Fixtures.cat) Fixtures.private_project
             FileFixtures.place_txt
             (FileViews.version FileFixtures.first_version)
             FileFixtures.no_uuids in
  exists ret,
    answer o = ok ret
    /\ dict_get "sharejs_uuid" ret = Some JNull
    /\ share_uuids o !! "f1" = Some (uuid4 FileFixtures.env).
Proof.
  cbv zeta.
  pose proof (share_uuid_is_allocated_once FileFixtures.env
                FileFixtures.guid_request (Some Fixtures.cat)
                Fixtures.private_project FileFixtures.place_txt
                (FileViews.version FileFixtures.first_version)
                FileFixtures.no_uuids) as H.
  cbv zeta in H. destruct H as (Hlook & _ & _ & _ & Hret).
  destruct (answer _) as [e|ret] eqn:Hans in Hret |- *;
    [vm_compute in Hans; discriminate Hans |].
  exists ret. split; [reflexivity |].
  destruct (Hret ret eq_refl eq_refl) as (user & can_edit & Hu & Hce & Hs).
  injection Hu as <-. injection Hce as <-.
  split; [exact Hs | exact Hlook].
Defined.

End FileView.

(* ===================================================================== *)
(** * The Dataverse file tree *)
(* ===================================================================== *)

Section DataverseTree.

Import Dataverse.

(** Resolving a resolved state changes nothing. *)
Lemma resolve_state_idempotent (node : Node) (auth : option User)
    (state : option string) :
  resolve_state node auth (Some (resolve_state node auth state))
  = resolve_state node auth state.
Proof.
  unfold resolve_state. destruct (can_edit node auth); [| reflexivity].
  destruct state as [s|]; [| reflexivity].
  destruct (String.eqb s "") eqn:Hs; [reflexivity |]. rewrite Hs. reflexivity.
Qed.

(** X21. [dataverse_root_folder_public] resolves the state before it
    calls [dataverse_hgrid_root], which resolves it again; the second
    resolution changes nothing, so for the settings of the node's own
    add-on the view answers what [dataverse_hgrid_root] answers for the
    state as requested. *)
Theorem root_folder_public_is_the_hgrid_root (env : Env) (node : Node)
    (node_settings : NodeSettings) (auth : option User)
    (state : option string) :
  owner node_settings = node ->
  dataverse_root_folder_public env node node_settings auth state
  = dataverse_hgrid_root env node_settings auth state.
Proof.
  intros <-. unfold dataverse_root_folder_public, dataverse_hgrid_root.
  cbv zeta. rewrite resolve_state_idempotent. reflexivity.
Qed.

Lemma root_folder_public_is_the_hgrid_root_witness :
  dataverse_root_folder_public DataverseFixtures.env DataverseFixtures.node
    DataverseFixtures.node_settings (Some Fixtures.cat) None
  = dataverse_hgrid_root DataverseFixtures.env
      DataverseFixtures.node_settings (Some Fixtures.cat) None.
Proof.
  apply (root_folder_public_is_the_hgrid_root DataverseFixtures.env
           DataverseFixtures.node DataverseFixtures.node_settings
           (Some Fixtures.cat) None).
  reflexivity.
Defined.

(** The items of the contents, one by one *)
Lemma contents_item (env : Env) (node : Node) (node_settings : NodeSettings)
    (auth : option User) (state : option string) (item : json) :
  In item (dataverse_hgrid_data_contents env node node_settings auth state) ->
  item_permission "view" item = ok (JBool (can_view node auth))
  /\ item_permission "edit" item
     = ok (JBool (can_edit node auth && negb (is_registration node)
                  && negb (String.eqb (resolve_state node auth state)
                             "released"))).
Proof.
  unfold dataverse_hgrid_data_contents. cbv zeta.
  destruct (study_hdl node_settings) as [hdl|]; [| intros []].
  destruct (connect env _ _) as [c|]; [| intros []].
  intros H. apply in_map_iff in H. destruct H as (f & <- & _).
  unfold item_permission, dict_literal, dict_update.
  cbn [fold_left fst snd].
  rewrite getitem_set_other by reflexivity. rewrite getitem_set_same.
  split; reflexivity.
Qed.

Lemma contents_names (env : Env) (node : Node) (node_settings : NodeSettings)
    (auth : option User) (state : option string) (hdl : string)
    (c : Connection) :
  study_hdl node_settings = Some hdl ->
  connect env (dataverse_username node_settings)
    (dataverse_password node_settings) = Some c ->
  map (fun item => getitem item "name")
    (dataverse_hgrid_data_contents env node node_settings auth state)
  = map (fun f => ok (JStr (name f)))
      (get_files
         (get_study_by_hdl (get_dataverse c (dataverse_alias node_settings))
            hdl)
         (String.eqb (resolve_state node auth state) "released")).
Proof.
  intros Hhdl Hc. unfold dataverse_hgrid_data_contents. cbv zeta.
  rewrite Hhdl, Hc. rewrite map_map. apply map_ext. intros f.
  unfold dict_literal, dict_update. cbn [fold_left fst snd].
  repeat (rewrite getitem_set_other by reflexivity).
  apply getitem_set_same.
Qed.

(** The root, when there is one *)
Lemma hgrid_root_item (env : Env) (node_settings : NodeSettings)
    (auth : option User) (state : option string) (root : AddonRoot) :
  In root (dataverse_hgrid_root env node_settings auth state) ->
  let node := owner node_settings in
  let state := resolve_state node auth state in
  root_permission "edit" root
  = Some (can_edit node auth && negb (is_registration node)
          && String.eqb state "draft")
  /\ root_permission "view" root = Some (can_view node auth)
  /\ ViewsAuth.lookup "fetch" (root_urls root)
     = Some (api_url_for node "dataverse_hgrid_data_contents"
               [("state", state)])
  /\ (can_edit node auth = false ->
      root_extra root = " [" +:+ capitalize env state +:+ "]").
Proof.
  unfold dataverse_hgrid_root. cbv zeta.
  destruct (study_hdl node_settings) as [hdl|]; [| intros []].
  destruct (connect env _ _) as [c|]; [| intros []].
  intros [<- | []]. cbn [root_extra root_urls].
  split; [reflexivity |]. split; [reflexivity |]. split; [reflexivity |].
  intros ->. rewrite andb_false_r. reflexivity.
Qed.

(** X22. A visitor who may not edit the node is shown the released
    state whatever state the request names: the contents are those for
    [released], listing the released files of the study in order, none
    of them editable; and the root of the node's own add-on is not
    editable, fetches the contents for [released] and is labelled
    [[Released]], without the state selector. *)
Theorem without_edit_right_only_released_is_shown (env : Env) (node : Node)
    (node_settings : NodeSettings) (auth : option User)
    (state : option string) :
  can_edit node auth = false ->
  owner node_settings = node ->
  let contents :=
    dataverse_hgrid_data_contents env node node_settings auth state in
  contents
  = dataverse_hgrid_data_contents env node node_settings auth
      (Some "released")
  /\ (forall item, In item contents ->
        item_permission "edit" item = ok (JBool false))
  /\ (forall hdl c,
        study_hdl node_settings = Some hdl ->
        connect env (dataverse_username node_settings)
          (dataverse_password node_settings) = Some c ->
        map (fun item => getitem item "name") contents
        = map (fun f => ok (JStr (name f)))
            (get_files
               (get_study_by_hdl
                  (get_dataverse c (dataverse_alias node_settings)) hdl)
               true))
  /\ (forall root,
        In root (dataverse_hgrid_root env node_settings auth state) ->
        root_permission "edit" root = Some false
        /\ root_extra root = " [Released]"
        /\ ViewsAuth.lookup "fetch" (root_urls root)
           = Some (api_url_for node "dataverse_hgrid_data_contents"
                     [("state", "released")])).
Proof.
  intros Hedit Howner. cbv zeta.
  assert (Hstate : forall s, resolve_state node auth s = "released").
  { intros s. unfold resolve_state. rewrite Hedit. reflexivity. }
  split; [| split; [| split]].
  - unfold dataverse_hgrid_data_contents. cbv zeta.
    rewrite !Hstate. reflexivity.
  - intros item Hin.
    destruct (contents_item _ _ _ _ _ _ Hin) as [_ H].
    rewrite H, Hedit. reflexivity.
  - intros hdl c Hhdl Hc.
    rewrite (contents_names _ _ _ _ _ _ _ Hhdl Hc), Hstate. reflexivity.
  - intros root Hin.
    destruct (hgrid_root_item _ _ _ _ _ Hin) as (He & _ & Hf & Hx).
    cbv zeta in He, Hf, Hx. rewrite Howner in He, Hf, Hx.
    rewrite Hstate in Hf, Hx. rewrite Hedit in He.
    split; [exact He |]. split; [exact (Hx Hedit) | exact Hf].
Qed.

Lemma without_edit_right_only_released_is_shown_witness :
  map (fun item => getitem item "name")
    (dataverse_hgrid_data_contents DataverseFixtures.env
       DataverseFixtures.node DataverseFixtures.node_settings None
       (Some "draft"))
  = [ok (JStr "data.csv")].
Proof.
  destruct (without_edit_right_only_released_is_shown DataverseFixtures.env
              DataverseFixtures.node DataverseFixtures.node_settings None
              (Some "draft") eq_refl eq_refl)
    as (_ & _ & H & _).
  exact (H _ _ eq_refl eq_refl).
Defined.

(** X23. The edit right of the root and of the items: on a
    registration neither is editable; when the root is editable so is
    every item; an item can be editable under a root that is not only
    when an editor names a state that is neither [draft] nor
    [released]. *)
Theorem edit_right_of_root_and_items (env : Env)
    (node_settings : NodeSettings) (auth : option User)
    (state : option string) (root : AddonRoot) (item : json) :
  In root (dataverse_hgrid_root env node_settings auth state) ->
  In item (dataverse_hgrid_data_contents env (owner node_settings)
             node_settings auth state) ->
  (is_registration (owner node_settings) = true ->
   root_permission "edit" root = Some false
   /\ item_permission "edit" item = ok (JBool false))
  /\ (root_permission "edit" root = Some true ->
      item_permission "edit" item = ok (JBool true))
  /\ (item_permission "edit" item = ok (JBool true) ->
      root_permission "edit" root = Some false ->
      can_edit (owner node_settings) auth = true
      /\ exists s, state = Some s /\ s <> "" /\ s <> "draft"
                   /\ s <> "released").
Proof.
  intros Hroot Hitem.
  destruct (hgrid_root_item _ _ _ _ _ Hroot) as (Hr & _).
  destruct (contents_item _ _ _ _ _ _ Hitem) as (_ & Hi).
  cbv zeta in Hr. rewrite Hr, Hi. clear Hr Hi Hroot Hitem.
  unfold resolve_state.
  destruct (can_edit (owner node_settings) auth);
    destruct (is_registration (owner node_settings)); cbn [andb negb].
  - split; [intros _; split; reflexivity |]. split; [discriminate |].
    intros H. discriminate H.
  - destruct state as [s|].
    + destruct (String.eqb s "") eqn:Hempty.
      * cbn. split; [discriminate |]. split; [reflexivity |].
        intros _ H. discriminate H.
      * destruct (String.eqb s "draft") eqn:Hdraft.
        -- apply String.eqb_eq in Hdraft. subst s. cbn.
           split; [discriminate |]. split; [reflexivity |].
           intros _ H. discriminate H.
        -- destruct (String.eqb s "released") eqn:Hrel; cbn [negb].
           ++ split; [discriminate |]. split; [discriminate |].
              intros H. discriminate H.
           ++ split; [discriminate |]. split; [reflexivity |].
              intros _ _. split; [reflexivity |]. exists s.
              split; [reflexivity |].
              split; [intros ->; discriminate Hempty |].
              split; [intros ->; discriminate Hdraft |].
              intros ->. discriminate Hrel.
    + cbn. split; [discriminate |]. split; [reflexivity |].
      intros _ H. discriminate H.
  - split; [intros _; split; reflexivity |]. split; [discriminate |].
    intros H. discriminate H.
  - split; [discriminate |]. split; [discriminate |].
    intros H. discriminate H.
Qed.

Lemma edit_right_of_root_and_items_witness :
  item_permission "edit"
    (hd JNull
       (dataverse_hgrid_data_contents DataverseFixtures.env
          DataverseFixtures.node DataverseFixtures.node_settings
          (Some Fixtures.cat) None))
  = ok (JBool true).
Proof.
  destruct (dataverse_hgrid_root DataverseFixtures.env
              DataverseFixtures.node_settings (Some Fixtures.cat) None)
    as [|root rest] eqn:Hroot; [discriminate Hroot |].
  refine (proj1 (proj2 (edit_right_of_root_and_items DataverseFixtures.env
                          DataverseFixtures.node_settings (Some Fixtures.cat)
                          None root _ _ _)) _).
  - rewrite Hroot. left. reflexivity.
  - left. reflexivity.
  - injection Hroot as <- _. reflexivity.
Defined.

(** An editor who asks for a state the study does not have gets
    editable items, taken from the draft, under a root that is not
    editable. *)
Example unknown_state_splits_root_and_items :
  map (root_permission "edit")
    (dataverse_hgrid_root DataverseFixtures.env
       DataverseFixtures.node_settings (Some Fixtures.cat)
       (Some "archived"))
  = [Some false]
  /\ map (item_permission "edit")
       (dataverse_hgrid_data_contents DataverseFixtures.env
          DataverseFixtures.node DataverseFixtures.node_settings
          (Some Fixtures.cat) (Some "archived"))
     = [ok (JBool true); ok (JBool true)].
Proof. split; reflexivity. Qed.

End DataverseTree.

(* ===================================================================== *)
(** * The legacy file URLs *)
(* ===================================================================== *)

Section LegacyLinks.

Import FileViews LegacyView.

Lemma lookup_None_not_in (k : string) (d : Query) :
  ViewsAuth.lookup k d = None <-> ~ In k (map fst d).
Proof.
  induction d as [|[k' v] d IH]; cbn [ViewsAuth.lookup map fst In].
  - split; [intros _ [] | reflexivity].
  - destruct (String.eqb k k') eqn:Hk.
    + apply String.eqb_eq in Hk. subst k'. split; [discriminate |].
      intros H. destruct H. left. reflexivity.
    + rewrite IH. split.
      * intros H [-> | Hin]; [| exact (H Hin)].
        rewrite String.eqb_refl in Hk. discriminate Hk.
      * intros H Hin. apply H. right. exact Hin.
Qed.

Lemma keys_filter_NoDup (p : string * string -> bool) (d : Query) :
  List.NoDup (map fst d) -> List.NoDup (map fst (List.filter p d)).
Proof.
  induction d as [|[k v] d IH]; cbn [List.filter map fst]; [trivial |].
  intros H. apply List.NoDup_cons_iff in H. destruct H as [Hk Hd].
  destruct (p (k, v)); cbn [map fst]; [| exact (IH Hd)].
  apply List.NoDup_cons_iff. split; [| exact (IH Hd)].
  intros Hin. apply Hk. apply in_map_iff in Hin.
  destruct Hin as (kv & Hfst & Hin). apply filter_In in Hin.
  apply in_map_iff. exists kv. split; [exact Hfst | exact (proj1 Hin)].
Qed.

(** [to_dict] leaves no key twice. *)
Lemma keys_to_dict_NoDup (d : Query) : List.NoDup (map fst (to_dict d)).
Proof.
  induction d as [|[k v] d IH]; cbn [to_dict map fst]; [constructor |].
  apply List.NoDup_cons_iff. split.
  - apply lookup_None_not_in. apply lookup_without_key_same.
  - apply keys_filter_NoDup. exact IH.
Qed.

Lemma keys_dict_with_NoDup (k v : string) (d : Query) :
  List.NoDup (map fst d) -> List.NoDup (map fst (dict_with [(k, v)] d)).
Proof.
  intros H. unfold dict_with. rewrite map_app. cbn [map fst].
  apply List.NoDup_app;
    [apply keys_filter_NoDup; exact H
    | apply List.NoDup_cons; [intros [] | constructor] |].
  intros k' Hin [<- | []].
  apply in_map_iff in Hin. destruct Hin as ([k0 v0] & Hfst & Hin).
  cbn [fst] in Hfst. subst k0. apply filter_In in Hin.
  destruct Hin as [_ Hp]. cbn [fst map existsb] in Hp.
  rewrite String.eqb_refl in Hp. discriminate Hp.
Qed.

Lemma dict_get_of_query (k : string) (d : Query) :
  dict_get k (map (fun kv => (fst kv, JStr (snd kv))) d)
  = option_map JStr (ViewsAuth.lookup k d).
Proof.
  induction d as [|[k' v] d IH]; [reflexivity |].
  cbn [map fst snd dict_get ViewsAuth.lookup].
  destruct (String.eqb k k'); [reflexivity | exact IH].
Qed.

(** The query the legacy view passes on, key by key *)
Lemma legacy_query_lookup (k : string) (args : Query) (vid : option string) :
  ViewsAuth.lookup k
    (match vid with
     | Some vid =>
         if String.eqb vid "" then pop "action" (to_dict args)
         else dict_with [("version", vid)] (pop "action" (to_dict args))
     | None => pop "action" (to_dict args)
     end)
  = if String.eqb k "version" && given vid then vid
    else if String.eqb k "action" then None
    else ViewsAuth.lookup k args.
Proof.
  assert (Hpop : ViewsAuth.lookup k (pop "action" (to_dict args))
                 = if String.eqb k "action" then None
                   else ViewsAuth.lookup k args).
  { unfold pop. destruct (String.eqb k "action") eqn:Hk.
    - apply String.eqb_eq in Hk. subst k. apply lookup_without_key_same.
    - rewrite lookup_without_key_other; [apply lookup_to_dict |].
      intros ->. discriminate Hk. }
  destruct vid as [vid|]; cbn [given]; [| rewrite andb_false_r; exact Hpop].
  destruct (String.eqb vid "") eqn:Hv; cbn [negb];
    [rewrite andb_false_r; exact Hpop |].
  rewrite andb_true_r, lookup_dict_with. cbn [ViewsAuth.lookup].
  destruct (String.eqb k "version"); [reflexivity | exact Hpop].
Qed.

Lemma legacy_query_NoDup (args : Query) (vid : option string) :
  List.NoDup
    (map fst
       (match vid with
        | Some vid =>
            if String.eqb vid "" then pop "action" (to_dict args)
            else dict_with [("version", vid)] (pop "action" (to_dict args))
        | None => pop "action" (to_dict args)
        end)).
Proof.
  assert (Hpop : List.NoDup (map fst (pop "action" (to_dict args)))).
  { apply keys_filter_NoDup. apply keys_to_dict_NoDup. }
  destruct vid as [vid|]; [| exact Hpop].
  destruct (String.eqb vid ""); [exact Hpop |].
  apply keys_dict_with_NoDup. exact Hpop.
Qed.

(** X24. Whatever the legacy view returns is a permanent redirect to
    the file view.  Its keyword arguments name no key twice; the action
    is [download] whenever the request path holds [download] or starts
    with [/api/v1/], whatever the query asks for, and otherwise the
    query's action or [view]; the provider defaults to [osfstorage],
    for which the path is the id of the child with the requested name
    and not the name; the version is the route's, if it gives one, and
    every other key is the query's, with its first value. *)
Theorem legacy_link_redirects_permanently (find_child_by_name : Children)
    (request : Request) (kwargs : Kwargs) (node : Node) (r : Response) :
  addon_view_or_download_file_legacy find_child_by_name request kwargs node
  = inr r ->
  let provider := default "osfstorage" (kwargs_provider kwargs) in
  exists kw name path,
    r = redirect (web_url_for node "addon_view_or_download_file" kw)
          MOVED_PERMANENTLY
    /\ List.NoDup (map fst kw)
    /\ dict_get "action" kw
       = Some (JStr (if is_substring "download" (request_path request)
                        || startswith "/api/v1/" (request_path request)
                     then "download"
                     else get_default "action" "view" (request_args request)))
    /\ dict_get "provider" kw = Some (JStr provider)
    /\ (if given (kwargs_path kwargs) then kwargs_path kwargs
        else kwargs_fid kwargs) = Some name
    /\ name <> ""
    /\ dict_get "path" kw = Some (JStr path)
    /\ (if String.eqb provider "osfstorage"
        then exists node_settings,
               get_addon node "osfstorage" = Some node_settings
               /\ find_child_by_name node_settings name = Some path
        else path = name)
    /\ (forall k, k <> "path" -> k <> "provider" -> k <> "action" ->
                  dict_get k kw
                  = option_map JStr
                      (if String.eqb k "version" && given (kwargs_vid kwargs)
                       then kwargs_vid kwargs
                       else ViewsAuth.lookup k (request_args request))).
Proof.
  unfold addon_view_or_download_file_legacy. cbv zeta.
  set (qp := match kwargs_vid kwargs with
             | Some vid =>
                 if String.eqb vid ""
                 then pop "action" (to_dict (request_args request))
                 else dict_with [("version", vid)]
                        (pop "action" (to_dict (request_args request)))
             | None => pop "action" (to_dict (request_args request))
             end).
  assert (Hqp : forall k,
            ViewsAuth.lookup k qp
            = if String.eqb k "version" && given (kwargs_vid kwargs)
              then kwargs_vid kwargs
              else if String.eqb k "action" then None
              else ViewsAuth.lookup k (request_args request))
    by (intros k; apply legacy_query_lookup).
  assert (Hnodup : List.NoDup (map fst qp)) by apply legacy_query_NoDup.
  assert (Hname : forall name,
            (if given (kwargs_path kwargs) then kwargs_path kwargs
             else if given (kwargs_fid kwargs) then kwargs_fid kwargs
             else None) = Some name ->
            (if given (kwargs_path kwargs) then kwargs_path kwargs
             else kwargs_fid kwargs) = Some name /\ name <> "").
  { intros name. destruct (given (kwargs_path kwargs)) eqn:Hp.
    - intros H. split; [exact H |]. rewrite H in Hp. cbn [given] in Hp.
      intros ->. discriminate Hp.
    - destruct (given (kwargs_fid kwargs)) eqn:Hf; [| discriminate].
      intros H. split; [exact H |]. rewrite H in Hf. cbn [given] in Hf.
      intros ->. discriminate Hf. }
  assert (Hget : get_default "action" "view"
                   (to_dict (request_args request))
                 = get_default "action" "view" (request_args request)).
  { unfold get_default. rewrite lookup_to_dict. reflexivity. }
  rewrite Hget.
  set (provider := match kwargs_provider kwargs with
                   | Some p => p
                   | None => "osfstorage"
                   end).
  assert (Hprov : default "osfstorage" (kwargs_provider kwargs) = provider).
  { unfold provider. destruct (kwargs_provider kwargs); reflexivity. }
  rewrite Hprov.
  assert (Hfinish : forall name path,
    (if given (kwargs_path kwargs) then kwargs_path kwargs
     else kwargs_fid kwargs) = Some name ->
    name <> "" ->
    (if String.eqb provider "osfstorage"
     then exists node_settings,
            get_addon node "osfstorage" = Some node_settings
            /\ find_child_by_name node_settings name = Some path
     else path = name) ->
    (if has_key "path" qp || has_key "provider" qp
     then inl (Raised TypeError)
     else inr (redirect
                 (web_url_for node "addon_view_or_download_file"
                    ([ ("path", JStr path); ("provider", JStr provider);
                       ("action",
                        JStr (if is_substring "download" (request_path request)
                                 || startswith "/api/v1/" (request_path request)
                              then "download"
                              else get_default "action" "view"
                                     (request_args request))) ]
                     ++ map (fun kv => (fst kv, JStr (snd kv))) qp)%list)
                 MOVED_PERMANENTLY)) = inr r ->
    exists kw name path,
      r = redirect (web_url_for node "addon_view_or_download_file" kw)
            MOVED_PERMANENTLY
      /\ List.NoDup (map fst kw)
      /\ dict_get "action" kw
         = Some (JStr (if is_substring "download" (request_path request)
                          || startswith "/api/v1/" (request_path request)
                       then "download"
                       else get_default "action" "view"
                              (request_args request)))
      /\ dict_get "provider" kw = Some (JStr provider)
      /\ (if given (kwargs_path kwargs) then kwargs_path kwargs
          else kwargs_fid kwargs) = Some name
      /\ name <> ""
      /\ dict_get "path" kw = Some (JStr path)
      /\ (if String.eqb provider "osfstorage"
          then exists node_settings,
                 get_addon node "osfstorage" = Some node_settings
                 /\ find_child_by_name node_settings name = Some path
          else path = name)
      /\ (forall k, k <> "path" -> k <> "provider" -> k <> "action" ->
                    dict_get k kw
                    = option_map JStr
                        (if String.eqb k "version"
                            && given (kwargs_vid kwargs)
                         then kwargs_vid kwargs
                         else ViewsAuth.lookup k (request_args request)))).
  { intros name path Hn Hne Hpath H.
    unfold has_key in H.
    destruct (ViewsAuth.lookup "path" qp) eqn:Hlp; [discriminate H |].
    destruct (ViewsAuth.lookup "provider" qp) eqn:Hlv; [discriminate H |].
    cbn [orb] in H. injection H as <-.
    eexists _, name, path. split; [reflexivity |].
    split.
    { cbn [app map fst].
      assert (Hla : ViewsAuth.lookup "action" qp = None).
      { rewrite Hqp. cbn [String.eqb Ascii.eqb Bool.eqb andb]. reflexivity. }
      apply lookup_None_not_in in Hlp, Hlv, Hla.
      rewrite map_map. cbn [fst].
      repeat (apply List.NoDup_cons_iff; split).
      - intros [H | [H | Hin]]; [discriminate H | discriminate H |].
        exact (Hlp Hin).
      - intros [H | Hin]; [discriminate H | exact (Hlv Hin)].
      - exact Hla.
      - exact Hnodup. }
    split; [reflexivity |]. split; [reflexivity |].
    split; [exact Hn |]. split; [exact Hne |]. split; [reflexivity |].
    split; [exact Hpath |].
    intros k Hk1 Hk2 Hk3. cbn [app dict_get].
    apply String.eqb_neq in Hk1, Hk2, Hk3. rewrite Hk1, Hk2, Hk3.
    rewrite dict_get_of_query, Hqp, Hk3. reflexivity. }
  destruct (String.eqb provider "osfstorage") eqn:Hosf.
  - destruct (get_addon node "osfstorage") as [ns|]; [| discriminate].
    destruct (if given (kwargs_path kwargs) then kwargs_path kwargs
              else if given (kwargs_fid kwargs) then kwargs_fid kwargs
              else None) as [name|] eqn:Hp; [| discriminate].
    destruct (Hname name eq_refl) as [Hn Hne].
    destruct (find_child_by_name ns name) as [fid|] eqn:Hchild;
      [| discriminate].
    apply (Hfinish name fid Hn Hne). exists ns. split; [reflexivity | exact Hchild].
  - destruct (if given (kwargs_path kwargs) then kwargs_path kwargs
              else if given (kwargs_fid kwargs) then kwargs_fid kwargs
              else None) as [name|] eqn:Hp; [| discriminate].
    destruct (Hname name eq_refl) as [Hn Hne].
    apply (Hfinish name name Hn Hne). reflexivity.
Qed.

Lemma legacy_link_redirects_permanently_witness :
  exists kw,
    addon_view_or_download_file_legacy LegacyFixtures.children
      LegacyFixtures.api_request LegacyFixtures.api_kwargs
      Fixtures.private_project
    = inr (redirect
             (web_url_for Fixtures.private_project
                "addon_view_or_download_file" kw)
             MOVED_PERMANENTLY)
    /\ dict_get "action" kw = Some (JStr "download")
    /\ dict_get "path" kw = Some (JStr "f1").
Proof.
  destruct (addon_view_or_download_file_legacy LegacyFixtures.children
              LegacyFixtures.api_request LegacyFixtures.api_kwargs
              Fixtures.private_project) as [e|r] eqn:H;
    [vm_compute in H; discriminate H |].
  destruct (legacy_link_redirects_permanently _ _ _ _ _ H)
    as (kw & name & path & -> & _ & Ha & _ & Hn & _ & Hp & Hc & _).
  exists kw. split; [reflexivity |]. split; [exact Ha |].
  rewrite Hp. cbn in Hn. injection Hn as <-.
  cbn in Hc. destruct Hc as (ns & Hns & Hchild).
  injection Hns as <-. cbn in Hchild. injection Hchild as <-. reflexivity.
Defined.

(** X25. When the legacy view raises.  A route that gives neither a
    path nor a file id never leads to a redirect: the view reads [path]
    unassigned, an [UnboundLocalError], unless the node has no
    [osfstorage] add-on to ask first, an [AttributeError].  A query
    that holds [path] or [provider] never leads to a redirect either.
    The only HTTP error is the 404 of an [osfstorage] child that is not
    found. *)
Theorem legacy_link_failures (find_child_by_name : Children)
    (request : Request) (kwargs : Kwargs) (node : Node) :
  let answer :=
    addon_view_or_download_file_legacy find_child_by_name request kwargs
      node in
  let provider := default "osfstorage" (kwargs_provider kwargs) in
  (given (kwargs_path kwargs) = false ->
   given (kwargs_fid kwargs) = false ->
   answer
   = inl (if String.eqb provider "osfstorage"
          then match get_addon node "osfstorage" with
               | Some _ => UnboundLocalError
               | None => Raised AttributeError
               end
          else UnboundLocalError))
  /\ (has_key "path" (request_args request)
      || has_key "provider" (request_args request) = true ->
      forall r, answer <> inr r)
  /\ (forall code,
        answer = inl (Raised (HTTPError code)) ->
        code = NOT_FOUND /\ provider = "osfstorage"
        /\ exists node_settings name,
             get_addon node "osfstorage" = Some node_settings
             /\ (if given (kwargs_path kwargs) then kwargs_path kwargs
                 else kwargs_fid kwargs) = Some name
             /\ find_child_by_name node_settings name = None).
Proof.
  cbv zeta.
  assert (Hprov : default "osfstorage" (kwargs_provider kwargs)
                  = match kwargs_provider kwargs with
                    | Some p => p
                    | None => "osfstorage"
                    end).
  { destruct (kwargs_provider kwargs); reflexivity. }
  rewrite Hprov. clear Hprov.
  unfold addon_view_or_download_file_legacy. cbv zeta.
  set (provider := match kwargs_provider kwargs with
                   | Some p => p
                   | None => "osfstorage"
                   end).
  set (qp := match kwargs_vid kwargs with
             | Some vid =>
                 if String.eqb vid ""
                 then pop "action" (to_dict (request_args request))
                 else dict_with [("version", vid)]
                        (pop "action" (to_dict (request_args request)))
             | None => pop "action" (to_dict (request_args request))
             end).
  assert (Hqp : forall k,
            ViewsAuth.lookup k qp
            = if String.eqb k "version" && given (kwargs_vid kwargs)
              then kwargs_vid kwargs
              else if String.eqb k "action" then None
              else ViewsAuth.lookup k (request_args request))
    by (intros k; apply legacy_query_lookup).
  split; [| split].
  - intros -> ->.
    destruct (String.eqb provider "osfstorage"); [| reflexivity].
    destruct (get_addon node "osfstorage"); reflexivity.
  - intros Hkeys r.
    assert (Hdup : has_key "path" qp || has_key "provider" qp = true).
    { unfold has_key in *. rewrite !Hqp.
      cbn [String.eqb Ascii.eqb Bool.eqb andb]. exact Hkeys. }
    rewrite Hdup.
    destruct (String.eqb provider "osfstorage").
    + destruct (get_addon node "osfstorage"); [| discriminate].
      destruct (if given (kwargs_path kwargs) then kwargs_path kwargs
                else if given (kwargs_fid kwargs) then kwargs_fid kwargs
                else None); [| discriminate].
      destruct (find_child_by_name _ _); discriminate.
    + destruct (if given (kwargs_path kwargs) then kwargs_path kwargs
                else if given (kwargs_fid kwargs) then kwargs_fid kwargs
                else None); discriminate.
  - intros code.
    destruct (String.eqb provider "osfstorage") eqn:Hosf.
    + apply String.eqb_eq in Hosf.
      destruct (get_addon node "osfstorage") as [ns|]; [| discriminate].
      destruct (given (kwargs_path kwargs)) eqn:Hp.
      * destruct (kwargs_path kwargs) as [name|]; [| discriminate].
        destruct (find_child_by_name ns name) eqn:Hchild.
        -- destruct (has_key "path" qp || has_key "provider" qp);
             discriminate.
        -- intros H. injection H as <-. split; [reflexivity |].
           split; [exact Hosf |]. exists ns, name. auto.
      * destruct (given (kwargs_fid kwargs)) eqn:Hf; [| discriminate].
        destruct (kwargs_fid kwargs) as [name|]; [| discriminate].
        destruct (find_child_by_name ns name) eqn:Hchild.
        -- destruct (has_key "path" qp || has_key "provider" qp);
             discriminate.
        -- intros H. injection H as <-. split; [reflexivity |].
           split; [exact Hosf |]. exists ns, name. auto.
    + destruct (if given (kwargs_path kwargs) then kwargs_path kwargs
                else if given (kwargs_fid kwargs) then kwargs_fid kwargs
                else None); [| discriminate].
      destruct (has_key "path" qp || has_key "provider" qp); discriminate.
Qed.

Lemma legacy_link_failures_witness :
  addon_view_or_download_file_legacy LegacyFixtures.children
    LegacyFixtures.api_request LegacyFixtures.bare_kwargs
    Fixtures.private_project
  = inl UnboundLocalError.
Proof.
  refine (proj1 (legacy_link_failures LegacyFixtures.children
                   LegacyFixtures.api_request LegacyFixtures.bare_kwargs
                   Fixtures.private_project) _ _); reflexivity.
Defined.

End LegacyLinks.
